(** * KYC verification lifecycle: a shallow embedding of the service

    The development follows the TypeScript module [modules/kyc]:
    the entity ([KycVerification], [KycStatus], [KycLevel]), the DTOs,
    [KycService] (initiateKyc, the point lookups, updateKyc,
    handleWebhook, manualReview, retryKyc, isUserVerified,
    getUserVerificationLevel, the paginated listings and the statistics),
    the webhook signature check and the HTTP error mapping of
    [KycProviderService], the webhook endpoint of [KycController] and
    [KycGuard].

    Conventions.
    - A [Date] is a [Z]: milliseconds since the epoch.  [new Date()] reads
      the clock, which every operation receives as its argument [now].  An
      ISO date string ([dateOfBirth]) is identified with the instant it
      denotes.
    - A nullable column or an optional property is an [option]; [None]
      stands for [null], [undefined] and an absent key alike, except where
      the code tells them apart: a property of the PATCH body is absent or
      present (possibly [null]), and an [expiresAt] that [retryKyc] sets
      to [undefined] is left out of the UPDATE.
    - A JS string is a [string] of UTF-8 bytes.
    - The TypeORM repository is a table ([rows], kept in insertion order)
      with a key generator; the event emitter is a log of emitted events.
      Both live in the [World] that the operations thread through.
    - The HTTP call to the provider is an argument of the operation: the
      answer the provider gives during that call. *)

From Stdlib Require Import ZArith List String Ascii Bool Lia Sorted Permutation.
From stdpp Require Import base decidable option list gmap strings.

Open Scope string_scope.

(** ** Entity: enums *)

Inductive KycStatus : Type :=
  | PENDING | IN_PROGRESS | APPROVED | REJECTED | EXPIRED | REQUIRES_REVIEW.

Inductive KycLevel : Type := BASIC | INTERMEDIATE | ADVANCED.

Inductive RiskLevel : Type := low | medium | high.

#[global] Instance KycStatus_eq_dec : EqDecision KycStatus.
Proof. solve_decision. Defined.

#[global] Instance KycLevel_eq_dec : EqDecision KycLevel.
Proof. solve_decision. Defined.

#[global] Instance RiskLevel_eq_dec : EqDecision RiskLevel.
Proof. solve_decision. Defined.

(** A value stored under a metadata key ([Record<string, any>]). *)
Inductive JsValue : Type :=
  | JsNull
  | JsBool (b : bool)
  | JsNumber (n : Z)
  | JsString (s : string).

(** [Record<string, any>] used as a dictionary. *)
Abbreviation Metadata := (gmap string JsValue).

Record RiskAssessment : Type := {
  riskLevel : RiskLevel;
  score : Z;
  flags : list string
}.

(** ** Entity: the row of table [kyc_verifications] *)

Record KycVerification : Type := {
  id : nat;
  userId : string;
  verificationId : string;
  status : KycStatus;
  level : KycLevel;
  verificationUrl : string;
  firstName : string;
  lastName : string;
  email : string;
  phoneNumber : option string;
  dateOfBirth : option Z;
  nationality : option string;
  documentType : option string;
  documentNumber : option string;
  address : option string;
  city : option string;
  state : option string;
  postalCode : option string;
  country : option string;
  metadata : option Metadata;
  rejectionReason : option string;
  riskAssessment : option RiskAssessment;
  submittedAt : option Z;
  completedAt : option Z;
  expiresAt : option Z;
  provider : string;
  attemptCount : Z;
  isManualReview : bool;
  reviewedBy : option string;
  reviewNotes : option string;
  createdAt : Z;
  updatedAt : Z
}.

(** Field assignment [kyc.f = v], one function per assigned column. *)

Definition set_id (v : nat) (k : KycVerification) : KycVerification :=
  Build_KycVerification v (userId k) (verificationId k) (status k) (level k)
    (verificationUrl k) (firstName k) (lastName k) (email k) (phoneNumber k)
    (dateOfBirth k) (nationality k) (documentType k) (documentNumber k) (address
    k) (city k) (state k) (postalCode k) (country k) (metadata k)
    (rejectionReason k) (riskAssessment k) (submittedAt k) (completedAt k)
    (expiresAt k) (provider k) (attemptCount k) (isManualReview k) (reviewedBy
    k) (reviewNotes k) (createdAt k) (updatedAt k).

Definition set_verificationId (v : string) (k : KycVerification) : KycVerification :=
  Build_KycVerification (id k) (userId k) v (status k) (level k)
    (verificationUrl k) (firstName k) (lastName k) (email k) (phoneNumber k)
    (dateOfBirth k) (nationality k) (documentType k) (documentNumber k) (address
    k) (city k) (state k) (postalCode k) (country k) (metadata k)
    (rejectionReason k) (riskAssessment k) (submittedAt k) (completedAt k)
    (expiresAt k) (provider k) (attemptCount k) (isManualReview k) (reviewedBy
    k) (reviewNotes k) (createdAt k) (updatedAt k).

Definition set_status (v : KycStatus) (k : KycVerification) : KycVerification :=
  Build_KycVerification (id k) (userId k) (verificationId k) v (level k)
    (verificationUrl k) (firstName k) (lastName k) (email k) (phoneNumber k)
    (dateOfBirth k) (nationality k) (documentType k) (documentNumber k) (address
    k) (city k) (state k) (postalCode k) (country k) (metadata k)
    (rejectionReason k) (riskAssessment k) (submittedAt k) (completedAt k)
    (expiresAt k) (provider k) (attemptCount k) (isManualReview k) (reviewedBy
    k) (reviewNotes k) (createdAt k) (updatedAt k).

Definition set_verificationUrl (v : string) (k : KycVerification) : KycVerification :=
  Build_KycVerification (id k) (userId k) (verificationId k) (status k) (level
    k) v (firstName k) (lastName k) (email k) (phoneNumber k) (dateOfBirth k)
    (nationality k) (documentType k) (documentNumber k) (address k) (city k)
    (state k) (postalCode k) (country k) (metadata k) (rejectionReason k)
    (riskAssessment k) (submittedAt k) (completedAt k) (expiresAt k) (provider
    k) (attemptCount k) (isManualReview k) (reviewedBy k) (reviewNotes k)
    (createdAt k) (updatedAt k).

Definition set_documentType (v : option string) (k : KycVerification) : KycVerification :=
  Build_KycVerification (id k) (userId k) (verificationId k) (status k) (level
    k) (verificationUrl k) (firstName k) (lastName k) (email k) (phoneNumber k)
    (dateOfBirth k) (nationality k) v (documentNumber k) (address k) (city k)
    (state k) (postalCode k) (country k) (metadata k) (rejectionReason k)
    (riskAssessment k) (submittedAt k) (completedAt k) (expiresAt k) (provider
    k) (attemptCount k) (isManualReview k) (reviewedBy k) (reviewNotes k)
    (createdAt k) (updatedAt k).

Definition set_documentNumber (v : option string) (k : KycVerification) : KycVerification :=
  Build_KycVerification (id k) (userId k) (verificationId k) (status k) (level
    k) (verificationUrl k) (firstName k) (lastName k) (email k) (phoneNumber k)
    (dateOfBirth k) (nationality k) (documentType k) v (address k) (city k)
    (state k) (postalCode k) (country k) (metadata k) (rejectionReason k)
    (riskAssessment k) (submittedAt k) (completedAt k) (expiresAt k) (provider
    k) (attemptCount k) (isManualReview k) (reviewedBy k) (reviewNotes k)
    (createdAt k) (updatedAt k).

Definition set_address (v : option string) (k : KycVerification) : KycVerification :=
  Build_KycVerification (id k) (userId k) (verificationId k) (status k) (level
    k) (verificationUrl k) (firstName k) (lastName k) (email k) (phoneNumber k)
    (dateOfBirth k) (nationality k) (documentType k) (documentNumber k) v (city
    k) (state k) (postalCode k) (country k) (metadata k) (rejectionReason k)
    (riskAssessment k) (submittedAt k) (completedAt k) (expiresAt k) (provider
    k) (attemptCount k) (isManualReview k) (reviewedBy k) (reviewNotes k)
    (createdAt k) (updatedAt k).

Definition set_city (v : option string) (k : KycVerification) : KycVerification :=
  Build_KycVerification (id k) (userId k) (verificationId k) (status k) (level
    k) (verificationUrl k) (firstName k) (lastName k) (email k) (phoneNumber k)
    (dateOfBirth k) (nationality k) (documentType k) (documentNumber k) (address
    k) v (state k) (postalCode k) (country k) (metadata k) (rejectionReason k)
    (riskAssessment k) (submittedAt k) (completedAt k) (expiresAt k) (provider
    k) (attemptCount k) (isManualReview k) (reviewedBy k) (reviewNotes k)
    (createdAt k) (updatedAt k).

Definition set_state (v : option string) (k : KycVerification) : KycVerification :=
  Build_KycVerification (id k) (userId k) (verificationId k) (status k) (level
    k) (verificationUrl k) (firstName k) (lastName k) (email k) (phoneNumber k)
    (dateOfBirth k) (nationality k) (documentType k) (documentNumber k) (address
    k) (city k) v (postalCode k) (country k) (metadata k) (rejectionReason k)
    (riskAssessment k) (submittedAt k) (completedAt k) (expiresAt k) (provider
    k) (attemptCount k) (isManualReview k) (reviewedBy k) (reviewNotes k)
    (createdAt k) (updatedAt k).

Definition set_postalCode (v : option string) (k : KycVerification) : KycVerification :=
  Build_KycVerification (id k) (userId k) (verificationId k) (status k) (level
    k) (verificationUrl k) (firstName k) (lastName k) (email k) (phoneNumber k)
    (dateOfBirth k) (nationality k) (documentType k) (documentNumber k) (address
    k) (city k) (state k) v (country k) (metadata k) (rejectionReason k)
    (riskAssessment k) (submittedAt k) (completedAt k) (expiresAt k) (provider
    k) (attemptCount k) (isManualReview k) (reviewedBy k) (reviewNotes k)
    (createdAt k) (updatedAt k).

Definition set_metadata (v : option Metadata) (k : KycVerification) : KycVerification :=
  Build_KycVerification (id k) (userId k) (verificationId k) (status k) (level
    k) (verificationUrl k) (firstName k) (lastName k) (email k) (phoneNumber k)
    (dateOfBirth k) (nationality k) (documentType k) (documentNumber k) (address
    k) (city k) (state k) (postalCode k) (country k) v (rejectionReason k)
    (riskAssessment k) (submittedAt k) (completedAt k) (expiresAt k) (provider
    k) (attemptCount k) (isManualReview k) (reviewedBy k) (reviewNotes k)
    (createdAt k) (updatedAt k).

Definition set_rejectionReason (v : option string) (k : KycVerification) : KycVerification :=
  Build_KycVerification (id k) (userId k) (verificationId k) (status k) (level
    k) (verificationUrl k) (firstName k) (lastName k) (email k) (phoneNumber k)
    (dateOfBirth k) (nationality k) (documentType k) (documentNumber k) (address
    k) (city k) (state k) (postalCode k) (country k) (metadata k) v
    (riskAssessment k) (submittedAt k) (completedAt k) (expiresAt k) (provider
    k) (attemptCount k) (isManualReview k) (reviewedBy k) (reviewNotes k)
    (createdAt k) (updatedAt k).

Definition set_riskAssessment (v : option RiskAssessment) (k : KycVerification) : KycVerification :=
  Build_KycVerification (id k) (userId k) (verificationId k) (status k) (level
    k) (verificationUrl k) (firstName k) (lastName k) (email k) (phoneNumber k)
    (dateOfBirth k) (nationality k) (documentType k) (documentNumber k) (address
    k) (city k) (state k) (postalCode k) (country k) (metadata k)
    (rejectionReason k) v (submittedAt k) (completedAt k) (expiresAt k)
    (provider k) (attemptCount k) (isManualReview k) (reviewedBy k) (reviewNotes
    k) (createdAt k) (updatedAt k).

Definition set_submittedAt (v : option Z) (k : KycVerification) : KycVerification :=
  Build_KycVerification (id k) (userId k) (verificationId k) (status k) (level
    k) (verificationUrl k) (firstName k) (lastName k) (email k) (phoneNumber k)
    (dateOfBirth k) (nationality k) (documentType k) (documentNumber k) (address
    k) (city k) (state k) (postalCode k) (country k) (metadata k)
    (rejectionReason k) (riskAssessment k) v (completedAt k) (expiresAt k)
    (provider k) (attemptCount k) (isManualReview k) (reviewedBy k) (reviewNotes
    k) (createdAt k) (updatedAt k).

Definition set_completedAt (v : option Z) (k : KycVerification) : KycVerification :=
  Build_KycVerification (id k) (userId k) (verificationId k) (status k) (level
    k) (verificationUrl k) (firstName k) (lastName k) (email k) (phoneNumber k)
    (dateOfBirth k) (nationality k) (documentType k) (documentNumber k) (address
    k) (city k) (state k) (postalCode k) (country k) (metadata k)
    (rejectionReason k) (riskAssessment k) (submittedAt k) v (expiresAt k)
    (provider k) (attemptCount k) (isManualReview k) (reviewedBy k) (reviewNotes
    k) (createdAt k) (updatedAt k).

Definition set_expiresAt (v : option Z) (k : KycVerification) : KycVerification :=
  Build_KycVerification (id k) (userId k) (verificationId k) (status k) (level
    k) (verificationUrl k) (firstName k) (lastName k) (email k) (phoneNumber k)
    (dateOfBirth k) (nationality k) (documentType k) (documentNumber k) (address
    k) (city k) (state k) (postalCode k) (country k) (metadata k)
    (rejectionReason k) (riskAssessment k) (submittedAt k) (completedAt k) v
    (provider k) (attemptCount k) (isManualReview k) (reviewedBy k) (reviewNotes
    k) (createdAt k) (updatedAt k).

Definition set_attemptCount (v : Z) (k : KycVerification) : KycVerification :=
  Build_KycVerification (id k) (userId k) (verificationId k) (status k) (level
    k) (verificationUrl k) (firstName k) (lastName k) (email k) (phoneNumber k)
    (dateOfBirth k) (nationality k) (documentType k) (documentNumber k) (address
    k) (city k) (state k) (postalCode k) (country k) (metadata k)
    (rejectionReason k) (riskAssessment k) (submittedAt k) (completedAt k)
    (expiresAt k) (provider k) v (isManualReview k) (reviewedBy k) (reviewNotes
    k) (createdAt k) (updatedAt k).

Definition set_isManualReview (v : bool) (k : KycVerification) : KycVerification :=
  Build_KycVerification (id k) (userId k) (verificationId k) (status k) (level
    k) (verificationUrl k) (firstName k) (lastName k) (email k) (phoneNumber k)
    (dateOfBirth k) (nationality k) (documentType k) (documentNumber k) (address
    k) (city k) (state k) (postalCode k) (country k) (metadata k)
    (rejectionReason k) (riskAssessment k) (submittedAt k) (completedAt k)
    (expiresAt k) (provider k) (attemptCount k) v (reviewedBy k) (reviewNotes k)
    (createdAt k) (updatedAt k).

Definition set_reviewedBy (v : option string) (k : KycVerification) : KycVerification :=
  Build_KycVerification (id k) (userId k) (verificationId k) (status k) (level
    k) (verificationUrl k) (firstName k) (lastName k) (email k) (phoneNumber k)
    (dateOfBirth k) (nationality k) (documentType k) (documentNumber k) (address
    k) (city k) (state k) (postalCode k) (country k) (metadata k)
    (rejectionReason k) (riskAssessment k) (submittedAt k) (completedAt k)
    (expiresAt k) (provider k) (attemptCount k) (isManualReview k) v
    (reviewNotes k) (createdAt k) (updatedAt k).

Definition set_reviewNotes (v : option string) (k : KycVerification) : KycVerification :=
  Build_KycVerification (id k) (userId k) (verificationId k) (status k) (level
    k) (verificationUrl k) (firstName k) (lastName k) (email k) (phoneNumber k)
    (dateOfBirth k) (nationality k) (documentType k) (documentNumber k) (address
    k) (city k) (state k) (postalCode k) (country k) (metadata k)
    (rejectionReason k) (riskAssessment k) (submittedAt k) (completedAt k)
    (expiresAt k) (provider k) (attemptCount k) (isManualReview k) (reviewedBy
    k) v (createdAt k) (updatedAt k).

Definition set_createdAt (v : Z) (k : KycVerification) : KycVerification :=
  Build_KycVerification (id k) (userId k) (verificationId k) (status k) (level
    k) (verificationUrl k) (firstName k) (lastName k) (email k) (phoneNumber k)
    (dateOfBirth k) (nationality k) (documentType k) (documentNumber k) (address
    k) (city k) (state k) (postalCode k) (country k) (metadata k)
    (rejectionReason k) (riskAssessment k) (submittedAt k) (completedAt k)
    (expiresAt k) (provider k) (attemptCount k) (isManualReview k) (reviewedBy
    k) (reviewNotes k) v (updatedAt k).

Definition set_updatedAt (v : Z) (k : KycVerification) : KycVerification :=
  Build_KycVerification (id k) (userId k) (verificationId k) (status k) (level
    k) (verificationUrl k) (firstName k) (lastName k) (email k) (phoneNumber k)
    (dateOfBirth k) (nationality k) (documentType k) (documentNumber k) (address
    k) (city k) (state k) (postalCode k) (country k) (metadata k)
    (rejectionReason k) (riskAssessment k) (submittedAt k) (completedAt k)
    (expiresAt k) (provider k) (attemptCount k) (isManualReview k) (reviewedBy
    k) (reviewNotes k) (createdAt k) v.

(** ** DTOs and provider interface

    Each TypeScript class or interface is a record in a module of the same
    name, so that the property names stay those of the source. *)

Module InitiateKycDto.
Record t : Type := {
  userId : string;
  level : option KycLevel;
  firstName : string;
  lastName : string;
  email : string;
  phoneNumber : option string;
  dateOfBirth : option Z;
  country : option string;
  metadata : option Metadata
}.
End InitiateKycDto.

(** A property of the patch is absent ([None]), or present with a value
    for the column: [Some None] is [null], which [@IsOptional()] lets
    through. *)
Module UpdateKycDto.
Record t : Type := {
  address : option (option string);
  city : option (option string);
  state : option (option string);
  postalCode : option (option string);
  documentType : option (option string);
  documentNumber : option (option string);
  metadata : option (option Metadata)
}.
End UpdateKycDto.

Module ManualReviewDto.
Record t : Type := {
  status : KycStatus;
  reviewNotes : string;
  reviewedBy : string
}.
End ManualReviewDto.

(** The [data: any] argument of [handleWebhook]: the properties the
    function reads.  [requiresReview] records whether that property is
    present and truthy. *)
Module WebhookData.
Record t : Type := {
  rejectionReason : option string;
  riskAssessment : option RiskAssessment;
  metadata : option Metadata;
  requiresReview : bool
}.
End WebhookData.

Module KycVerificationData.
Record t : Type := {
  firstName : string;
  lastName : string;
  email : string;
  phoneNumber : option string;
  dateOfBirth : option Z;
  country : option string;
  level : KycLevel;
  userId : string;
  metadata : option Metadata
}.
End KycVerificationData.

Module KycProviderResponse.
Record t : Type := {
  verificationId : string;
  verificationUrl : string;
  status : string;
  expiresAt : option Z
}.
End KycProviderResponse.

(** ** Exceptions, events, and the world the service runs in *)

Inductive Exception : Type :=
  | NotFoundException (message : string)
  | BadRequestException (message : string)
  | ConflictException (message : string)
  | HttpException (message : string) (httpStatus : Z)
  | TypeError (message : string)
  | RangeError (message : string).

(** Result of evaluating a JS expression or call: a value or a throw. *)
Inductive Completion (A : Type) : Type :=
  | Normal (a : A)
  | Throw (e : Exception).

Arguments Normal {A} a.
Arguments Throw {A} e.

(** Payloads handed to [eventEmitter.emit], tagged by the event name. *)
Inductive Event : Type :=
  | kyc_initiated (kycId : nat) (userId verificationId : string)
  | kyc_status_changed (kycId : nat) (userId : string)
      (oldStatus newStatus : KycStatus) (verificationId : string)
  | kyc_approved (kycId : nat) (userId : string) (level : KycLevel)
  | kyc_rejected (kycId : nat) (userId : string) (reason : option string)
  | kyc_manually_reviewed (kycId : nat) (userId : string)
      (status : KycStatus) (reviewedBy : string).

Record World : Type := {
  rows : list KycVerification;   (* table kyc_verifications *)
  lastId : nat;                  (* last primary key handed out *)
  emitted : list Event           (* events emitted so far, oldest first *)
}.

Definition emptyWorld : World := {| rows := []; lastId := 0; emitted := [] |}.

(** State-and-exception monad of the service methods.  A throw keeps the
    world reached so far, as an exception in JS keeps earlier effects. *)
Definition M (A : Type) : Type := World -> Completion A * World.

Definition ret {A} (a : A) : M A := fun w => (Normal a, w).

Definition throw {A} (e : Exception) : M A := fun w => (Throw e, w).

Definition bind {A B} (m : M A) (f : A -> M B) : M B :=
  fun w =>
    match m w with
    | (Normal a, w') => f a w'
    | (Throw e, w') => (Throw e, w')
    end.

Notation "'let*' x ':=' m 'in' f" := (bind m (fun x => f))
  (at level 10, x name, m at level 100, f at level 200).
Notation "m ';;' f" := (bind m (fun _ => f))
  (at level 100, f at level 200, right associativity).

(** The provider service injected into [KycService], as it answers during
    one call: [createVerification] either resolves with the mapped provider
    response or rejects with the [HttpException] built in its [catch]. *)
Record KycProviderService : Type := {
  createVerification : KycVerificationData.t -> Completion KycProviderResponse.t;
  getProviderName : string
}.

Definition await {A} (c : Completion A) : M A := fun w => (c, w).

(** ** The repository (TypeORM [Repository<KycVerification>])

    The table is a list of rows in insertion order.  The database is not
    part of the module; what the service relies on is modelled here:
    [findOne] returns the first row that satisfies the [where] clause,
    [save] inserts an entity without primary key under a fresh one and
    otherwise rewrites the row with the entity's key, and the
    [CreateDateColumn] / [UpdateDateColumn] are stamped by [save].  A
    [save] of a stored entity is an UPDATE that stamps [updatedAt] in
    every case; TypeORM omits the UPDATE when no column of the entity
    differs from its row, and [updatedAt] then keeps its value, which is
    the one column where the table here and the database can differ.  The
    generated uuid is a counter.  A failure of the database itself (a
    lost connection, a violated unique index on [verificationId]) is
    outside the model: [save] always succeeds. *)

Definition findOne (where_ : KycVerification -> bool) : M (option KycVerification) :=
  fun w => (Normal (find where_ (rows w)), w).

(** [a] sorts strictly before [b] under [ORDER BY ... DESC], where the
    database (PostgreSQL) puts NULL first. *)
Definition descBefore (a b : option Z) : bool :=
  match a, b with
  | None, Some _ => true
  | Some x, Some y => (y <? x)%Z
  | _, None => false
  end.

(** First row of the rows satisfying [where_] once sorted by [key]
    descending; among rows with equal keys the earlier row is kept. *)
Definition firstDesc (key : KycVerification -> option Z)
    (where_ : KycVerification -> bool) (l : list KycVerification)
    : option KycVerification :=
  fold_left
    (fun best r =>
       if where_ r then
         match best with
         | None => Some r
         | Some b => if descBefore (key r) (key b) then Some r else Some b
         end
       else best)
    l None.

Definition findOneOrderDesc (key : KycVerification -> option Z)
    (where_ : KycVerification -> bool) : M (option KycVerification) :=
  fun w => (Normal (firstDesc key where_ (rows w)), w).

(** [save]: an entity whose primary key is in the table is written over
    its row; any other entity is inserted under a fresh key.  An entity
    built by [create] carries no key, which is key [0] here: the generator
    hands out keys from [1] upwards. *)
Definition sameId (k r : KycVerification) : bool := (id r =? id k)%nat.

(** Rows of [l] with the key of [k] replaced by [k']: the UPDATE of [save]. *)
Definition replaceRow (k k' : KycVerification) (l : list KycVerification)
    : list KycVerification :=
  map (fun r => if sameId k r then k' else r) l.

Definition save (now : Z) (k : KycVerification) : M KycVerification :=
  fun w =>
    if existsb (sameId k) (rows w) then
      let k' := set_updatedAt now k in
      (Normal k',
       {| rows := replaceRow k k' (rows w);
          lastId := lastId w;
          emitted := emitted w |})
    else
      let k' :=
        set_id (S (lastId w)) (set_createdAt now (set_updatedAt now k)) in
      (Normal k',
       {| rows := rows w ++ [k'];
          lastId := S (lastId w);
          emitted := emitted w |}).

Definition emit (e : Event) : M unit :=
  fun w =>
    (Normal tt,
     {| rows := rows w; lastId := lastId w; emitted := emitted w ++ [e] |}).

(** [repository.create({...})] of [initiateKyc]: the listed properties,
    every other column at its default ([null], [false]); no primary key. *)
Definition create (userId verificationId verificationUrl : string)
    (status : KycStatus) (level : KycLevel)
    (firstName lastName email : string) (phoneNumber : option string)
    (dateOfBirth : option Z) (country : option string) (provider : string)
    (submittedAt expiresAt : option Z) (metadata : option Metadata)
    (attemptCount : Z) : KycVerification :=
  {| id := 0;
     userId := userId;
     verificationId := verificationId;
     status := status;
     level := level;
     verificationUrl := verificationUrl;
     firstName := firstName;
     lastName := lastName;
     email := email;
     phoneNumber := phoneNumber;
     dateOfBirth := dateOfBirth;
     nationality := None;
     documentType := None;
     documentNumber := None;
     address := None;
     city := None;
     state := None;
     postalCode := None;
     country := country;
     metadata := metadata;
     rejectionReason := None;
     riskAssessment := None;
     submittedAt := submittedAt;
     completedAt := None;
     expiresAt := expiresAt;
     provider := provider;
     attemptCount := attemptCount;
     isManualReview := false;
     reviewedBy := None;
     reviewNotes := None;
     createdAt := 0;
     updatedAt := 0 |}.

(** ** KycService *)

(** JS truthiness of an optional string: present and not empty. *)
Definition truthy (s : option string) : bool :=
  match s with
  | Some s => negb (bool_decide (s = ""))
  | None => false
  end.

(** [isKycExpired]: [new Date() > kyc.expiresAt], false without expiry. *)
Definition isKycExpired (now : Z) (kyc : KycVerification) : bool :=
  match expiresAt kyc with
  | None => false
  | Some e => (e <? now)%Z
  end.

Definition whereUserStatus (u : string) (st : KycStatus) (r : KycVerification) : bool :=
  bool_decide (userId r = u) && bool_decide (status r = st).

Definition initiateKyc (svc : KycProviderService) (now : Z)
    (dto : InitiateKycDto.t) : M KycVerification :=
  let* existingKyc :=
    findOne (whereUserStatus (InitiateKycDto.userId dto) IN_PROGRESS) in
  if bool_decide (is_Some existingKyc) then
    throw (ConflictException "User already has a KYC verification in progress")
  else
    let* verifiedKyc :=
      findOne (whereUserStatus (InitiateKycDto.userId dto) APPROVED) in
    if match verifiedKyc with
       | Some v => negb (isKycExpired now v)
       | None => false
       end
    then throw (ConflictException "User is already verified")
    else
      let* providerResponse :=
        await (createVerification svc
          {| KycVerificationData.firstName := InitiateKycDto.firstName dto;
             KycVerificationData.lastName := InitiateKycDto.lastName dto;
             KycVerificationData.email := InitiateKycDto.email dto;
             KycVerificationData.phoneNumber := InitiateKycDto.phoneNumber dto;
             KycVerificationData.dateOfBirth := InitiateKycDto.dateOfBirth dto;
             KycVerificationData.country := InitiateKycDto.country dto;
             KycVerificationData.level := default BASIC (InitiateKycDto.level dto);
             KycVerificationData.userId := InitiateKycDto.userId dto;
             KycVerificationData.metadata := InitiateKycDto.metadata dto |}) in
      let kyc :=
        create (InitiateKycDto.userId dto)
          (KycProviderResponse.verificationId providerResponse)
          (KycProviderResponse.verificationUrl providerResponse)
          PENDING
          (default BASIC (InitiateKycDto.level dto))
          (InitiateKycDto.firstName dto) (InitiateKycDto.lastName dto)
          (InitiateKycDto.email dto) (InitiateKycDto.phoneNumber dto)
          (InitiateKycDto.dateOfBirth dto) (InitiateKycDto.country dto)
          (getProviderName svc)
          (Some now)
          (KycProviderResponse.expiresAt providerResponse)
          (InitiateKycDto.metadata dto)
          1%Z in
      let* savedKyc := save now kyc in
      emit (kyc_initiated (id savedKyc) (userId savedKyc) (verificationId savedKyc));;
      ret savedKyc.

Definition whereUser (u : string) (r : KycVerification) : bool :=
  bool_decide (userId r = u).

Definition whereVerificationId (vid : string) (r : KycVerification) : bool :=
  bool_decide (verificationId r = vid).

Definition whereId (i : nat) (r : KycVerification) : bool := (id r =? i)%nat.

Definition getKycByUserId (u : string) : M KycVerification :=
  let* kyc :=
    findOneOrderDesc (fun r => Some (createdAt r))
      (whereUser u) in
  match kyc with
  | None => throw (NotFoundException "KYC verification not found for user")
  | Some kyc => ret kyc
  end.

Definition getKycByVerificationId (vid : string) : M KycVerification :=
  let* kyc := findOne (whereVerificationId vid) in
  match kyc with
  | None => throw (NotFoundException "KYC verification not found")
  | Some kyc => ret kyc
  end.

Definition getKycById (i : nat) : M KycVerification :=
  let* kyc := findOne (whereId i) in
  match kyc with
  | None => throw (NotFoundException "KYC verification not found")
  | Some kyc => ret kyc
  end.

(** [Object.assign(kyc, dto)]: every property the DTO carries overwrites
    the column of the same name, a [null] included; the columns of absent
    properties are left as they are. *)
Definition assignOpt {A} (set : option A -> KycVerification -> KycVerification)
    (v : option (option A)) (k : KycVerification) : KycVerification :=
  match v with
  | Some v => set v k
  | None => k
  end.

Definition Object_assign (kyc : KycVerification) (dto : UpdateKycDto.t) : KycVerification :=
  let kyc := assignOpt set_address (UpdateKycDto.address dto) kyc in
  let kyc := assignOpt set_city (UpdateKycDto.city dto) kyc in
  let kyc := assignOpt set_state (UpdateKycDto.state dto) kyc in
  let kyc := assignOpt set_postalCode (UpdateKycDto.postalCode dto) kyc in
  let kyc := assignOpt set_documentType (UpdateKycDto.documentType dto) kyc in
  let kyc := assignOpt set_documentNumber (UpdateKycDto.documentNumber dto) kyc in
  assignOpt set_metadata (UpdateKycDto.metadata dto) kyc.

Definition updateKyc (now : Z) (i : nat) (dto : UpdateKycDto.t) : M KycVerification :=
  let* kyc := getKycById i in
  if bool_decide (status kyc = APPROVED) then
    throw (BadRequestException "Cannot update approved KYC verification")
  else
    save now (Object_assign kyc dto).

(** [data.riskAssessment?.riskLevel === 'high' || data.requiresReview] *)
Definition needsManualReview (data : WebhookData.t) : bool :=
  match WebhookData.riskAssessment data with
  | Some ra => bool_decide (riskLevel ra = high)
  | None => false
  end
  || WebhookData.requiresReview data.

(** [{ ...kyc.metadata, ...data.metadata }]: the keys of both, the
    payload's value where both have the key.  Spreading [null] adds
    nothing. *)
Definition spread (old : option Metadata) (new : Metadata) : Metadata :=
  new ∪ default ∅ old.

Arguments spread : simpl never.

(** The assignments [handleWebhook] makes to the loaded entity before it
    saves it (source lines 192-219), in their order. *)
Definition webhookAssign (now : Z) (newStatus : KycStatus)
    (data : WebhookData.t) (kyc : KycVerification) : KycVerification :=
  let kyc := set_status newStatus kyc in
  let kyc :=
    if truthy (WebhookData.rejectionReason data)
    then set_rejectionReason (WebhookData.rejectionReason data) kyc
    else kyc in
  let kyc :=
    match WebhookData.riskAssessment data with
    | Some ra => set_riskAssessment (Some ra) kyc
    | None => kyc
    end in
  let kyc :=
    match WebhookData.metadata data with
    | Some m => set_metadata (Some (spread (metadata kyc) m)) kyc
    | None => kyc
    end in
  let kyc :=
    if bool_decide (newStatus = APPROVED) || bool_decide (newStatus = REJECTED)
    then set_completedAt (Some now) kyc
    else kyc in
  if needsManualReview data
  then set_isManualReview true (set_status REQUIRES_REVIEW kyc)
  else kyc.

Definition handleWebhook (now : Z) (vid : string) (newStatus : KycStatus)
    (data : WebhookData.t) : M KycVerification :=
  let* kyc := getKycByVerificationId vid in
  let oldStatus := status kyc in
  let kyc := webhookAssign now newStatus data kyc in
  let* updatedKyc := save now kyc in
  emit (kyc_status_changed (id updatedKyc) (userId updatedKyc)
          oldStatus newStatus vid);;
  (if bool_decide (newStatus = APPROVED) then
     emit (kyc_approved (id updatedKyc) (userId updatedKyc) (level updatedKyc))
   else if bool_decide (newStatus = REJECTED) then
     emit (kyc_rejected (id updatedKyc) (userId updatedKyc)
             (rejectionReason updatedKyc))
   else ret tt);;
  ret updatedKyc.

(** The assignments of [manualReview] (source lines 269-273). *)
Definition reviewAssign (now : Z) (dto : ManualReviewDto.t)
    (kyc : KycVerification) : KycVerification :=
  let kyc := set_status (ManualReviewDto.status dto) kyc in
  let kyc := set_reviewedBy (Some (ManualReviewDto.reviewedBy dto)) kyc in
  let kyc := set_reviewNotes (Some (ManualReviewDto.reviewNotes dto)) kyc in
  let kyc := set_completedAt (Some now) kyc in
  set_isManualReview false kyc.

Definition manualReview (now : Z) (i : nat) (dto : ManualReviewDto.t) : M KycVerification :=
  let* kyc := getKycById i in
  if negb (isManualReview kyc) then
    throw (BadRequestException "This verification does not require manual review")
  else
    let kyc := reviewAssign now dto kyc in
    let* updatedKyc := save now kyc in
    emit (kyc_manually_reviewed (id updatedKyc) (userId updatedKyc)
            (ManualReviewDto.status dto) (ManualReviewDto.reviewedBy dto));;
    ret updatedKyc.

(** The request [retryKyc] builds for the provider from the subject data
    of the stored case (source lines 305-316).  The case was loaded from
    the table, where [dateOfBirth] is a [date] column: TypeORM reads such
    a column back as a string, so [kyc.dateOfBirth?.toISOString()] is
    [undefined] for a case without date of birth and a [TypeError] for a
    case with one. *)
Definition retryRequest (kyc : KycVerification)
    : Completion KycVerificationData.t :=
  match dateOfBirth kyc with
  | Some _ =>
      Throw (TypeError "kyc.dateOfBirth?.toISOString is not a function")
  | None =>
      Normal
        {| KycVerificationData.firstName := firstName kyc;
           KycVerificationData.lastName := lastName kyc;
           KycVerificationData.email := email kyc;
           KycVerificationData.phoneNumber := phoneNumber kyc;
           KycVerificationData.dateOfBirth := None;
           KycVerificationData.country := country kyc;
           KycVerificationData.level := level kyc;
           KycVerificationData.userId := userId kyc;
           KycVerificationData.metadata := metadata kyc |}
  end.

(** The assignments of [retryKyc] (source lines 318-325): the entity in
    memory.  Its [expiresAt] is the provider's, [undefined] ([None] here)
    when the provider gave none. *)
Definition retryAssign (now : Z) (providerResponse : KycProviderResponse.t)
    (kyc : KycVerification) : KycVerification :=
  let kyc := set_verificationId (KycProviderResponse.verificationId providerResponse) kyc in
  let kyc := set_verificationUrl (KycProviderResponse.verificationUrl providerResponse) kyc in
  let kyc := set_status PENDING kyc in
  let kyc := set_submittedAt (Some now) kyc in
  let kyc := set_attemptCount (attemptCount kyc + 1)%Z kyc in
  let kyc := set_expiresAt (KycProviderResponse.expiresAt providerResponse) kyc in
  let kyc := set_completedAt None kyc in
  set_rejectionReason None kyc.

(** The row the UPDATE of [retryKyc] leaves.  [save] leaves a property
    that is [undefined] out of the statement, so when the provider gave no
    [expiresAt] the column keeps the expiry of the stored case. *)
Definition retryRow (providerResponse : KycProviderResponse.t)
    (stored entity : KycVerification) : KycVerification :=
  set_expiresAt
    match KycProviderResponse.expiresAt providerResponse with
    | Some e => Some e
    | None => expiresAt stored
    end
    entity.

(** [save] returns the entity it was given, which still reads [expiresAt]
    as it was assigned. *)
Definition retryKyc (svc : KycProviderService) (now : Z) (i : nat) : M KycVerification :=
  let* kyc := getKycById i in
  if negb (bool_decide (status kyc = REJECTED))
     && negb (bool_decide (status kyc = EXPIRED)) then
    throw (BadRequestException "Can only retry rejected or expired KYC")
  else if (3 <=? attemptCount kyc)%Z then
    throw (BadRequestException "Maximum retry attempts reached")
  else
    let* request := await (retryRequest kyc) in
    let* providerResponse := await (createVerification svc request) in
    let entity := retryAssign now providerResponse kyc in
    let* row := save now (retryRow providerResponse kyc entity) in
    ret (set_expiresAt (expiresAt entity) row).

(** [levels.indexOf(x)] for [levels = [BASIC, INTERMEDIATE, ADVANCED]]. *)
Definition levels : list KycLevel := [BASIC; INTERMEDIATE; ADVANCED].

Definition indexOf (l : list KycLevel) (x : KycLevel) : Z :=
  match list_find (fun y => y = x) l with
  | Some (i, _) => Z.of_nat i
  | None => (-1)%Z
  end.

Definition isUserVerified (now : Z) (u : string) (requiredLevel : option KycLevel) : M bool :=
  let* kyc := findOneOrderDesc completedAt (whereUserStatus u APPROVED) in
  match kyc with
  | None => ret false
  | Some kyc =>
      if isKycExpired now kyc then ret false
      else
        match requiredLevel with
        | Some requiredLevel =>
            let kycLevelIndex := indexOf levels (level kyc) in
            let requiredLevelIndex := indexOf levels requiredLevel in
            ret (requiredLevelIndex <=? kycLevelIndex)%Z
        | None => ret true
        end
  end.

Definition getUserVerificationLevel (now : Z) (u : string) : M (option KycLevel) :=
  let* kyc := findOneOrderDesc completedAt (whereUserStatus u APPROVED) in
  match kyc with
  | Some kyc => if isKycExpired now kyc then ret None else ret (Some (level kyc))
  | None => ret None
  end.

(** Events [handleWebhook] emits for the saved entity [k], in order. *)
Definition webhookEvents (oldStatus newStatus : KycStatus) (vid : string)
    (k : KycVerification) : list Event :=
  kyc_status_changed (id k) (userId k) oldStatus newStatus vid ::
  (if bool_decide (newStatus = APPROVED) then
     [kyc_approved (id k) (userId k) (level k)]
   else if bool_decide (newStatus = REJECTED) then
     [kyc_rejected (id k) (userId k) (rejectionReason k)]
   else []).

(** ** Node.js built-ins behind the signature check

    [crypto.createHmac('sha256', key).update(data).digest('hex')] is
    HMAC (RFC 2104) over SHA-256 (FIPS 180-4), written out on bytes as [Z]
    with 32-bit words as [Z] modulo [2^32]. *)

Module NodeCrypto.

#[local] Open Scope Z_scope.

Definition primes64 : list Z :=
  [2; 3; 5; 7; 11; 13; 17; 19; 23; 29; 31; 37; 41; 43; 47; 53; 59; 61; 67;
   71; 73; 79; 83; 89; 97; 101; 103; 107; 109; 113; 127; 131; 137; 139; 149;
   151; 157; 163; 167; 173; 179; 181; 191; 193; 197; 199; 211; 223; 227; 229;
   233; 239; 241; 251; 257; 263; 269; 271; 277; 281; 283; 293; 307; 311].

(** Largest [m < 2^36] with [m^3 <= x], found bit by bit. *)
Definition cbrt (x : Z) : Z :=
  fold_left
    (fun m i => let m' := m + 2 ^ i in if m' ^ 3 <=? x then m' else m)
    (map Z.of_nat (rev (seq 0 36))) 0.

Definition w32 (x : Z) : Z := x mod 2 ^ 32.

(** First 32 bits of the fractional parts of the cube roots (round
    constants) and square roots (initial hash) of the first primes. *)
Definition K256 : list Z :=
  Eval vm_compute in map (fun p => w32 (cbrt (p * 2 ^ 96))) primes64.

Definition H0 : list Z :=
  Eval vm_compute in map (fun p => w32 (Z.sqrt (p * 2 ^ 64))) (firstn 8 primes64).

Definition rotr (n x : Z) : Z :=
  Z.lor (Z.shiftr x n) (w32 (Z.shiftl x (32 - n))).

Definition Ch (x y z : Z) : Z :=
  Z.lxor (Z.land x y) (Z.land (Z.lxor x (2 ^ 32 - 1)) z).

Definition Maj (x y z : Z) : Z :=
  Z.lxor (Z.lxor (Z.land x y) (Z.land x z)) (Z.land y z).

Definition Sigma0 (x : Z) : Z := Z.lxor (Z.lxor (rotr 2 x) (rotr 13 x)) (rotr 22 x).
Definition Sigma1 (x : Z) : Z := Z.lxor (Z.lxor (rotr 6 x) (rotr 11 x)) (rotr 25 x).
Definition sigma0 (x : Z) : Z := Z.lxor (Z.lxor (rotr 7 x) (rotr 18 x)) (Z.shiftr x 3).
Definition sigma1 (x : Z) : Z := Z.lxor (Z.lxor (rotr 17 x) (rotr 19 x)) (Z.shiftr x 10).

(** Big-endian bytes of [x], [n] of them. *)
Definition bigEndian (n : nat) (x : Z) : list Z :=
  map (fun i => (x / 2 ^ (8 * Z.of_nat i)) mod 256) (rev (seq 0 n)).

Definition fromBigEndian (b : list Z) : Z :=
  fold_left (fun acc x => acc * 256 + x) b 0.

Fixpoint chunks (n size : nat) (l : list Z) : list (list Z) :=
  match n with
  | O => []
  | S n' => firstn size l :: chunks n' size (skipn size l)
  end.

Definition pad (msg : list Z) : list Z :=
  let len := Z.of_nat (List.length msg) in
  (msg ++ [128] ++ repeat 0 (Z.to_nat ((55 - len) mod 64))
       ++ bigEndian 8 (8 * len))%list.

(** One round: the working variables and the sliding window of the last
    sixteen schedule words, oldest first. *)
Definition round (st : list Z * list Z) (k : Z) : list Z * list Z :=
  match st with
  | ([a; b; c; d; e; f; g; h], w0 :: rest) =>
      let t1 := h + Sigma1 e + Ch e f g + k + w0 in
      let t2 := Sigma0 a + Maj a b c in
      let next :=
        sigma1 (nth 13 rest 0) + nth 8 rest 0 + sigma0 (nth 0 rest 0) + w0 in
      ([w32 (t1 + t2); a; b; c; w32 (d + t1); e; f; g],
       (rest ++ [w32 next])%list)
  | _ => st
  end.

Definition compress (H : list Z) (block : list Z) : list Z :=
  let words := map fromBigEndian (chunks 16 4 block) in
  map (fun p => w32 (fst p + snd p))
    (combine H (fst (fold_left round K256 (H, words)))).

Definition sha256 (msg : list Z) : list Z :=
  let p := pad msg in
  List.concat (map (bigEndian 4)
            (fold_left compress (chunks (Nat.div (List.length p) 64) 64 p) H0)).

Definition hmacSha256 (key msg : list Z) : list Z :=
  let key := if (64 <? List.length key)%nat then sha256 key else key in
  let key := (key ++ repeat 0 (64 - List.length key)%nat)%list in
  sha256 (map (Z.lxor 92) key ++ sha256 (map (Z.lxor 54) key ++ msg))%list.

Definition bytesOf (s : string) : list Z :=
  map (fun c => Z.of_N (Ascii.N_of_ascii c)) (String.list_ascii_of_string s).

Definition hexDigit (n : Z) : string :=
  String.substring (Z.to_nat n) 1 "0123456789abcdef".

Definition hex (b : list Z) : string :=
  String.concat ""
    (map (fun x => hexDigit (x / 16) ++ hexDigit (x mod 16))%string b).

(** [createHmac('sha256', key).update(data).digest('hex')] for a string
    key and string data. *)
Definition hmacSha256Hex (key data : string) : string :=
  hex (hmacSha256 (bytesOf key) (bytesOf data)).

End NodeCrypto.

(** [crypto.createHmac('sha256', secret)] followed by [update] and
    [digest('hex')]; [createHmac] throws a [TypeError] when the key is
    [undefined]. *)
Definition createHmacDigestHex (secret : option string) (data : string)
    : Completion string :=
  match secret with
  | None => Throw (TypeError "The key argument must be of type string")
  | Some key => Normal (NodeCrypto.hmacSha256Hex key data)
  end.

(** [Buffer.from(s)]: the UTF-8 bytes of a string, a [TypeError] for
    [undefined]. *)
Definition Buffer_from (s : option string) : Completion string :=
  match s with
  | None => Throw (TypeError "The first argument must be of type string")
  | Some s => Normal s
  end.

(** [crypto.timingSafeEqual(a, b)]: a [RangeError] when the byte lengths
    differ, else whether the bytes are equal. *)
Definition timingSafeEqual (a b : string) : Completion bool :=
  if (String.length a =? String.length b)%nat
  then Normal (bool_decide (a = b))
  else Throw (RangeError "Input buffers must have the same byte length").

(** [try { body } catch (error) { handler }] *)
Definition tryCatch {A} (body : Completion A)
    (handler : Exception -> Completion A) : Completion A :=
  match body with
  | Normal a => Normal a
  | Throw e => handler e
  end.

Definition andThen {A B} (c : Completion A) (f : A -> Completion B)
    : Completion B :=
  match c with
  | Normal a => f a
  | Throw e => Throw e
  end.

(** What is signed: [timestamp ? `${timestamp}.${payload}` : payload]. *)
Definition signedData (payload : string) (timestamp : option string) : string :=
  if truthy timestamp then default "" timestamp ++ "." ++ payload else payload.

(** ** KycProviderService.verifyWebhookSignature

    [webhookSecret] is [this.config.webhookSecret], [None] when the
    environment does not define it; [signature] is the header value,
    [None] when the header is missing. *)
Definition verifyWebhookSignature (webhookSecret : option string)
    (payload : string) (signature timestamp : option string)
    : Completion bool :=
  tryCatch
    (andThen (createHmacDigestHex webhookSecret (signedData payload timestamp))
       (fun expectedSignature =>
          andThen (Buffer_from signature) (fun a =>
          andThen (Buffer_from (Some expectedSignature)) (fun b =>
          timingSafeEqual a b))))
    (fun error => Normal false).

(** ** Reachable worlds

    The calls that write to the table, and the worlds reached from the
    empty one by any sequence of them (failed calls included). *)

Inductive Call : Type :=
  | CallInitiate (svc : KycProviderService) (now : Z) (dto : InitiateKycDto.t)
  | CallUpdate (now : Z) (i : nat) (dto : UpdateKycDto.t)
  | CallWebhook (now : Z) (vid : string) (st : KycStatus) (data : WebhookData.t)
  | CallManualReview (now : Z) (i : nat) (dto : ManualReviewDto.t)
  | CallRetry (svc : KycProviderService) (now : Z) (i : nat).

Definition run (c : Call) (w : World) : World :=
  match c with
  | CallInitiate svc now dto => snd (initiateKyc svc now dto w)
  | CallUpdate now i dto => snd (updateKyc now i dto w)
  | CallWebhook now vid st data => snd (handleWebhook now vid st data w)
  | CallManualReview now i dto => snd (manualReview now i dto w)
  | CallRetry svc now i => snd (retryKyc svc now i w)
  end.

Definition isRetry (c : Call) : bool :=
  match c with
  | CallRetry _ _ _ => true
  | _ => false
  end.

Inductive reachable : World -> Prop :=
  | reachable_empty : reachable emptyWorld
  | reachable_run c w : reachable w -> reachable (run c w).

(** What a call may write over a stored case [k]. *)
Inductive Written (k : KycVerification) : KycVerification -> Prop :=
  | written_update now dto :
      status k <> APPROVED ->
      Written k (set_updatedAt now (Object_assign k dto))
  | written_webhook now st data :
      Written k (set_updatedAt now (webhookAssign now st data k))
  | written_review now dto :
      isManualReview k = true ->
      Written k (set_updatedAt now (reviewAssign now dto k))
  | written_retry now resp :
      status k = REJECTED \/ status k = EXPIRED ->
      (attemptCount k < 3)%Z ->
      Written k (set_updatedAt now (retryRow resp k (retryAssign now resp k))).

(** The columns of a case that [initiateKyc] has just inserted. *)
Record Created (k : KycVerification) : Prop := {
  created_status : status k = PENDING;
  created_attemptCount : attemptCount k = 1%Z;
  created_completedAt : completedAt k = None;
  created_isManualReview : isManualReview k = false;
  created_reviewedBy : reviewedBy k = None
}.

(** The three things a call can do to the table. *)
Inductive Effect (c : Call) (w w' : World) : Prop :=
  | effect_none :
      rows w' = rows w -> lastId w' = lastId w -> Effect c w w'
  | effect_update k k' :
      In k (rows w) -> id k' = id k -> Written k k' ->
      (attemptCount k' =
         if isRetry c then (attemptCount k + 1)%Z else attemptCount k) ->
      rows w' = replaceRow k k' (rows w) -> lastId w' = lastId w ->
      Effect c w w'
  | effect_insert k' :
      Created k' -> id k' = S (lastId w) ->
      rows w' = (rows w ++ [k'])%list -> lastId w' = S (lastId w) ->
      Effect c w w'.

(** Primary keys are unique and were handed out by the generator. *)
Definition keysOk (w : World) : Prop :=
  NoDup (map id (rows w)) /\ Forall (fun r => 1 <= id r <= lastId w) (rows w).

(** The documented invariant, as it is worded: [completedAt] is set
    exactly when the status is APPROVED or REJECTED or the case went
    through [manualReview] (the only writer of [reviewedBy]). *)
Definition closedByManualReview (k : KycVerification) : Prop :=
  reviewedBy k <> None.

Definition completedAtIffClosed (k : KycVerification) : Prop :=
  completedAt k <> None <->
  (status k = APPROVED \/ status k = REJECTED \/ closedByManualReview k).

(** The direction of it that the code maintains. *)
Definition terminalHasCompletedAt (k : KycVerification) : Prop :=
  status k = APPROVED \/ status k = REJECTED -> completedAt k <> None.

Definition attemptCountInRange (k : KycVerification) : Prop :=
  (1 <= attemptCount k <= 3)%Z.

(** The statuses on which [handleWebhook] stamps [completedAt]. *)
Definition isTerminal (st : KycStatus) : bool :=
  bool_decide (st = APPROVED) || bool_decide (st = REJECTED).

(** Two records that agree on every column but [updatedAt]. *)
Definition sameModuloUpdatedAt (a b : KycVerification) : Prop :=
  set_updatedAt 0 a = set_updatedAt 0 b.

(** ** Scenario data used by the examples below *)

Module Scenario.

(** A provider that opens session [vid], optionally with an expiry. *)
Definition provider (vid : string) (expires : option Z) : KycProviderService :=
  {| createVerification := fun _ =>
       Normal {| KycProviderResponse.verificationId := vid;
                 KycProviderResponse.verificationUrl := "https://p/" ++ vid;
                 KycProviderResponse.status := "pending";
                 KycProviderResponse.expiresAt := expires |};
     getProviderName := "onfido" |}.

Definition dtoU1 : InitiateKycDto.t :=
  {| InitiateKycDto.userId := "U1";
     InitiateKycDto.level := Some BASIC;
     InitiateKycDto.firstName := "John";
     InitiateKycDto.lastName := "Doe";
     InitiateKycDto.email := "john@example.com";
     InitiateKycDto.phoneNumber := None;
     InitiateKycDto.dateOfBirth := None;
     InitiateKycDto.country := None;
     InitiateKycDto.metadata := None |}.

(** Webhook body with no optional property. *)
Definition plain : WebhookData.t :=
  {| WebhookData.rejectionReason := None;
     WebhookData.riskAssessment := None;
     WebhookData.metadata := None;
     WebhookData.requiresReview := false |}.

(** Webhook body of the unit test "should set manual review if high risk". *)
Definition highRisk : WebhookData.t :=
  {| WebhookData.rejectionReason := None;
     WebhookData.riskAssessment :=
       Some {| riskLevel := high; score := 85; flags := ["suspicious_document"] |};
     WebhookData.metadata := None;
     WebhookData.requiresReview := false |}.

(** [U1] initiates at time 10; the provider opens session [v1]. *)
Definition w1 : World :=
  run (CallInitiate (provider "v1" None) 10 dtoU1) emptyWorld.

(** The row of [w1]: pending, first attempt, key 1. *)
Definition case1 : KycVerification :=
  set_id 1
    (set_createdAt 10
       (set_updatedAt 10
          (create "U1" "v1" "https://p/v1" PENDING BASIC "John" "Doe"
             "john@example.com" None None None "onfido" (Some 10%Z) None
             None 1%Z))).

(** [U1] initiates with metadata of their own. *)
Definition dtoMeta : InitiateKycDto.t :=
  {| InitiateKycDto.userId := "U1";
     InitiateKycDto.level := Some BASIC;
     InitiateKycDto.firstName := "John";
     InitiateKycDto.lastName := "Doe";
     InitiateKycDto.email := "john@example.com";
     InitiateKycDto.phoneNumber := None;
     InitiateKycDto.dateOfBirth := None;
     InitiateKycDto.country := None;
     InitiateKycDto.metadata :=
       Some {[ "source" := JsString "web"; "tier" := JsString "gold" ]} |}.

Definition wMeta : World :=
  run (CallInitiate (provider "v1" None) 10 dtoMeta) emptyWorld.

(** A PATCH body that carries only [metadata: { tier: 'silver' }]. *)
Definition patchTier : UpdateKycDto.t :=
  {| UpdateKycDto.address := None;
     UpdateKycDto.city := None;
     UpdateKycDto.state := None;
     UpdateKycDto.postalCode := None;
     UpdateKycDto.documentType := None;
     UpdateKycDto.documentNumber := None;
     UpdateKycDto.metadata := Some (Some {[ "tier" := JsString "silver" ]}) |}.

(** The same metadata delivered by a webhook. *)
Definition webhookTier : WebhookData.t :=
  {| WebhookData.rejectionReason := None;
     WebhookData.riskAssessment := None;
     WebhookData.metadata := Some {[ "tier" := JsString "silver" ]};
     WebhookData.requiresReview := false |}.

(** [case1] rejected by the provider at time 20. *)
Definition rejection : WebhookData.t :=
  {| WebhookData.rejectionReason := Some "document unreadable";
     WebhookData.riskAssessment := None;
     WebhookData.metadata := None;
     WebhookData.requiresReview := false |}.

Definition wRejected : World :=
  run (CallWebhook 20 "v1" REJECTED rejection) w1.

Definition caseRejected : KycVerification :=
  set_updatedAt 20
    (set_completedAt (Some 20%Z)
       (set_rejectionReason (Some "document unreadable")
          (set_status REJECTED case1))).

(** What the provider answers to the retry: session [v2], expiring at 500. *)
Definition responseV2 : KycProviderResponse.t :=
  {| KycProviderResponse.verificationId := "v2";
     KycProviderResponse.verificationUrl := "https://p/v2";
     KycProviderResponse.status := "pending";
     KycProviderResponse.expiresAt := Some 500%Z |}.

(** [U1] initiates with the date of birth 1990-01-01 (in milliseconds),
    and the provider rejects the case at time 20. *)
Definition dtoBorn : InitiateKycDto.t :=
  {| InitiateKycDto.userId := "U1";
     InitiateKycDto.level := Some BASIC;
     InitiateKycDto.firstName := "John";
     InitiateKycDto.lastName := "Doe";
     InitiateKycDto.email := "john@example.com";
     InitiateKycDto.phoneNumber := None;
     InitiateKycDto.dateOfBirth := Some 631152000000%Z;
     InitiateKycDto.country := None;
     InitiateKycDto.metadata := None |}.

Definition wBornRejected : World :=
  run (CallWebhook 20 "v1" REJECTED rejection)
    (run (CallInitiate (provider "v1" None) 10 dtoBorn) emptyWorld).

Definition caseBornRejected : KycVerification :=
  set_updatedAt 20
    (set_completedAt (Some 20%Z)
       (set_rejectionReason (Some "document unreadable")
          (set_status REJECTED
             (set_id 1
                (set_createdAt 10
                   (set_updatedAt 10
                      (create "U1" "v1" "https://p/v1" PENDING BASIC "John"
                         "Doe" "john@example.com" None
                         (Some 631152000000%Z) None "onfido" (Some 10%Z)
                         None None 1%Z))))))).

(** A case whose session expires at 50, rejected at time 20. *)
Definition wExpiringRejected : World :=
  run (CallWebhook 20 "v1" REJECTED rejection)
    (run (CallInitiate (provider "v1" (Some 50%Z)) 10 dtoU1) emptyWorld).

(** [case1] approved by the provider at time 20, and the same webhook
    delivered again at time 30. *)
Definition wApproved : World :=
  run (CallWebhook 20 "v1" APPROVED plain) w1.

Definition caseApproved : KycVerification :=
  set_updatedAt 20 (set_completedAt (Some 20%Z) (set_status APPROVED case1)).

Definition caseApprovedAgain : KycVerification :=
  set_updatedAt 30 (set_completedAt (Some 30%Z) (set_status APPROVED case1)).

(** Two more rejections and retries of [case1], up to the third attempt.
    The session of the second attempt expires at 500; the provider gives
    no expiry for the third, so the row keeps 500. *)
Definition wRejected3 : World :=
  run (CallWebhook 60 "v3" REJECTED rejection)
    (run (CallRetry (provider "v3" None) 50 1)
       (run (CallWebhook 40 "v2" REJECTED rejection)
          (run (CallRetry (provider "v2" (Some 500%Z)) 30 1) wRejected))).

Definition caseThird : KycVerification :=
  set_updatedAt 60
    (set_completedAt (Some 60%Z)
       (set_rejectionReason (Some "document unreadable")
          (set_status REJECTED
             (set_expiresAt (Some 500%Z)
                (set_attemptCount 3
                   (set_submittedAt (Some 50%Z)
                      (set_verificationUrl "https://p/v3"
                         (set_verificationId "v3" case1)))))))).

(** The approved [case1] after a later webhook that reports IN_PROGRESS. *)
Definition wReopened : World :=
  run (CallWebhook 30 "v1" IN_PROGRESS plain) wApproved.

Definition caseReopened : KycVerification :=
  set_updatedAt 30 (set_status IN_PROGRESS caseApproved).

(** Expiry.  [U1] initiates at 10 with a session that expires at 50 and is
    approved at 20 ([wExpiring]).  At 100, after the expiry, [U1]
    initiates again and is approved at 110 without expiry
    ([wReverified]). *)
Definition wExpiring : World :=
  run (CallWebhook 20 "v1" APPROVED plain)
    (run (CallInitiate (provider "v1" (Some 50%Z)) 10 dtoU1) emptyWorld).

Definition wReverified : World :=
  run (CallWebhook 110 "v2" APPROVED plain)
    (run (CallInitiate (provider "v2" None) 100 dtoU1) wExpiring).

Definition caseExpired : KycVerification :=
  set_expiresAt (Some 50%Z) caseApproved.

(** Webhook fixture: the body [{"verificationId":"v1","status":"approved"}]
    signed at timestamp 1700000000 under the secret [whsec_test]. *)
Definition quoted (s : string) : string :=
  String (Ascii.ascii_of_nat 34) (s ++ String (Ascii.ascii_of_nat 34) "").

Definition body : string :=
  "{" ++ quoted "verificationId" ++ ":" ++ quoted "v1" ++ ","
      ++ quoted "status" ++ ":" ++ quoted "approved" ++ "}".

Definition signatureWithTimestamp : string :=
  "32faf81845401f22a2b49cd1c077d5c8dedfc610a3d13f78a3f90072318f5c3c".

Definition signatureOfBody : string :=
  "a7e33d6851e796d940a6c3add1b22e9359681fe53a6c6d3a205c840f16467d87".

End Scenario.

(** * The rest of the module

    The listings and statistics of [KycService], the HTTP error mapping of
    [KycProviderService.createVerification], the webhook endpoint of
    [KycController] and [KycGuard]. *)

(** ** Outcome of a writing call *)

Definition failureOf {A} (c : Completion A) : option Exception :=
  match c with
  | Normal _ => None
  | Throw e => Some e
  end.

(** The exception a call ends with, if it throws. *)
Definition thrown (c : Call) (w : World) : option Exception :=
  match c with
  | CallInitiate svc now dto => failureOf (fst (initiateKyc svc now dto w))
  | CallUpdate now i dto => failureOf (fst (updateKyc now i dto w))
  | CallWebhook now vid st data => failureOf (fst (handleWebhook now vid st data w))
  | CallManualReview now i dto => failureOf (fst (manualReview now i dto w))
  | CallRetry svc now i => failureOf (fst (retryKyc svc now i w))
  end.

(** ** KycService: listings and statistics *)

(** Stable insertion sort: [lt a b] says that [a] must come before [b];
    rows that [lt] does not order keep their table order. *)
Fixpoint insertBy (lt : KycVerification -> KycVerification -> bool)
    (r : KycVerification) (l : list KycVerification) : list KycVerification :=
  match l with
  | [] => [r]
  | x :: l' => if lt x r then x :: insertBy lt r l' else r :: l
  end.

Definition sortBy (lt : KycVerification -> KycVerification -> bool)
    (l : list KycVerification) : list KycVerification :=
  fold_right (insertBy lt) [] l.

Definition createdAtDesc (a b : KycVerification) : bool :=
  (createdAt b <? createdAt a)%Z.

Definition createdAtAsc (a b : KycVerification) : bool :=
  (createdAt a <? createdAt b)%Z.

(** [.skip((page - 1) * limit).take(limit)], as OFFSET and LIMIT.  The
    model is meant for [page >= 1] and [limit >= 1]; what the query
    builder and the database do with other numbers is not modelled. *)
Definition skipTake {A} (page limit : Z) (l : list A) : list A :=
  firstn (Z.to_nat limit) (skipn (Z.to_nat ((page - 1) * limit)) l).

(** [Math.ceil(total / limit)] for [limit >= 1] and a count [total]: the
    quotient rounded up (exact in floating point below [2^53]). *)
Definition ceilDiv (total limit : Z) : Z := (- ((- total) / limit))%Z.

Module QueryKycDto.
Record t : Type := {
  status : option KycStatus;
  level : option KycLevel;
  userId : option string;
  page : option Z;
  limit : option Z
}.
End QueryKycDto.

(** [{ data, meta: { total, page, limit, totalPages } }] *)
Module Listing.
Record t : Type := {
  data : list KycVerification;
  total : Z;
  page : Z;
  limit : Z;
  totalPages : Z
}.
End Listing.

(** The [andWhere] clauses of [queryKyc]: a filter applies when its
    property is truthy. *)
Definition queryWhere (dto : QueryKycDto.t) (r : KycVerification) : bool :=
  match QueryKycDto.status dto with
  | Some st => bool_decide (status r = st)
  | None => true
  end
  && match QueryKycDto.level dto with
     | Some lv => bool_decide (level r = lv)
     | None => true
     end
  && (if truthy (QueryKycDto.userId dto)
      then bool_decide (Some (userId r) = QueryKycDto.userId dto)
      else true).

Definition listing (lt : KycVerification -> KycVerification -> bool)
    (where_ : KycVerification -> bool) (page limit : Z) : M Listing.t :=
  fun w =>
    let matching := List.filter where_ (rows w) in
    let total := Z.of_nat (List.length matching) in
    (Normal
       {| Listing.data := skipTake page limit (sortBy lt matching);
          Listing.total := total;
          Listing.page := page;
          Listing.limit := limit;
          Listing.totalPages := ceilDiv total limit |},
     w).

Definition queryKyc (dto : QueryKycDto.t) : M Listing.t :=
  listing createdAtDesc (queryWhere dto)
    (default 1%Z (QueryKycDto.page dto)) (default 20%Z (QueryKycDto.limit dto)).

Definition wherePendingReview (r : KycVerification) : bool :=
  bool_decide (status r = REQUIRES_REVIEW) && isManualReview r.

Definition getPendingReviews (page limit : Z) : M Listing.t :=
  listing createdAtAsc wherePendingReview page limit.

Module Statistics.
Record t : Type := {
  total : Z;
  pending : Z;
  approved : Z;
  rejected : Z;
  requiresReview : Z
}.
End Statistics.

(** [repository.count({ where: { status } })] *)
Definition countStatus (st : KycStatus) (l : list KycVerification) : Z :=
  Z.of_nat (List.length (List.filter (fun r => bool_decide (status r = st)) l)).

Definition getStatistics : M Statistics.t :=
  fun w =>
    (Normal
       {| Statistics.total := Z.of_nat (List.length (rows w));
          Statistics.pending := countStatus PENDING (rows w);
          Statistics.approved := countStatus APPROVED (rows w);
          Statistics.rejected := countStatus REJECTED (rows w);
          Statistics.requiresReview := countStatus REQUIRES_REVIEW (rows w) |},
     w).

(** ** KycProviderService.createVerification: the [catch] block

    What the [try] block ends with: the mapped response, an error that
    carries the provider's HTTP response (with its status, if any), or an
    error without response (time-out, connection refused). *)
Inductive HttpAttempt : Type :=
  | Resolved (response : KycProviderResponse.t)
  | ErrorResponse (status : option Z)
  | NoResponse.

Definition BAD_GATEWAY : Z := 502.
Definition SERVICE_UNAVAILABLE : Z := 503.

(** [error.response.status || HttpStatus.BAD_GATEWAY] *)
Definition statusOr (status : option Z) (fallback : Z) : Z :=
  match status with
  | Some s => if (s =? 0)%Z then fallback else s
  | None => fallback
  end.

Definition createVerificationFrom (attempt : HttpAttempt)
    : Completion KycProviderResponse.t :=
  match attempt with
  | Resolved response => Normal response
  | ErrorResponse status =>
      Throw (HttpException "Failed to initiate KYC verification"
               (statusOr status BAD_GATEWAY))
  | NoResponse =>
      Throw (HttpException "KYC provider service unavailable"
               SERVICE_UNAVAILABLE)
  end.

(** The provider service over an HTTP client that answers a request with
    [http]. *)
Definition providerOver (http : KycVerificationData.t -> HttpAttempt)
    (providerName : string) : KycProviderService :=
  {| createVerification := fun data => createVerificationFrom (http data);
     getProviderName := providerName |}.

(** ** KycController: the webhook endpoint *)

Module KycWebhookDto.
Record t : Type := {
  verificationId : string;
  status : KycStatus;
  rejectionReason : option string;
  riskAssessment : option RiskAssessment;
  metadata : option Metadata;
  signature : option string;
  timestamp : option string
}.
End KycWebhookDto.

(** [{ error: 'Invalid signature' }] and [{ success: true }] *)
Inductive WebhookReply : Type := InvalidSignature | Success.

Module KycController.

(** The third argument the endpoint hands to the service. *)
Definition dataOf (body : KycWebhookDto.t) : WebhookData.t :=
  {| WebhookData.rejectionReason := KycWebhookDto.rejectionReason body;
     WebhookData.riskAssessment := KycWebhookDto.riskAssessment body;
     WebhookData.metadata := KycWebhookDto.metadata body;
     WebhookData.requiresReview := false |}.

(** [handleWebhook] of the controller.  [rawBody] is [req.rawBody] as a
    string when the request kept it, [bodyJson] is [JSON.stringify(body)],
    [signature] and [timestamp] are the two headers. *)
Definition handleWebhook (webhookSecret : option string) (now : Z)
    (rawBody : option string) (bodyJson : string) (body : KycWebhookDto.t)
    (signature timestamp : option string) : M WebhookReply :=
  let rawBody := if truthy rawBody then default "" rawBody else bodyJson in
  let* isValid :=
    await (verifyWebhookSignature webhookSecret rawBody signature timestamp) in
  if negb isValid then ret InvalidSignature
  else
    handleWebhook now (KycWebhookDto.verificationId body)
      (KycWebhookDto.status body) (dataOf body);;
    ret Success.

End KycController.

(** ** KycGuard *)

Module KycRequirement.
Record t : Type := {
  required : bool;
  level : option KycLevel
}.
End KycRequirement.

(** The string value of a [KycLevel]. *)
Definition levelValue (l : KycLevel) : string :=
  match l with
  | BASIC => "basic"
  | INTERMEDIATE => "intermediate"
  | ADVANCED => "advanced"
  end.

(** How [canActivate] ends: it returns a boolean, throws a
    [ForbiddenException], or a service call threw. *)
Inductive GuardOutcome : Type :=
  | Returns (b : bool)
  | ForbiddenException (message : string)
  | ServiceThrew (e : Exception).

Module KycGuard.

(** [kycRequirement] is what the reflector finds on the route; [user] is
    [request.user.id] when the request has a user with a truthy id.  The
    two service calls read the clock one after the other, at [now1] and
    [now2]. *)
Definition canActivate (kycRequirement : option KycRequirement.t)
    (user : option string) (now1 now2 : Z) (w : World) : GuardOutcome * World :=
  match kycRequirement with
  | None => (Returns true, w)
  | Some req =>
      if negb (KycRequirement.required req) then (Returns true, w)
      else if negb (truthy user) then
        (ForbiddenException "User authentication required", w)
      else
        let u := default "" user in
        match isUserVerified now1 u (KycRequirement.level req) w with
        | (Throw e, w1) => (ServiceThrew e, w1)
        | (Normal true, w1) => (Returns true, w1)
        | (Normal false, w1) =>
            match getUserVerificationLevel now2 u w1 with
            | (Throw e, w2) => (ServiceThrew e, w2)
            | (Normal None, w2) =>
                (ForbiddenException
                   "KYC verification required. Please complete identity verification to access this resource.",
                 w2)
            | (Normal (Some userLevel), w2) =>
                match KycRequirement.level req with
                | Some requiredLevel =>
                    (ForbiddenException
                       ("Higher KYC level required. You have "
                        ++ levelValue userLevel ++ " verification but "
                        ++ levelValue requiredLevel ++ " is required."),
                     w2)
                | None => (Returns true, w2)
                end
            end
        end
  end.

End KycGuard.

(** ** Columns no call writes *)

(** [b] has the identity and subject columns of [a]. *)
Definition sameSubject (a b : KycVerification) : Prop :=
  id b = id a
  /\ userId b = userId a
  /\ level b = level a
  /\ provider b = provider a
  /\ createdAt b = createdAt a
  /\ firstName b = firstName a
  /\ lastName b = lastName a
  /\ email b = email a
  /\ phoneNumber b = phoneNumber a
  /\ dateOfBirth b = dateOfBirth a
  /\ country b = country a.

Definition isInitiate (c : Call) : bool :=
  match c with
  | CallInitiate _ _ _ => true
  | _ => false
  end.

(** The request [initiateKyc] sends to the provider. *)
Definition initiateRequest (dto : InitiateKycDto.t) : KycVerificationData.t :=
  {| KycVerificationData.firstName := InitiateKycDto.firstName dto;
     KycVerificationData.lastName := InitiateKycDto.lastName dto;
     KycVerificationData.email := InitiateKycDto.email dto;
     KycVerificationData.phoneNumber := InitiateKycDto.phoneNumber dto;
     KycVerificationData.dateOfBirth := InitiateKycDto.dateOfBirth dto;
     KycVerificationData.country := InitiateKycDto.country dto;
     KycVerificationData.level := default BASIC (InitiateKycDto.level dto);
     KycVerificationData.userId := InitiateKycDto.userId dto;
     KycVerificationData.metadata := InitiateKycDto.metadata dto |}.

(** User [u] has no case in progress and no approved case that is still
    valid at [now]: the two guards of [initiateKyc] let the call through. *)
Definition mayInitiate (now : Z) (u : string) (w : World) : Prop :=
  (forall r, In r (rows w) -> userId r = u -> status r <> IN_PROGRESS)
  /\ (forall r, In r (rows w) -> userId r = u -> status r = APPROVED ->
      isKycExpired now r = true).

(** ** The initiated events *)

(** Key and user of every [kyc.initiated] event, oldest first. *)
Definition initiatedCases (evs : list Event) : list (nat * string) :=
  flat_map
    (fun e =>
       match e with
       | kyc_initiated i u _ => [(i, u)]
       | _ => []
       end)
    evs.

(** ** More scenario data *)

Module Cases.
(** The pending case of [U1] after the provider reports IN_PROGRESS. *)
Definition wInProgress : World :=
  run (CallWebhook 20 "v1" IN_PROGRESS Scenario.plain) Scenario.w1.

(** An HTTP client that gets no answer, and one that gets a 422. *)
Definition unreachable (_ : KycVerificationData.t) : HttpAttempt := NoResponse.

Definition unprocessable (_ : KycVerificationData.t) : HttpAttempt :=
  ErrorResponse (Some 422%Z).

(** The request a retry of the case of [U1] sends to the provider. *)
Definition requestU1 : KycVerificationData.t :=
  {| KycVerificationData.firstName := "John";
     KycVerificationData.lastName := "Doe";
     KycVerificationData.email := "john@example.com";
     KycVerificationData.phoneNumber := None;
     KycVerificationData.dateOfBirth := None;
     KycVerificationData.country := None;
     KycVerificationData.level := BASIC;
     KycVerificationData.userId := "U1";
     KycVerificationData.metadata := None |}.

(** What the provider answers when it opens session [v2] without expiry. *)
Definition responseV2 : KycProviderResponse.t :=
  {| KycProviderResponse.verificationId := "v2";
     KycProviderResponse.verificationUrl := "https://p/v2";
     KycProviderResponse.status := "pending";
     KycProviderResponse.expiresAt := None |}.

(** [case1] after the high-risk webhook of the unit test: flagged for
    manual review. *)
Definition wFlagged : World :=
  run (CallWebhook 20 "v1" IN_PROGRESS Scenario.highRisk) Scenario.w1.

Definition caseFlagged : KycVerification :=
  set_updatedAt 20
    (set_isManualReview true
       (set_status REQUIRES_REVIEW
          (set_riskAssessment
             (Some {| riskLevel := high; score := 85;
                      flags := ["suspicious_document"] |})
             Scenario.case1))).

Definition approveAfterReview : ManualReviewDto.t :=
  {| ManualReviewDto.status := APPROVED;
     ManualReviewDto.reviewNotes := "documents checked by hand";
     ManualReviewDto.reviewedBy := "admin-7" |}.

(** The case created from [dtoMeta], as stored in [wMeta]. *)
Definition caseMeta : KycVerification :=
  set_metadata
    (Some {[ "source" := JsString "web"; "tier" := JsString "gold" ]})
    Scenario.case1.

(** A PATCH body with an address and nothing else. *)
Definition patchAddress : UpdateKycDto.t :=
  {| UpdateKycDto.address := Some (Some "123 Main St");
     UpdateKycDto.city := Some (Some "New York");
     UpdateKycDto.state := None;
     UpdateKycDto.postalCode := None;
     UpdateKycDto.documentType := None;
     UpdateKycDto.documentNumber := None;
     UpdateKycDto.metadata := None |}.

(** [case1] with that address, and a later PATCH body
    [{"address": "5 Elm Rd", "city": null}]. *)
Definition wAddressed : World :=
  run (CallUpdate 20 1 patchAddress) Scenario.w1.

Definition caseAddressed : KycVerification :=
  set_updatedAt 20
    (set_city (Some "New York")
       (set_address (Some "123 Main St") Scenario.case1)).

Definition patchMove : UpdateKycDto.t :=
  {| UpdateKycDto.address := Some (Some "5 Elm Rd");
     UpdateKycDto.city := Some None;
     UpdateKycDto.state := None;
     UpdateKycDto.postalCode := None;
     UpdateKycDto.documentType := None;
     UpdateKycDto.documentNumber := None;
     UpdateKycDto.metadata := None |}.

(** A route decorated with [@RequireKyc(KycLevel.BASIC)]. *)
Definition basicRoute : KycRequirement.t :=
  {| KycRequirement.required := true;
     KycRequirement.level := Some BASIC |}.

(** The parsed body of [Scenario.body]. *)
Definition approvedBody : KycWebhookDto.t :=
  {| KycWebhookDto.verificationId := "v1";
     KycWebhookDto.status := APPROVED;
     KycWebhookDto.rejectionReason := None;
     KycWebhookDto.riskAssessment := None;
     KycWebhookDto.metadata := None;
     KycWebhookDto.signature := None;
     KycWebhookDto.timestamp := None |}.

(** The first page of all cases of user [U1], newest first. *)
Definition queryU1 : QueryKycDto.t :=
  {| QueryKycDto.status := None;
     QueryKycDto.level := None;
     QueryKycDto.userId := Some "U1";
     QueryKycDto.page := None;
     QueryKycDto.limit := None |}.

End Cases.

(** ** Proof automation *)

(** Evaluates a service call on closed arguments and supplies its result
    and final world to a goal [exists k w, call = (Normal k, w) /\ _]. *)
Ltac run_call :=
  lazymatch goal with
  | |- exists k w, ?call = _ /\ _ =>
      let r := eval vm_compute in call in
      lazymatch r with
      | (?c, ?w') =>
          lazymatch c with
          | Normal ?k' => exists k', w'; split; [vm_compute; reflexivity|]
          end
      end
  end.

(** Normalises nested field assignments and column reads to a record
    literal, innermost assignment first. *)
Ltac record_norm :=
  cbv beta iota zeta delta
    [set_id set_verificationId set_status set_verificationUrl
      set_documentType set_documentNumber set_address set_city
      set_state set_postalCode set_metadata set_rejectionReason
      set_riskAssessment set_submittedAt set_completedAt set_expiresAt
      set_attemptCount set_isManualReview set_reviewedBy
      set_reviewNotes set_createdAt set_updatedAt id userId
      verificationId status level verificationUrl firstName lastName
      email phoneNumber dateOfBirth nationality documentType
      documentNumber address city state postalCode country metadata
      rejectionReason riskAssessment submittedAt completedAt expiresAt
      provider attemptCount isManualReview reviewedBy reviewNotes
      createdAt updatedAt].

(** Splits a conjunction into its conjuncts, leaving equations alone. *)
Ltac split_all :=
  repeat lazymatch goal with |- _ /\ _ => split end.

(** Proves [reachable W] for a closed world [W] that evaluates to the
    result of call [c] on a world known to be reachable by [H]. *)
Ltac reach_by c H :=
  lazymatch goal with
  | |- reachable ?W =>
      refine (eq_ind (run c _) reachable (reachable_run c _ H) W _);
      vm_compute; reflexivity
  end.

(** * Theorems *)

(** ** Reasoning about the repository *)

Lemma find_existsb_sameId (p : KycVerification -> bool) l k :
  find p l = Some k -> existsb (sameId k) l = true.
Proof.
  intros H. apply find_some in H as [Hin _].
  apply existsb_exists. exists k. split; [assumption|].
  unfold sameId. apply Nat.eqb_refl.
Qed.

Lemma find_replaceRow (p : KycVerification -> bool) l k k' :
  find p l = Some k -> p k' = true ->
  find p (replaceRow k k' l) = Some k'.
Proof.
  intros Hfind Hp. induction l as [|r l IH]; simpl in *; [discriminate|].
  destruct (p r) eqn:Hr.
  - injection Hfind as ->. unfold sameId. rewrite Nat.eqb_refl. now rewrite Hp.
  - destruct (sameId k r).
    + now rewrite Hp.
    + rewrite Hr. now apply IH.
Qed.

Lemma save_update now (p : KycVerification -> bool) k k2 w :
  find p (rows w) = Some k -> id k2 = id k ->
  save now k2 w =
    (Normal (set_updatedAt now k2),
     {| rows := replaceRow k (set_updatedAt now k2) (rows w);
        lastId := lastId w;
        emitted := emitted w |}).
Proof.
  intros Hfind Hid. unfold save.
  assert (Hs : sameId k2 = sameId k).
  { unfold sameId. now rewrite Hid. }
  rewrite Hs, (find_existsb_sameId _ _ _ Hfind).
  unfold replaceRow. now rewrite Hs.
Qed.

(** ** Stepping through a method *)

Lemma bind_findOne {B} p (f : option KycVerification -> M B) w :
  (let* x := findOne p in f x) w = f (find p (rows w)) w.
Proof. reflexivity. Qed.

Lemma bind_await_Normal {A B} (a : A) (f : A -> M B) w :
  (let* x := await (Normal a) in f x) w = f a w.
Proof. reflexivity. Qed.

Lemma bind_await_Throw {A B} e (f : A -> M B) w :
  (let* x := await (Throw e) in f x) w = (Throw e, w).
Proof. reflexivity. Qed.

(** ** Point lookups *)

Lemma getKycByVerificationId_Normal vid w k w' :
  getKycByVerificationId vid w = (Normal k, w') <->
  find (whereVerificationId vid) (rows w) = Some k /\ w' = w.
Proof.
  unfold getKycByVerificationId, bind, findOne, ret, throw.
  destruct (find _ _); split; intros H.
  - now injection H as -> ->.
  - destruct H as [[= ->] ->]. reflexivity.
  - discriminate.
  - now destruct H.
Qed.

Lemma getKycById_Normal i w k w' :
  getKycById i w = (Normal k, w') <->
  find (whereId i) (rows w) = Some k /\ w' = w.
Proof.
  unfold getKycById, bind, findOne, ret, throw.
  destruct (find _ _); split; intros H.
  - now injection H as -> ->.
  - destruct H as [[= ->] ->]. reflexivity.
  - discriminate.
  - now destruct H.
Qed.

Lemma whereId_id k : whereId (id k) k = true.
Proof. unfold whereId. apply Nat.eqb_refl. Qed.

Lemma find_whereId i l k : find (whereId i) l = Some k -> id k = i.
Proof.
  intros H. apply find_some in H as [_ H]. unfold whereId in H.
  now apply Nat.eqb_eq in H.
Qed.

Lemma find_whereVerificationId vid l k :
  find (whereVerificationId vid) l = Some k -> verificationId k = vid.
Proof.
  intros H. apply find_some in H as [_ H]. unfold whereVerificationId in H.
  now apply bool_decide_eq_true in H.
Qed.

(** ** handleWebhook on a stored case *)

Lemma webhookAssign_id now st data k : id (webhookAssign now st data k) = id k.
Proof.
  unfold webhookAssign.
  repeat match goal with
         | |- context [if ?b then _ else _] => destruct b
         | |- context [match ?o with Some _ => _ | None => _ end] => destruct o
         end; reflexivity.
Qed.

Lemma webhookAssign_verificationId now st data k :
  verificationId (webhookAssign now st data k) = verificationId k.
Proof.
  unfold webhookAssign.
  repeat match goal with
         | |- context [if ?b then _ else _] => destruct b
         | |- context [match ?o with Some _ => _ | None => _ end] => destruct o
         end; reflexivity.
Qed.

Lemma handleWebhook_found now vid st data w k :
  find (whereVerificationId vid) (rows w) = Some k ->
  let k' := set_updatedAt now (webhookAssign now st data k) in
  handleWebhook now vid st data w =
    (Normal k',
     {| rows := replaceRow k k' (rows w);
        lastId := lastId w;
        emitted := emitted w ++ webhookEvents (status k) st vid k' |}).
Proof.
  intros Hfind k'. unfold handleWebhook, bind at 1.
  rewrite (proj2 (getKycByVerificationId_Normal vid w k w) (conj Hfind eq_refl)).
  unfold bind at 1.
  rewrite (save_update now _ k _ w Hfind (webhookAssign_id now st data k)).
  fold k'. unfold webhookEvents, bind, emit, ret. simpl.
  destruct (bool_decide (st = APPROVED)); [|destruct (bool_decide (st = REJECTED))];
    simpl; rewrite <- ?app_assoc; simpl; try rewrite app_nil_r; reflexivity.
Qed.

(** ** Escalation *)

Lemma needsManualReview_true data :
  (exists ra, WebhookData.riskAssessment data = Some ra /\ riskLevel ra = high)
  \/ WebhookData.requiresReview data = true ->
  needsManualReview data = true.
Proof.
  unfold needsManualReview. intros [(ra & -> & ->) | ->].
  - reflexivity.
  - apply orb_true_r.
Qed.

(** C2. A webhook whose payload carries [riskAssessment.riskLevel = 'high']
    or a truthy [requiresReview], applied to a stored case, returns and
    stores the case with status REQUIRES_REVIEW and [isManualReview] set,
    whatever status the provider reported; the case is never stored as
    APPROVED. *)
Theorem escalation_precedence now vid st data w k :
  getKycByVerificationId vid w = (Normal k, w) ->
  (exists ra, WebhookData.riskAssessment data = Some ra /\ riskLevel ra = high)
  \/ WebhookData.requiresReview data = true ->
  exists k' w',
    handleWebhook now vid st data w = (Normal k', w')
    /\ getKycByVerificationId vid w' = (Normal k', w')
    /\ status k' = REQUIRES_REVIEW
    /\ isManualReview k' = true
    /\ status k' <> APPROVED.
Proof.
  intros Hget Hesc.
  apply getKycByVerificationId_Normal in Hget as [Hfind _].
  apply needsManualReview_true in Hesc.
  eexists _, _. split; [apply (handleWebhook_found _ _ _ _ _ _ Hfind)|].
  assert (Hst : status (set_updatedAt now (webhookAssign now st data k)) = REQUIRES_REVIEW).
  { unfold webhookAssign. rewrite Hesc. reflexivity. }
  split; [|split; [exact Hst|split]].
  - apply getKycByVerificationId_Normal. split; [|reflexivity]. simpl.
    apply find_replaceRow; [assumption|].
    unfold whereVerificationId. apply bool_decide_eq_true. simpl.
    rewrite webhookAssign_verificationId.
    now apply find_whereVerificationId in Hfind.
  - unfold webhookAssign. rewrite Hesc. reflexivity.
  - rewrite Hst. discriminate.
Qed.

Lemma escalation_precedence_witness :
  getKycByVerificationId "v1" Scenario.w1
    = (Normal Scenario.case1, Scenario.w1)
  /\ exists k' w',
    handleWebhook 20 "v1" APPROVED Scenario.highRisk Scenario.w1 = (Normal k', w')
    /\ getKycByVerificationId "v1" w' = (Normal k', w')
    /\ status k' = REQUIRES_REVIEW
    /\ isManualReview k' = true
    /\ status k' <> APPROVED.
Proof.
  split; [vm_compute; reflexivity|].
  apply (escalation_precedence 20 "v1" APPROVED Scenario.highRisk Scenario.w1
           Scenario.case1).
  - vm_compute; reflexivity.
  - left. eexists. split; reflexivity.
Defined.

(** ** Events of a webhook *)

(** C4. Code at the failing input: a webhook that reports APPROVED with a
    high-risk assessment, applied to the pending case of [U1].  The case
    is stored as REQUIRES_REVIEW, and [kyc.approved] is emitted all the
    same, because the event is chosen by the reported status. *)
Theorem approved_event_for_escalated_case :
  exists k' w',
    handleWebhook 20 "v1" APPROVED Scenario.highRisk Scenario.w1 = (Normal k', w')
    /\ map status (rows w') = [REQUIRES_REVIEW]
    /\ emitted w' =
         [kyc_initiated 1 "U1" "v1";
          kyc_status_changed 1 "U1" PENDING APPROVED "v1";
          kyc_approved 1 "U1" BASIC].
Proof. run_call. split; vm_compute; reflexivity. Qed.

Lemma webhookEvents_by_reported_status old st vid k i u l :
  In (kyc_approved i u l) (webhookEvents old st vid k) <->
  st = APPROVED /\ i = id k /\ u = userId k /\ l = level k.
Proof.
  unfold webhookEvents. split.
  - intros [H | H]; [discriminate|].
    destruct (bool_decide (st = APPROVED)) eqn:E.
    + apply bool_decide_eq_true in E. destruct H as [[= -> -> ->] | []]. auto.
    + destruct (bool_decide (st = REJECTED)); [destruct H as [H | []]|destruct H].
      discriminate.
  - intros (-> & -> & -> & ->). right. left. reflexivity.
Qed.

(** ** Metadata on update *)

Lemma Object_assign_metadata kyc dto m :
  UpdateKycDto.metadata dto = Some m ->
  metadata (Object_assign kyc dto) = m.
Proof. unfold Object_assign. intros ->. reflexivity. Qed.

(** C10. Code at the failing input: the stored metadata is
    [{source: 'web', tier: 'gold'}] and the patch carries
    [{tier: 'silver'}].  After [updateKyc] the stored metadata is the
    patch alone: key [source] is gone.  The same metadata delivered through
    [handleWebhook] keeps it. *)
Theorem updateKyc_replaces_metadata :
  (exists k' w',
     updateKyc 20 1 Scenario.patchTier Scenario.wMeta = (Normal k', w')
     /\ map metadata (rows w') = [Some {[ "tier" := JsString "silver" ]}]
     /\ (metadata k' ≫= lookup "source") = None)
  /\ (exists k' w',
     handleWebhook 20 "v1" IN_PROGRESS Scenario.webhookTier Scenario.wMeta
       = (Normal k', w')
     /\ (metadata k' ≫= lookup "source") = Some (JsString "web")
     /\ (metadata k' ≫= lookup "tier") = Some (JsString "silver")).
Proof. split; run_call; split; vm_compute; reflexivity. Qed.

(** ** Initiation *)

Lemma initiateKyc_conflict_in_progress svc now dto w r :
  In r (rows w) -> userId r = InitiateKycDto.userId dto ->
  status r = IN_PROGRESS ->
  initiateKyc svc now dto w =
    (Throw (ConflictException "User already has a KYC verification in progress"), w).
Proof.
  intros Hin Hu Hs. unfold initiateKyc, bind at 1, findOne.
  destruct (find _ (rows w)) as [r'|] eqn:Hfind.
  - reflexivity.
  - exfalso. apply (find_none _ _ Hfind) in Hin.
    unfold whereUserStatus in Hin.
    rewrite !bool_decide_eq_true_2 in Hin by assumption. discriminate.
Qed.

Lemma initiateKyc_conflict_verified svc now dto w v :
  find (whereUserStatus (InitiateKycDto.userId dto) IN_PROGRESS) (rows w) = None ->
  find (whereUserStatus (InitiateKycDto.userId dto) APPROVED) (rows w) = Some v ->
  isKycExpired now v = false ->
  initiateKyc svc now dto w =
    (Throw (ConflictException "User is already verified"), w).
Proof.
  intros H1 H2 H3. unfold initiateKyc.
  rewrite bind_findOne, H1, bool_decide_eq_false_2 by (intros [? [=]]).
  rewrite bind_findOne, H2, H3. reflexivity.
Qed.

(** C3. Code at the failing input: [U1] has initiated and no webhook has
    arrived, so the stored case is PENDING.  A second [initiateKyc] for
    [U1] is not rejected: it opens a second provider session and stores a
    second PENDING case. *)
Theorem second_initiate_while_pending :
  exists k' w',
    initiateKyc (Scenario.provider "v2" None) 20 Scenario.dtoU1 Scenario.w1
      = (Normal k', w')
    /\ map (fun r => (id r, userId r, status r)) (rows w')
         = [(1, "U1", PENDING); (2, "U1", PENDING)]
    /\ emitted w' = [kyc_initiated 1 "U1" "v1"; kyc_initiated 2 "U1" "v2"].
Proof. run_call. split; vm_compute; reflexivity. Qed.

(** ** Retry *)

Lemma retryAssign_id now resp k : id (retryAssign now resp k) = id k.
Proof. reflexivity. Qed.

Lemma retryRow_id resp k entity : id (retryRow resp k entity) = id entity.
Proof. reflexivity. Qed.

(** The entity [retryKyc] returns, read off the row it stored. *)
Lemma retryRow_entity now resp k :
  set_expiresAt (expiresAt (retryAssign now resp k))
    (set_updatedAt now (retryRow resp k (retryAssign now resp k)))
  = set_updatedAt now (retryAssign now resp k).
Proof.
  unfold retryRow, retryAssign. destruct k. vm_compute. reflexivity.
Qed.

Lemma retryRequest_Normal k request :
  retryRequest k = Normal request -> dateOfBirth k = None.
Proof. unfold retryRequest. now destruct (dateOfBirth k). Qed.

Lemma retryKyc_found svc now i w k request resp :
  find (whereId i) (rows w) = Some k ->
  status k = REJECTED \/ status k = EXPIRED ->
  (attemptCount k < 3)%Z ->
  retryRequest k = Normal request ->
  createVerification svc request = Normal resp ->
  retryKyc svc now i w =
    (Normal (set_updatedAt now (retryAssign now resp k)),
     {| rows :=
          replaceRow k
            (set_updatedAt now (retryRow resp k (retryAssign now resp k)))
            (rows w);
        lastId := lastId w;
        emitted := emitted w |}).
Proof.
  intros Hfind Hst Hcount Hreq Hresp. unfold retryKyc, bind at 1.
  rewrite (proj2 (getKycById_Normal i w k w) (conj Hfind eq_refl)).
  replace (negb (bool_decide (status k = REJECTED))
           && negb (bool_decide (status k = EXPIRED))) with false
    by (destruct Hst as [-> | ->]; reflexivity).
  replace (3 <=? attemptCount k)%Z with false by (symmetry; apply Z.leb_gt; lia).
  unfold bind at 1, await. rewrite Hreq.
  unfold bind at 1. rewrite Hresp.
  unfold bind at 1.
  rewrite (save_update now _ k _ w Hfind
             (eq_trans (retryRow_id resp k (retryAssign now resp k))
                (retryAssign_id now resp k))).
  unfold ret. now rewrite retryRow_entity.
Qed.

Lemma retryKyc_request_failure svc now i w k e :
  find (whereId i) (rows w) = Some k ->
  status k = REJECTED \/ status k = EXPIRED ->
  (attemptCount k < 3)%Z ->
  retryRequest k = Throw e ->
  retryKyc svc now i w = (Throw e, w).
Proof.
  intros Hfind Hst Hcount Hreq. unfold retryKyc, bind at 1.
  rewrite (proj2 (getKycById_Normal i w k w) (conj Hfind eq_refl)).
  replace (negb (bool_decide (status k = REJECTED))
           && negb (bool_decide (status k = EXPIRED))) with false
    by (destruct Hst as [-> | ->]; reflexivity).
  replace (3 <=? attemptCount k)%Z with false by (symmetry; apply Z.leb_gt; lia).
  unfold bind, await. now rewrite Hreq.
Qed.

Lemma retryKyc_wrong_status svc now i w k :
  find (whereId i) (rows w) = Some k ->
  status k <> REJECTED -> status k <> EXPIRED ->
  retryKyc svc now i w =
    (Throw (BadRequestException "Can only retry rejected or expired KYC"), w).
Proof.
  intros Hfind H1 H2. unfold retryKyc, bind at 1.
  rewrite (proj2 (getKycById_Normal i w k w) (conj Hfind eq_refl)).
  rewrite !bool_decide_eq_false_2 by assumption. reflexivity.
Qed.

Lemma retryKyc_max_attempts svc now i w k :
  find (whereId i) (rows w) = Some k ->
  status k = REJECTED \/ status k = EXPIRED ->
  (3 <= attemptCount k)%Z ->
  retryKyc svc now i w =
    (Throw (BadRequestException "Maximum retry attempts reached"), w).
Proof.
  intros Hfind Hst Hcount. unfold retryKyc, bind at 1.
  rewrite (proj2 (getKycById_Normal i w k w) (conj Hfind eq_refl)).
  replace (negb (bool_decide (status k = REJECTED))
           && negb (bool_decide (status k = EXPIRED))) with false
    by (destruct Hst as [-> | ->]; reflexivity).
  replace (3 <=? attemptCount k)%Z with true by (symmetry; apply Z.leb_le; lia).
  reflexivity.
Qed.

(** What [retryKyc] does to a stored case [k] whose request can be
    built: with status PENDING or IN_PROGRESS it throws the bad request
    "Can only retry rejected or expired KYC" and leaves the world as it
    is; with status REJECTED or EXPIRED, [attemptCount < 3] and a provider
    that opens a session, the stored row has status PENDING,
    [attemptCount] one higher, [rejectionReason] and [completedAt]
    cleared, the provider's [verificationId] and [verificationUrl],
    [submittedAt = now], and the provider's [expiresAt] when it gave one,
    the former expiry otherwise. *)
Lemma retryKyc_on_stored_case svc now i w k :
  getKycById i w = (Normal k, w) ->
  (status k = PENDING \/ status k = IN_PROGRESS ->
   retryKyc svc now i w =
     (Throw (BadRequestException "Can only retry rejected or expired KYC"), w))
  /\ (forall request resp,
      status k = REJECTED \/ status k = EXPIRED ->
      (attemptCount k < 3)%Z ->
      retryRequest k = Normal request ->
      createVerification svc request = Normal resp ->
      exists k' row w',
        retryKyc svc now i w = (Normal k', w')
        /\ getKycById i w' = (Normal row, w')
        /\ k' = set_expiresAt (KycProviderResponse.expiresAt resp) row
        /\ status row = PENDING
        /\ attemptCount row = (attemptCount k + 1)%Z
        /\ rejectionReason row = None
        /\ completedAt row = None
        /\ verificationId row = KycProviderResponse.verificationId resp
        /\ verificationUrl row = KycProviderResponse.verificationUrl resp
        /\ submittedAt row = Some now
        /\ expiresAt row
           = match KycProviderResponse.expiresAt resp with
             | Some e => Some e
             | None => expiresAt k
             end).
Proof.
  intros Hget. apply getKycById_Normal in Hget as [Hfind _]. split.
  - intros Hst. apply (retryKyc_wrong_status _ _ _ _ k Hfind);
      destruct Hst as [-> | ->]; discriminate.
  - intros request resp Hst Hcount Hreq Hresp.
    exists (set_updatedAt now (retryAssign now resp k)),
           (set_updatedAt now (retryRow resp k (retryAssign now resp k))).
    eexists.
    split; [exact (retryKyc_found svc now i w k request resp
                     Hfind Hst Hcount Hreq Hresp)|].
    split.
    { apply getKycById_Normal. split; [|reflexivity]. cbn [rows].
      apply find_replaceRow; [assumption|].
      apply find_whereId in Hfind. subst i. apply (whereId_id k). }
    split; [symmetry; exact (retryRow_entity now resp k)|].
    split_all; reflexivity.
Qed.

(** C7. Code at the failing input.  A case initiated with a date of
    birth and rejected by the provider is REJECTED with [attemptCount]
    1, and the provider would open a session; yet [retryKyc] throws a
    [TypeError] and changes nothing, where the same retry of the same case
    without a date of birth succeeds.  And a retry that does succeed,
    for a case whose session expired at 50 and a provider that gives no
    new expiry, returns a case without expiry while the stored row keeps
    the expiry 50. *)
Theorem retry_of_case_with_dateOfBirth :
  getKycById 1 Scenario.wBornRejected
    = (Normal Scenario.caseBornRejected, Scenario.wBornRejected)
  /\ status Scenario.caseBornRejected = REJECTED
  /\ attemptCount Scenario.caseBornRejected = 1%Z
  /\ dateOfBirth Scenario.caseBornRejected = Some 631152000000%Z
  /\ (exists message,
        retryKyc (Scenario.provider "v2" (Some 500%Z)) 30 1
          Scenario.wBornRejected
        = (Throw (TypeError message), Scenario.wBornRejected))
  /\ (exists k' w',
        retryKyc (Scenario.provider "v2" (Some 500%Z)) 30 1 Scenario.wRejected
          = (Normal k', w')
        /\ map status (rows w') = [PENDING]
        /\ map attemptCount (rows w') = [2%Z])
  /\ (exists k' w',
        retryKyc (Scenario.provider "v2" None) 60 1 Scenario.wExpiringRejected
          = (Normal k', w')
        /\ expiresAt k' = None
        /\ map status (rows w') = [PENDING]
        /\ map expiresAt (rows w') = [Some 50%Z]).
Proof.
  split; [vm_compute; reflexivity|]. split; [vm_compute; reflexivity|].
  split; [vm_compute; reflexivity|]. split; [vm_compute; reflexivity|].
  split; [eexists; vm_compute; reflexivity|].
  split; run_call; split_all; vm_compute; reflexivity.
Qed.


(** ** Re-delivery of a webhook *)

Lemma spread_again (old : option Metadata) (m : Metadata) :
  spread (Some (spread old m)) m = spread old m.
Proof.
  unfold spread.
  change (default ∅ (Some (m ∪ default ∅ old))) with (m ∪ default ∅ old).
  now rewrite (assoc_L (∪)), (idemp_L (∪)).
Qed.

Lemma webhookAssign_again now1 now2 st data k :
  let k1 := set_updatedAt now1 (webhookAssign now1 st data k) in
  set_updatedAt now2 (webhookAssign now2 st data k1) =
  set_updatedAt now2
    (set_completedAt (if isTerminal st then Some now2 else completedAt k1) k1).
Proof.
  destruct data as [reason ra md req], k.
  unfold webhookAssign, needsManualReview, isTerminal.
  cbn [WebhookData.rejectionReason WebhookData.riskAssessment
       WebhookData.metadata WebhookData.requiresReview].
  destruct (truthy reason), ra as [[[] ? ?]|], md, req, st; simpl; record_norm;
    rewrite ?spread_again; reflexivity.
Qed.

Lemma webhookAssign_completedAt now st data k :
  completedAt (webhookAssign now st data k) =
  if isTerminal st then Some now else completedAt k.
Proof.
  destruct data as [reason ra md req].
  unfold webhookAssign, needsManualReview, isTerminal.
  cbn [WebhookData.rejectionReason WebhookData.riskAssessment
       WebhookData.metadata WebhookData.requiresReview].
  destruct (truthy reason), ra as [[[] ? ?]|], md, req, st; reflexivity.
Qed.

Lemma set_own_timestamps k :
  set_updatedAt (updatedAt k) (set_completedAt (completedAt k) k) = k.
Proof. destruct k. reflexivity. Qed.

Lemma sameModuloUpdatedAt_set k t :
  sameModuloUpdatedAt k (set_updatedAt t (set_completedAt (completedAt k) k)).
Proof. destruct k. reflexivity. Qed.

Lemma replaceRow_replaceRow_same k k1 l :
  id k1 = id k -> replaceRow k1 k1 (replaceRow k k1 l) = replaceRow k k1 l.
Proof.
  intros Hid. unfold replaceRow. rewrite map_map. apply map_ext. intros r.
  unfold sameId. rewrite Hid.
  destruct (id r =? id k)%nat eqn:E.
  - now rewrite Hid, Nat.eqb_refl.
  - now rewrite E.
Qed.

(** C1, as the code has it.  Applying the same
    [(verificationId, status, data)] to a stored case twice, at times
    [now1] and [now2], returns both times; the record stored after the
    second application is the one stored after the first except for
    [updatedAt] and [completedAt].  When the reported status is APPROVED or
    REJECTED each application stamps [completedAt] with its own time;
    otherwise [completedAt] is left as it was and the two records agree on
    every column but [updatedAt].  The other rows are not touched, and at
    [now2 = now1] nothing changes at all. *)
Theorem handleWebhook_twice now1 now2 vid st data w k :
  getKycByVerificationId vid w = (Normal k, w) ->
  exists k1 w1 k2 w2,
    handleWebhook now1 vid st data w = (Normal k1, w1)
    /\ handleWebhook now2 vid st data w1 = (Normal k2, w2)
    /\ getKycByVerificationId vid w2 = (Normal k2, w2)
    /\ k2 = set_updatedAt now2
              (set_completedAt
                 (if isTerminal st then Some now2 else completedAt k1) k1)
    /\ completedAt k1 = (if isTerminal st then Some now1 else completedAt k)
    /\ rows w2 = replaceRow k1 k2 (rows w1)
    /\ (isTerminal st = false -> sameModuloUpdatedAt k1 k2)
    /\ (now2 = now1 -> k2 = k1 /\ rows w2 = rows w1).
Proof.
  intros Hget. apply getKycByVerificationId_Normal in Hget as [Hfind _].
  pose (k1 := set_updatedAt now1 (webhookAssign now1 st data k)).
  assert (Hid1 : id k1 = id k) by apply webhookAssign_id.
  assert (Hvid : whereVerificationId vid k1 = true).
  { unfold whereVerificationId. apply bool_decide_eq_true.
    change (verificationId k1) with (verificationId (webhookAssign now1 st data k)).
    rewrite webhookAssign_verificationId.
    now apply find_whereVerificationId in Hfind. }
  pose proof (find_replaceRow _ _ _ _ Hfind Hvid) as Hfind1.
  pose (k2 := set_updatedAt now2 (webhookAssign now2 st data k1)).
  assert (Hvid2 : whereVerificationId vid k2 = true).
  { unfold whereVerificationId in *.
    change (verificationId k2) with (verificationId (webhookAssign now2 st data k1)).
    now rewrite webhookAssign_verificationId. }
  assert (Hk2 : k2 = set_updatedAt now2
                    (set_completedAt
                       (if isTerminal st then Some now2 else completedAt k1) k1))
    by apply webhookAssign_again.
  assert (Hc1 : completedAt k1 = if isTerminal st then Some now1 else completedAt k)
    by apply webhookAssign_completedAt.
  exists k1, {| rows := replaceRow k k1 (rows w);
                lastId := lastId w;
                emitted := emitted w ++ webhookEvents (status k) st vid k1 |},
         k2, {| rows := replaceRow k1 k2 (replaceRow k k1 (rows w));
                lastId := lastId w;
                emitted := (emitted w ++ webhookEvents (status k) st vid k1)
                             ++ webhookEvents (status k1) st vid k2 |}.
  split; [apply (handleWebhook_found _ _ _ _ _ _ Hfind)|].
  split.
  { exact (handleWebhook_found now2 vid st data
             {| rows := replaceRow k k1 (rows w);
                lastId := lastId w;
                emitted := emitted w ++ webhookEvents (status k) st vid k1 |}
             k1 Hfind1). }
  split; [|split; [exact Hk2|split; [exact Hc1|split; [reflexivity|split]]]].
  - apply getKycByVerificationId_Normal. split; [|reflexivity].
    apply (find_replaceRow _ _ _ _ Hfind1 Hvid2).
  - intros Hnt. rewrite Hk2, Hnt. apply sameModuloUpdatedAt_set.
  - intros ->.
    assert (Hsame : k2 = k1).
    { rewrite Hk2.
      replace (if isTerminal st then Some now1 else completedAt k1)
        with (completedAt k1)
        by (rewrite Hc1; destruct (isTerminal st); reflexivity).
      apply (set_own_timestamps k1). }
    split; [exact Hsame|].
    cbn [rows]. rewrite Hsame. now apply replaceRow_replaceRow_same.
Qed.

Lemma handleWebhook_twice_witness :
  getKycByVerificationId "v1" Scenario.w1 = (Normal Scenario.case1, Scenario.w1)
  /\ exists k1 w1 k2 w2,
    handleWebhook 20 "v1" APPROVED Scenario.plain Scenario.w1 = (Normal k1, w1)
    /\ handleWebhook 30 "v1" APPROVED Scenario.plain w1 = (Normal k2, w2)
    /\ getKycByVerificationId "v1" w2 = (Normal k2, w2)
    /\ k2 = set_updatedAt 30
              (set_completedAt
                 (if isTerminal APPROVED then Some 30%Z else completedAt k1) k1)
    /\ completedAt k1 =
         (if isTerminal APPROVED then Some 20%Z else completedAt Scenario.case1)
    /\ rows w2 = replaceRow k1 k2 (rows w1)
    /\ (isTerminal APPROVED = false -> sameModuloUpdatedAt k1 k2)
    /\ (30%Z = 20%Z -> k2 = k1 /\ rows w2 = rows w1).
Proof.
  split; [vm_compute; reflexivity|].
  apply (handleWebhook_twice 20 30 "v1" APPROVED Scenario.plain Scenario.w1
           Scenario.case1).
  vm_compute; reflexivity.
Defined.

(** C1 as stated fails: the webhook that approved [case1] at time 20,
    delivered again at time 30, moves [completedAt] from 20 to 30, so the
    two stored records differ in more than [updatedAt]. *)
Lemma redelivery_advances_completedAt :
  handleWebhook 20 "v1" APPROVED Scenario.plain Scenario.w1
    = (Normal Scenario.caseApproved, Scenario.wApproved)
  /\ fst (handleWebhook 30 "v1" APPROVED Scenario.plain Scenario.wApproved)
     = Normal Scenario.caseApprovedAgain
  /\ completedAt Scenario.caseApproved = Some 20%Z
  /\ completedAt Scenario.caseApprovedAgain = Some 30%Z
  /\ ~ sameModuloUpdatedAt Scenario.caseApproved Scenario.caseApprovedAgain.
Proof.
  split_all; try (vm_compute; reflexivity).
  unfold sameModuloUpdatedAt. vm_compute. discriminate.
Qed.

(** ** What a call does to the table *)

Lemma getKycById_not_found i w :
  find (whereId i) (rows w) = None ->
  getKycById i w = (Throw (NotFoundException "KYC verification not found"), w).
Proof. intros H. unfold getKycById, bind, findOne. now rewrite H. Qed.

Lemma getKycByVerificationId_not_found vid w :
  find (whereVerificationId vid) (rows w) = None ->
  getKycByVerificationId vid w =
    (Throw (NotFoundException "KYC verification not found"), w).
Proof. intros H. unfold getKycByVerificationId, bind, findOne. now rewrite H. Qed.

Lemma Object_assign_fixed kyc dto :
  id (Object_assign kyc dto) = id kyc
  /\ status (Object_assign kyc dto) = status kyc
  /\ completedAt (Object_assign kyc dto) = completedAt kyc
  /\ attemptCount (Object_assign kyc dto) = attemptCount kyc.
Proof.
  destruct dto as [a c s p dt dn m]. unfold Object_assign, assignOpt.
  cbn [UpdateKycDto.address UpdateKycDto.city UpdateKycDto.state
       UpdateKycDto.postalCode UpdateKycDto.documentType
       UpdateKycDto.documentNumber UpdateKycDto.metadata].
  destruct a, c, s, p, dt, dn, m; split_all; reflexivity.
Qed.

Lemma webhookAssign_attemptCount now st data k :
  attemptCount (webhookAssign now st data k) = attemptCount k.
Proof.
  unfold webhookAssign.
  repeat match goal with
         | |- context [if ?b then _ else _] => destruct b
         | |- context [match ?o with Some _ => _ | None => _ end] => destruct o
         end; reflexivity.
Qed.

Lemma webhookAssign_status now st data k :
  status (webhookAssign now st data k) =
  if needsManualReview data then REQUIRES_REVIEW else st.
Proof.
  unfold webhookAssign. destruct (needsManualReview data); [reflexivity|].
  repeat match goal with
         | |- context [if ?b then _ else _] => destruct b
         | |- context [match ?o with Some _ => _ | None => _ end] => destruct o
         end; reflexivity.
Qed.

Lemma updateKyc_effect now i dto w :
  Effect (CallUpdate now i dto) w (snd (updateKyc now i dto w)).
Proof.
  destruct (find (whereId i) (rows w)) as [k|] eqn:Hfind.
  - unfold updateKyc, bind.
    rewrite (proj2 (getKycById_Normal i w k w) (conj Hfind eq_refl)).
    destruct (bool_decide (status k = APPROVED)) eqn:Hst.
    + now apply effect_none.
    + destruct (Object_assign_fixed k dto) as (Hid & _ & _ & Hcount).
      rewrite (save_update now _ k _ w Hfind Hid).
      apply (effect_update _ _ _ k (set_updatedAt now (Object_assign k dto)));
        try reflexivity.
      * now apply find_some in Hfind.
      * exact Hid.
      * apply written_update. now apply bool_decide_eq_false in Hst.
      * exact Hcount.
  - unfold updateKyc, bind. rewrite (getKycById_not_found _ _ Hfind).
    now apply effect_none.
Qed.

Lemma handleWebhook_effect now vid st data w :
  Effect (CallWebhook now vid st data) w (snd (handleWebhook now vid st data w)).
Proof.
  destruct (find (whereVerificationId vid) (rows w)) as [k|] eqn:Hfind.
  - rewrite (handleWebhook_found now vid st data w k Hfind).
    apply (effect_update _ _ _ k (set_updatedAt now (webhookAssign now st data k)));
      try reflexivity.
    + now apply find_some in Hfind.
    + apply webhookAssign_id.
    + apply written_webhook.
    + apply webhookAssign_attemptCount.
  - unfold handleWebhook, bind.
    rewrite (getKycByVerificationId_not_found _ _ Hfind).
    now apply effect_none.
Qed.

Lemma manualReview_found now i dto w k :
  find (whereId i) (rows w) = Some k ->
  isManualReview k = true ->
  let k' := set_updatedAt now (reviewAssign now dto k) in
  manualReview now i dto w =
    (Normal k',
     {| rows := replaceRow k k' (rows w);
        lastId := lastId w;
        emitted := emitted w ++
          [kyc_manually_reviewed (id k') (userId k')
             (ManualReviewDto.status dto) (ManualReviewDto.reviewedBy dto)] |}).
Proof.
  intros Hfind Hflag k'. unfold manualReview, bind at 1.
  rewrite (proj2 (getKycById_Normal i w k w) (conj Hfind eq_refl)).
  rewrite Hflag. cbn [negb]. unfold bind at 1.
  rewrite (save_update now _ k _ w Hfind (eq_refl : id (reviewAssign now dto k) = id k)).
  reflexivity.
Qed.

Lemma manualReview_effect now i dto w :
  Effect (CallManualReview now i dto) w (snd (manualReview now i dto w)).
Proof.
  destruct (find (whereId i) (rows w)) as [k|] eqn:Hfind.
  - destruct (isManualReview k) eqn:Hflag.
    + rewrite (manualReview_found now i dto w k Hfind Hflag).
      apply (effect_update _ _ _ k (set_updatedAt now (reviewAssign now dto k)));
        try reflexivity.
      * now apply find_some in Hfind.
      * now apply written_review.
    + unfold manualReview, bind.
      rewrite (proj2 (getKycById_Normal i w k w) (conj Hfind eq_refl)).
      rewrite Hflag. now apply effect_none.
  - unfold manualReview, bind. rewrite (getKycById_not_found _ _ Hfind).
    now apply effect_none.
Qed.

Lemma retryKyc_effect svc now i w :
  Effect (CallRetry svc now i) w (snd (retryKyc svc now i w)).
Proof.
  destruct (find (whereId i) (rows w)) as [k|] eqn:Hfind.
  - destruct (decide (status k = REJECTED \/ status k = EXPIRED)) as [Hst|Hst].
    + destruct (Z_lt_le_dec (attemptCount k) 3) as [Hc|Hc].
      * destruct (retryRequest k) as [request|e] eqn:Hreq;
          [|rewrite (retryKyc_request_failure svc now i w k e Hfind Hst Hc Hreq);
            now apply effect_none].
        destruct (createVerification svc request) as [resp|e] eqn:Hresp.
        -- rewrite (retryKyc_found svc now i w k request resp
                      Hfind Hst Hc Hreq Hresp).
           apply (effect_update _ _ _ k
                    (set_updatedAt now
                       (retryRow resp k (retryAssign now resp k))));
             try reflexivity.
           ++ now apply find_some in Hfind.
           ++ now apply written_retry.
        -- unfold retryKyc, bind at 1.
           rewrite (proj2 (getKycById_Normal i w k w) (conj Hfind eq_refl)).
           replace (negb (bool_decide (status k = REJECTED))
                    && negb (bool_decide (status k = EXPIRED))) with false
             by (destruct Hst as [-> | ->]; reflexivity).
           replace (3 <=? attemptCount k)%Z with false
             by (symmetry; apply Z.leb_gt; lia).
           unfold bind, await. rewrite Hreq, Hresp. now apply effect_none.
      * rewrite (retryKyc_max_attempts svc now i w k Hfind Hst Hc).
        now apply effect_none.
    + rewrite (retryKyc_wrong_status svc now i w k Hfind); [now apply effect_none| |];
        intros H; apply Hst; [left|right]; exact H.
  - unfold retryKyc, bind. rewrite (getKycById_not_found _ _ Hfind).
    now apply effect_none.
Qed.

(** ** Initiation inserts one fresh row *)

Lemma keysOk_no_zero w k :
  keysOk w -> id k = 0 -> existsb (sameId k) (rows w) = false.
Proof.
  intros [_ Hall] Hk. apply not_true_is_false. intros H.
  apply existsb_exists in H as (r & Hin & Hr).
  rewrite List.Forall_forall in Hall. specialize (Hall r Hin).
  unfold sameId in Hr. apply Nat.eqb_eq in Hr. lia.
Qed.

Lemma initiateKyc_cases svc now dto w :
  keysOk w ->
  (exists e, initiateKyc svc now dto w = (Throw e, w))
  \/ (exists resp k',
        createVerification svc
          {| KycVerificationData.firstName := InitiateKycDto.firstName dto;
             KycVerificationData.lastName := InitiateKycDto.lastName dto;
             KycVerificationData.email := InitiateKycDto.email dto;
             KycVerificationData.phoneNumber := InitiateKycDto.phoneNumber dto;
             KycVerificationData.dateOfBirth := InitiateKycDto.dateOfBirth dto;
             KycVerificationData.country := InitiateKycDto.country dto;
             KycVerificationData.level := default BASIC (InitiateKycDto.level dto);
             KycVerificationData.userId := InitiateKycDto.userId dto;
             KycVerificationData.metadata := InitiateKycDto.metadata dto |}
          = Normal resp
        /\ k' = set_id (S (lastId w))
                  (set_createdAt now
                     (set_updatedAt now
                        (create (InitiateKycDto.userId dto)
                           (KycProviderResponse.verificationId resp)
                           (KycProviderResponse.verificationUrl resp)
                           PENDING
                           (default BASIC (InitiateKycDto.level dto))
                           (InitiateKycDto.firstName dto)
                           (InitiateKycDto.lastName dto)
                           (InitiateKycDto.email dto)
                           (InitiateKycDto.phoneNumber dto)
                           (InitiateKycDto.dateOfBirth dto)
                           (InitiateKycDto.country dto)
                           (getProviderName svc)
                           (Some now)
                           (KycProviderResponse.expiresAt resp)
                           (InitiateKycDto.metadata dto)
                           1%Z)))
        /\ initiateKyc svc now dto w =
             (Normal k',
              {| rows := rows w ++ [k'];
                 lastId := S (lastId w);
                 emitted := emitted w ++
                   [kyc_initiated (S (lastId w)) (InitiateKycDto.userId dto)
                      (KycProviderResponse.verificationId resp)] |})).
Proof.
  intros Hkeys. unfold initiateKyc. rewrite bind_findOne.
  destruct (find (whereUserStatus _ IN_PROGRESS) (rows w)) as [r|];
    [left; eexists; reflexivity|].
  rewrite bool_decide_eq_false_2 by (intros [? [=]]).
  rewrite bind_findOne.
  destruct (match find (whereUserStatus _ APPROVED) (rows w) with
            | Some v => negb (isKycExpired now v)
            | None => false
            end); [left; eexists; reflexivity|].
  destruct (createVerification svc _) as [resp|e] eqn:Hresp.
  - right. eexists resp, _. split; [reflexivity|]. split; [reflexivity|].
    rewrite bind_await_Normal. unfold bind at 1, save.
    rewrite (keysOk_no_zero w _ Hkeys) by reflexivity.
    reflexivity.
  - left. eexists. apply bind_await_Throw.
Qed.

Lemma initiateKyc_effect svc now dto w :
  keysOk w ->
  Effect (CallInitiate svc now dto) w (snd (initiateKyc svc now dto w)).
Proof.
  intros Hkeys.
  destruct (initiateKyc_cases svc now dto w Hkeys)
    as [[e ->] | (resp & k' & _ & Hk' & ->)].
  - now apply effect_none.
  - apply (effect_insert _ _ _ k'); [|subst k'; reflexivity..].
    subst k'. constructor; reflexivity.
Qed.

Lemma run_effect c w : keysOk w -> Effect c w (run c w).
Proof.
  intros Hkeys. destruct c; cbn [run].
  - now apply initiateKyc_effect.
  - apply updateKyc_effect.
  - apply handleWebhook_effect.
  - apply manualReview_effect.
  - apply retryKyc_effect.
Qed.

Lemma map_id_replaceRow k k' l :
  id k' = id k -> map id (replaceRow k k' l) = map id l.
Proof.
  intros Hid. unfold replaceRow. rewrite map_map. apply map_ext_in.
  intros r _. unfold sameId. destruct (id r =? id k)%nat eqn:E; [|reflexivity].
  apply Nat.eqb_eq in E. congruence.
Qed.

Lemma effect_keysOk c w w' : keysOk w -> Effect c w w' -> keysOk w'.
Proof.
  intros [Hnd Hall] [Hrows Hlast | k k' Hin Hid _ _ Hrows Hlast
                     | k' _ Hid Hrows Hlast]; unfold keysOk;
    rewrite Hrows, Hlast.
  - now split.
  - rewrite (map_id_replaceRow _ _ _ Hid). split; [assumption|].
    unfold replaceRow. apply List.Forall_map.
    rewrite List.Forall_forall in *.
    intros r Hr. destruct (sameId k r); [rewrite Hid|]; now apply Hall.
  - rewrite List.Forall_forall in Hall. split.
    + rewrite map_app. cbn [map]. apply NoDup_app. split; [assumption|].
      split; [|apply NoDup_singleton].
      intros i Hi Hk'. apply list_elem_of_In in Hi, Hk'.
      destruct Hk' as [<- | []]. apply in_map_iff in Hi as (r & Hr & Hin).
      specialize (Hall r Hin). lia.
    + apply List.Forall_forall. intros r Hr.
      apply in_app_or in Hr as [Hr | [<- | []]].
      * specialize (Hall r Hr). lia.
      * lia.
Qed.

Lemma reachable_keysOk w : reachable w -> keysOk w.
Proof.
  induction 1 as [|c w _ IH].
  - split; [constructor|constructor].
  - exact (effect_keysOk c _ _ IH (run_effect c w IH)).
Qed.

(** ** Invariants of the stored cases *)

Section Invariant.

Variable P : KycVerification -> Prop.
Hypothesis P_written : forall k k', Written k k' -> P k -> P k'.
Hypothesis P_created : forall k, Created k -> P k.

Lemma effect_Forall c w w' :
  Effect c w w' -> List.Forall P (rows w) -> List.Forall P (rows w').
Proof.
  intros [Hrows _ | k k' Hin _ Hw _ Hrows _ | k' Hc _ Hrows _] Hall;
    rewrite Hrows.
  - assumption.
  - unfold replaceRow. apply List.Forall_map.
    rewrite List.Forall_forall in *. intros r Hr.
    destruct (sameId k r); [|now apply Hall].
    apply (P_written k k' Hw). now apply Hall.
  - apply List.Forall_app. split; [assumption|].
    constructor; [now apply P_created | constructor].
Qed.

Lemma run_Forall c w :
  keysOk w -> List.Forall P (rows w) -> List.Forall P (rows (run c w)).
Proof. intros Hkeys. apply effect_Forall with c. now apply run_effect. Qed.

Lemma reachable_Forall w : reachable w -> List.Forall P (rows w).
Proof.
  induction 1 as [|c w Hw IH]; [constructor|].
  apply run_Forall; [now apply reachable_keysOk | assumption].
Qed.

End Invariant.

Lemma terminalHasCompletedAt_written k k' :
  Written k k' -> terminalHasCompletedAt k -> terminalHasCompletedAt k'.
Proof.
  unfold terminalHasCompletedAt.
  intros [now dto Hst | now st data | now dto Hflag | now resp Hst Hc] Hk.
  - destruct (Object_assign_fixed k dto) as (_ & Hs & Hc & _).
    cbn [status completedAt set_updatedAt]. rewrite Hs, Hc. exact Hk.
  - cbn [status completedAt set_updatedAt].
    rewrite webhookAssign_status, webhookAssign_completedAt.
    destruct (needsManualReview data); [intros [|]; discriminate|].
    unfold isTerminal. intros [-> | ->]; discriminate.
  - intros _. discriminate.
  - intros [|]; discriminate.
Qed.

Lemma terminalHasCompletedAt_created k :
  Created k -> terminalHasCompletedAt k.
Proof. intros [Hs _ _ _ _]. unfold terminalHasCompletedAt. rewrite Hs. intros [|]; discriminate. Qed.

Lemma attemptCountInRange_written k k' :
  Written k k' -> attemptCountInRange k -> attemptCountInRange k'.
Proof.
  unfold attemptCountInRange.
  intros [now dto Hst | now st data | now dto Hflag | now resp Hst Hc] Hk.
  - destruct (Object_assign_fixed k dto) as (_ & _ & _ & Hcount).
    cbn [attemptCount set_updatedAt]. now rewrite Hcount.
  - cbn [attemptCount set_updatedAt]. now rewrite webhookAssign_attemptCount.
  - exact Hk.
  - change (1 <= attemptCount k + 1 <= 3)%Z. lia.
Qed.

Lemma attemptCountInRange_created k : Created k -> attemptCountInRange k.
Proof. intros [_ Hc _ _ _]. unfold attemptCountInRange. rewrite Hc. lia. Qed.

Lemma Scenario_w1_reachable : reachable Scenario.w1.
Proof.
  reach_by (CallInitiate (Scenario.provider "v1" None) 10 Scenario.dtoU1)
           reachable_empty.
Qed.

Lemma Scenario_wApproved_reachable : reachable Scenario.wApproved.
Proof.
  reach_by (CallWebhook 20 "v1" APPROVED Scenario.plain) Scenario_w1_reachable.
Qed.

Lemma Scenario_wRejected_reachable : reachable Scenario.wRejected.
Proof.
  reach_by (CallWebhook 20 "v1" REJECTED Scenario.rejection)
           Scenario_w1_reachable.
Qed.

Lemma Scenario_wRejected3_reachable : reachable Scenario.wRejected3.
Proof.
  pose proof
    (reachable_run (CallRetry (Scenario.provider "v2" (Some 500%Z)) 30 1) _
       Scenario_wRejected_reachable) as H2.
  pose proof
    (reachable_run (CallWebhook 40 "v2" REJECTED Scenario.rejection) _ H2) as H3.
  pose proof
    (reachable_run (CallRetry (Scenario.provider "v3" None) 50 1) _ H3) as H4.
  reach_by (CallWebhook 60 "v3" REJECTED Scenario.rejection) H4.
Qed.

(** C5, as the code has it.  For every case of every reachable world, a
    status of APPROVED or REJECTED comes with a [completedAt]; each of
    initiateKyc, updateKyc, handleWebhook, manualReview and retryKyc keeps
    it so on any table with well-formed keys. *)
Theorem terminal_status_has_completedAt :
  (forall c w,
     keysOk w ->
     List.Forall terminalHasCompletedAt (rows w) ->
     List.Forall terminalHasCompletedAt (rows (run c w)))
  /\ (forall w k,
        reachable w -> In k (rows w) ->
        status k = APPROVED \/ status k = REJECTED ->
        exists t, completedAt k = Some t).
Proof.
  split.
  - exact (run_Forall terminalHasCompletedAt terminalHasCompletedAt_written
             terminalHasCompletedAt_created).
  - intros w k Hw Hin Hst.
    pose proof (reachable_Forall terminalHasCompletedAt
                  terminalHasCompletedAt_written
                  terminalHasCompletedAt_created w Hw) as Hall.
    rewrite List.Forall_forall in Hall. specialize (Hall k Hin Hst).
    destruct (completedAt k) as [t|]; [now exists t | contradiction].
Qed.

Lemma terminal_status_has_completedAt_witness :
  (keysOk Scenario.w1
   /\ List.Forall terminalHasCompletedAt (rows Scenario.w1)
   /\ List.Forall terminalHasCompletedAt
        (rows (run (CallWebhook 20 "v1" APPROVED Scenario.plain) Scenario.w1)))
  /\ (reachable Scenario.wApproved
      /\ In Scenario.caseApproved (rows Scenario.wApproved)
      /\ (status Scenario.caseApproved = APPROVED
          \/ status Scenario.caseApproved = REJECTED)
      /\ exists t, completedAt Scenario.caseApproved = Some t).
Proof.
  destruct terminal_status_has_completedAt as [Hstep Hreach].
  assert (Hkeys : keysOk Scenario.w1)
    by apply reachable_keysOk, Scenario_w1_reachable.
  assert (Hall : List.Forall terminalHasCompletedAt (rows Scenario.w1)).
  { vm_compute. constructor; [|constructor]. intros [H | H]; discriminate. }
  assert (Hin : In Scenario.caseApproved (rows Scenario.wApproved))
    by (vm_compute; left; reflexivity).
  assert (Hst : status Scenario.caseApproved = APPROVED
                \/ status Scenario.caseApproved = REJECTED)
    by (left; vm_compute; reflexivity).
  split; [split; [|split]|split; [|split; [|split]]].
  - exact Hkeys.
  - exact Hall.
  - exact (Hstep _ _ Hkeys Hall).
  - exact Scenario_wApproved_reachable.
  - exact Hin.
  - exact Hst.
  - exact (Hreach _ _ Scenario_wApproved_reachable Hin Hst).
Defined.

(** C5 as stated fails.  [case1] is approved at time 20 and the provider
    then reports IN_PROGRESS at time 30: the stored case has a
    [completedAt], a status that is neither APPROVED nor REJECTED, and was
    never manually reviewed. *)
Lemma completedAt_without_terminal_status :
  reachable Scenario.wReopened
  /\ rows Scenario.wReopened = [Scenario.caseReopened]
  /\ status Scenario.caseReopened = IN_PROGRESS
  /\ completedAt Scenario.caseReopened = Some 20%Z
  /\ reviewedBy Scenario.caseReopened = None
  /\ ~ completedAtIffClosed Scenario.caseReopened.
Proof.
  split_all; try (vm_compute; reflexivity).
  - reach_by (CallWebhook 30 "v1" IN_PROGRESS Scenario.plain)
             Scenario_wApproved_reachable.
  - unfold completedAtIffClosed, closedByManualReview. intros [H _].
    assert (Hc : completedAt Scenario.caseReopened <> None)
      by (vm_compute; discriminate).
    destruct (H Hc) as [Hs | [Hs | Hs]].
    + vm_compute in Hs. discriminate.
    + vm_compute in Hs. discriminate.
    + apply Hs. vm_compute. reflexivity.
Qed.

(** ** attemptCount *)

Lemma In_replaceRow k k' l r :
  In r (replaceRow k k' l) -> r = k' \/ In r l.
Proof.
  unfold replaceRow. intros H. apply in_map_iff in H as (r0 & Hr & Hin).
  destruct (sameId k r0); subst; [now left | now right].
Qed.

(** C6. In every reachable world every case has [attemptCount] between 1
    and 3.  A case returned by [initiateKyc] has [attemptCount = 1]; a call
    leaves the [attemptCount] of every stored case as it was, except a
    retry, which may add one to the case it retries; a row that was not
    there before has [attemptCount = 1].  [retryKyc] on a stored case
    with [attemptCount >= 3] throws a bad request and leaves the world as
    it is; for a REJECTED or EXPIRED case the message is "Maximum retry
    attempts reached". *)
Theorem attemptCount_bounds :
  (forall w k, reachable w -> In k (rows w) -> (1 <= attemptCount k <= 3)%Z)
  /\ (forall svc now dto w k' w',
        reachable w ->
        initiateKyc svc now dto w = (Normal k', w') -> attemptCount k' = 1%Z)
  /\ (forall c w r',
        reachable w -> In r' (rows (run c w)) ->
        (exists r, In r (rows w) /\ id r = id r'
                   /\ (attemptCount r' = attemptCount r
                       \/ (isRetry c = true
                           /\ attemptCount r' = (attemptCount r + 1)%Z)))
        \/ ((forall r, In r (rows w) -> id r <> id r')
            /\ attemptCount r' = 1%Z))
  /\ (forall svc now i w k,
        getKycById i w = (Normal k, w) -> (3 <= attemptCount k)%Z ->
        exists msg,
          retryKyc svc now i w = (Throw (BadRequestException msg), w)
          /\ (status k = REJECTED \/ status k = EXPIRED ->
              msg = "Maximum retry attempts reached")).
Proof.
  split_all.
  - intros w k Hw Hin.
    pose proof (reachable_Forall attemptCountInRange
                  attemptCountInRange_written
                  attemptCountInRange_created w Hw) as Hall.
    rewrite List.Forall_forall in Hall. exact (Hall k Hin).
  - intros svc now dto w k' w' Hw Hrun.
    destruct (initiateKyc_cases svc now dto w (reachable_keysOk w Hw))
      as [[e He] | (resp & k0 & _ & Hk0 & Hk)]; rewrite Hrun in *.
    + discriminate.
    + injection Hk as -> _. subst k0. reflexivity.
  - intros c w r' Hw Hin.
    pose proof (reachable_keysOk w Hw) as Hkeys.
    destruct (run_effect c w Hkeys)
      as [Hrows _ | k k' Hk Hid _ Hcount Hrows _ | k' Hc Hid Hrows _];
      rewrite Hrows in Hin.
    + left. exists r'. auto.
    + apply In_replaceRow in Hin as [-> | Hin].
      * left. exists k. split_all; [assumption | now symmetry |].
        destruct (isRetry c); [right | left]; auto.
      * left. exists r'. auto.
    + apply in_app_or in Hin as [Hin | [<- | []]].
      * left. exists r'. auto.
      * right. split; [|apply Hc].
        intros r Hr. destruct Hkeys as [_ Hall].
        rewrite List.Forall_forall in Hall. specialize (Hall r Hr). lia.
  - intros svc now i w k Hget Hcount.
    apply getKycById_Normal in Hget as [Hfind _].
    destruct (decide (status k = REJECTED \/ status k = EXPIRED)) as [Hst|Hst].
    + eexists. split; [apply (retryKyc_max_attempts _ _ _ _ k Hfind Hst Hcount)|].
      reflexivity.
    + eexists. split; [|intros H; contradiction].
      apply (retryKyc_wrong_status _ _ _ _ k Hfind);
        intros H; apply Hst; [left|right]; exact H.
Qed.

Lemma attemptCount_bounds_witness :
  (reachable Scenario.wRejected3
   /\ In Scenario.caseThird (rows Scenario.wRejected3)
   /\ (1 <= attemptCount Scenario.caseThird <= 3)%Z)
  /\ (getKycById 1 Scenario.wRejected3
        = (Normal Scenario.caseThird, Scenario.wRejected3)
      /\ (3 <= attemptCount Scenario.caseThird)%Z
      /\ exists msg,
           retryKyc (Scenario.provider "v4" None) 70 1 Scenario.wRejected3
             = (Throw (BadRequestException msg), Scenario.wRejected3)
           /\ (status Scenario.caseThird = REJECTED
               \/ status Scenario.caseThird = EXPIRED ->
               msg = "Maximum retry attempts reached")).
Proof.
  destruct attemptCount_bounds as (Hrange & _ & _ & Hmax).
  assert (Hin : In Scenario.caseThird (rows Scenario.wRejected3))
    by (vm_compute; left; reflexivity).
  assert (Hget : getKycById 1 Scenario.wRejected3
                 = (Normal Scenario.caseThird, Scenario.wRejected3))
    by (vm_compute; reflexivity).
  assert (Hc : (3 <= attemptCount Scenario.caseThird)%Z)
    by (vm_compute; discriminate).
  split; [split; [|split]|split; [|split]].
  - exact Scenario_wRejected3_reachable.
  - exact Hin.
  - exact (Hrange _ _ Scenario_wRejected3_reachable Hin).
  - exact Hget.
  - exact Hc.
  - exact (Hmax (Scenario.provider "v4" None) 70%Z 1 _ _ Hget Hc).
Defined.

(** ** Expiry is evaluated by the queries *)

Lemma firstDesc_acc (key : KycVerification -> option Z)
    (p : KycVerification -> bool) (l : list KycVerification) :
  forall (acc : option KycVerification) (k : KycVerification),
    fold_left
      (fun best r =>
         if p r then
           match best with
           | None => Some r
           | Some b => if descBefore (key r) (key b) then Some r else Some b
           end
         else best)
      l acc = Some k ->
    acc = Some k \/ (In k l /\ p k = true).
Proof.
  induction l as [|r l IH]; intros acc k H; cbn [fold_left] in H.
  - now left.
  - apply IH in H as [H | [Hin Hp]]; [|right; split; [now right | assumption]].
    destruct (p r) eqn:Hr; [|now left].
    destruct acc as [b|].
    + destruct (descBefore (key r) (key b)).
      * injection H as <-. right. split; [now left | assumption].
      * now left.
    + injection H as <-. right. split; [now left | assumption].
Qed.

Lemma firstDesc_Some key p l k :
  firstDesc key p l = Some k -> In k l /\ p k = true.
Proof.
  intros H. apply firstDesc_acc in H as [H | H]; [discriminate | assumption].
Qed.

Lemma find_unique_id l k :
  NoDup (map id l) -> In k l -> find (whereId (id k)) l = Some k.
Proof.
  induction l as [|r l IH]; intros Hnd Hin; [contradiction|].
  cbn [map] in Hnd. apply NoDup_cons in Hnd as [Hr Hnd].
  cbn [find]. unfold whereId at 1.
  destruct Hin as [-> | Hin].
  - now rewrite Nat.eqb_refl.
  - destruct (id r =? id k)%nat eqn:E; [|now apply IH].
    exfalso. apply Hr. apply Nat.eqb_eq in E. rewrite E.
    apply list_elem_of_In, in_map, Hin.
Qed.

(** C8, as the code has it.  When the case that the verification query
    selects for user [u] (the APPROVED case with the latest [completedAt])
    has an [expiresAt] strictly before [now], that case is still stored
    and fetched with status APPROVED, while [isUserVerified] answers false
    for any required level and [getUserVerificationLevel] answers none; no
    query changes the world. *)
Theorem expiration_is_lazy now u lvl w k e :
  keysOk w ->
  findOneOrderDesc completedAt (whereUserStatus u APPROVED) w
    = (Normal (Some k), w) ->
  expiresAt k = Some e -> (e < now)%Z ->
  getKycById (id k) w = (Normal k, w)
  /\ status k = APPROVED
  /\ userId k = u
  /\ isUserVerified now u lvl w = (Normal false, w)
  /\ getUserVerificationLevel now u w = (Normal None, w).
Proof.
  intros [Hnd _] Hsel He Hlt.
  assert (Hfirst : firstDesc completedAt (whereUserStatus u APPROVED) (rows w)
                   = Some k).
  { unfold findOneOrderDesc in Hsel. now injection Hsel. }
  destruct (firstDesc_Some _ _ _ _ Hfirst) as [Hin Hp].
  unfold whereUserStatus in Hp. apply andb_true_iff in Hp as [Hu Hs].
  apply bool_decide_eq_true in Hu, Hs.
  assert (Hexp : isKycExpired now k = true).
  { unfold isKycExpired. rewrite He. apply Z.ltb_lt. exact Hlt. }
  split_all; try assumption.
  - apply getKycById_Normal. split; [|reflexivity]. now apply find_unique_id.
  - unfold isUserVerified, bind. rewrite Hsel. now rewrite Hexp.
  - unfold getUserVerificationLevel, bind. rewrite Hsel. now rewrite Hexp.
Qed.

Lemma Scenario_wExpiring_reachable : reachable Scenario.wExpiring.
Proof.
  pose proof
    (reachable_run
       (CallInitiate (Scenario.provider "v1" (Some 50%Z)) 10 Scenario.dtoU1) _
       reachable_empty) as H1.
  reach_by (CallWebhook 20 "v1" APPROVED Scenario.plain) H1.
Qed.

Lemma Scenario_wReverified_reachable : reachable Scenario.wReverified.
Proof.
  pose proof
    (reachable_run
       (CallInitiate (Scenario.provider "v2" None) 100 Scenario.dtoU1) _
       Scenario_wExpiring_reachable) as H1.
  reach_by (CallWebhook 110 "v2" APPROVED Scenario.plain) H1.
Qed.

Lemma expiration_is_lazy_witness :
  keysOk Scenario.wExpiring
  /\ findOneOrderDesc completedAt (whereUserStatus "U1" APPROVED)
       Scenario.wExpiring
     = (Normal (Some Scenario.caseExpired), Scenario.wExpiring)
  /\ expiresAt Scenario.caseExpired = Some 50%Z
  /\ (50 < 100)%Z
  /\ getKycById (id Scenario.caseExpired) Scenario.wExpiring
     = (Normal Scenario.caseExpired, Scenario.wExpiring)
  /\ status Scenario.caseExpired = APPROVED
  /\ userId Scenario.caseExpired = "U1"
  /\ isUserVerified 100 "U1" None Scenario.wExpiring
     = (Normal false, Scenario.wExpiring)
  /\ getUserVerificationLevel 100 "U1" Scenario.wExpiring
     = (Normal None, Scenario.wExpiring).
Proof.
  assert (Hkeys : keysOk Scenario.wExpiring)
    by apply reachable_keysOk, Scenario_wExpiring_reachable.
  assert (Hsel : findOneOrderDesc completedAt (whereUserStatus "U1" APPROVED)
                   Scenario.wExpiring
                 = (Normal (Some Scenario.caseExpired), Scenario.wExpiring))
    by (vm_compute; reflexivity).
  assert (He : expiresAt Scenario.caseExpired = Some 50%Z)
    by (vm_compute; reflexivity).
  assert (Hlt : (50 < 100)%Z) by lia.
  split; [exact Hkeys|]. split; [exact Hsel|]. split; [exact He|].
  split; [exact Hlt|].
  exact (expiration_is_lazy 100 "U1" None Scenario.wExpiring
           Scenario.caseExpired 50 Hkeys Hsel He Hlt).
Defined.

(** C8 as stated fails.  In [wReverified] the first case of [U1] is stored
    APPROVED with [expiresAt = 50]; at time 120 a direct fetch returns it
    so, yet [isUserVerified] answers true and [getUserVerificationLevel]
    answers BASIC, because the queries look at the APPROVED case with the
    latest [completedAt], which is the second one. *)
Lemma expired_case_of_verified_user :
  reachable Scenario.wReverified
  /\ getKycById 1 Scenario.wReverified
     = (Normal Scenario.caseExpired, Scenario.wReverified)
  /\ userId Scenario.caseExpired = "U1"
  /\ status Scenario.caseExpired = APPROVED
  /\ expiresAt Scenario.caseExpired = Some 50%Z
  /\ (50 < 120)%Z
  /\ isUserVerified 120 "U1" None Scenario.wReverified
     = (Normal true, Scenario.wReverified)
  /\ getUserVerificationLevel 120 "U1" Scenario.wReverified
     = (Normal (Some BASIC), Scenario.wReverified).
Proof.
  split; [exact Scenario_wReverified_reachable|].
  split_all; solve [vm_compute; reflexivity | lia].
Qed.

(** ** The webhook signature check *)

(** The model of [createHmac] on the test vectors of FIPS 180-4 and
    RFC 4231 (test case 2). *)
Example sha256_abc :
  NodeCrypto.hex (NodeCrypto.sha256 (NodeCrypto.bytesOf "abc"))
  = "ba7816bf8f01cfea414140de5dae2223b00361a396177a9cb410ff61f20015ad".
Proof. vm_compute. reflexivity. Qed.

Example hmacSha256Hex_rfc4231 :
  NodeCrypto.hmacSha256Hex "Jefe" "what do ya want for nothing?"
  = "5bdcc146bf60754e6a042426089575c75a003f089d2739839dec58b964ec3843".
Proof. vm_compute. reflexivity. Qed.

Lemma timingSafeEqual_or_false a b :
  tryCatch (timingSafeEqual a b) (fun _ => Normal false)
  = Normal (bool_decide (a = b)).
Proof.
  unfold timingSafeEqual.
  destruct (String.length a =? String.length b)%nat eqn:E; [reflexivity|].
  cbn [tryCatch]. rewrite bool_decide_eq_false_2; [reflexivity|].
  intros ->. now rewrite Nat.eqb_refl in E.
Qed.

(** C9, as the code has it.  [verifyWebhookSignature] never throws, with
    or without a configured secret: it returns true exactly when the
    secret is configured, a signature is given, and the signature is the
    hex HMAC-SHA-256 of the signed data under the secret; a differing
    signature of any length, a missing signature and a missing secret all
    give false. *)
Theorem verifyWebhookSignature_total secret payload signature timestamp :
  verifyWebhookSignature secret payload signature timestamp =
  Normal
    match secret, signature with
    | Some key, Some claimed =>
        bool_decide
          (claimed = NodeCrypto.hmacSha256Hex key (signedData payload timestamp))
    | _, _ => false
    end.
Proof.
  unfold verifyWebhookSignature, createHmacDigestHex.
  destruct secret as [key|]; [|reflexivity].
  generalize (NodeCrypto.hmacSha256Hex key (signedData payload timestamp)).
  intros expected. destruct signature as [claimed|]; [|reflexivity].
  apply (timingSafeEqual_or_false claimed expected).
Qed.

(** C9 as stated fails: without a configured secret the verifier does not
    throw; the [TypeError] of [createHmac] is caught and the answer is
    false, even for the signature that is valid under the real secret. *)
Lemma missing_secret_returns_false :
  verifyWebhookSignature None Scenario.body
    (Some Scenario.signatureWithTimestamp) (Some "1700000000")
  = Normal false
  /\ createHmacDigestHex None Scenario.body
     = Throw (TypeError "The key argument must be of type string").
Proof. split; reflexivity. Qed.

(** Byte-exact fixtures: the signed body verifies with and without a
    timestamp; a changed body, signature or timestamp, a shorter signature
    and one that is not hex do not, and do not throw. *)
Example verifyWebhookSignature_fixtures :
  verifyWebhookSignature (Some "whsec_test") Scenario.body
    (Some Scenario.signatureWithTimestamp) (Some "1700000000") = Normal true
  /\ verifyWebhookSignature (Some "whsec_test") Scenario.body
       (Some Scenario.signatureOfBody) None = Normal true
  /\ verifyWebhookSignature (Some "whsec_test") (Scenario.body ++ " ")
       (Some Scenario.signatureWithTimestamp) (Some "1700000000") = Normal false
  /\ verifyWebhookSignature (Some "whsec_test") Scenario.body
       (Some Scenario.signatureWithTimestamp) (Some "1700000001") = Normal false
  /\ verifyWebhookSignature (Some "whsec_test") Scenario.body
       (Some "42faf81845401f22a2b49cd1c077d5c8dedfc610a3d13f78a3f90072318f5c3c")
       (Some "1700000000") = Normal false
  /\ verifyWebhookSignature (Some "whsec_test") Scenario.body
       (Some "32faf818") (Some "1700000000") = Normal false
  /\ verifyWebhookSignature (Some "whsec_test") Scenario.body
       (Some "not-a-hex-signature") (Some "1700000000") = Normal false
  /\ verifyWebhookSignature (Some "whsec_test") Scenario.body
       None (Some "1700000000") = Normal false.
Proof. split_all; vm_compute; reflexivity. Qed.

(** ** Level ordering of the verification query *)

Lemma indexOf_levels x :
  indexOf levels x =
  match x with BASIC => 0%Z | INTERMEDIATE => 1%Z | ADVANCED => 2%Z end.
Proof. destruct x; reflexivity. Qed.

(** The approved BASIC case of [U1] meets a BASIC requirement and no
    higher one. *)
Example isUserVerified_level_ordering :
  isUserVerified 30 "U1" (Some BASIC) Scenario.wApproved
    = (Normal true, Scenario.wApproved)
  /\ isUserVerified 30 "U1" (Some INTERMEDIATE) Scenario.wApproved
    = (Normal false, Scenario.wApproved)
  /\ isUserVerified 30 "U1" (Some ADVANCED) Scenario.wApproved
    = (Normal false, Scenario.wApproved).
Proof. split_all; vm_compute; reflexivity. Qed.

(** * More of the module *)

(** ** How each writing call ends *)

Lemma save_Normal now k w :
  exists k' w',
    save now k w = (Normal k', w') /\ emitted w' = emitted w.
Proof.
  unfold save. destruct (existsb (sameId k) (rows w)); eexists _, _; split; reflexivity.
Qed.

Lemma initiateKyc_ends svc now dto w :
  (exists e, initiateKyc svc now dto w = (Throw e, w))
  \/ (exists k' w',
        initiateKyc svc now dto w = (Normal k', w')
        /\ emitted w' =
             (emitted w ++ [kyc_initiated (id k') (userId k') (verificationId k')])%list).
Proof.
  unfold initiateKyc. rewrite bind_findOne.
  destruct (find (whereUserStatus _ IN_PROGRESS) (rows w)) as [r|];
    [left; eexists; reflexivity|].
  rewrite bool_decide_eq_false_2 by (intros [? [=]]).
  rewrite bind_findOne.
  destruct (match find (whereUserStatus _ APPROVED) (rows w) with
            | Some v => negb (isKycExpired now v)
            | None => false
            end); [left; eexists; reflexivity|].
  destruct (createVerification svc _) as [resp|e] eqn:Hresp.
  - right. rewrite bind_await_Normal. unfold bind at 1.
    match goal with |- context [save now ?k w] =>
      destruct (save_Normal now k w) as (k' & w' & Hs & He); rewrite Hs
    end.
    exists k', {| rows := rows w'; lastId := lastId w';
                  emitted := emitted w' ++
                    [kyc_initiated (id k') (userId k') (verificationId k')] |}.
    split; [reflexivity|]. cbn [emitted]. now rewrite He.
  - left. eexists. apply bind_await_Throw.
Qed.

Lemma updateKyc_ends now i dto w :
  (exists e, updateKyc now i dto w = (Throw e, w))
  \/ (exists k,
        find (whereId i) (rows w) = Some k
        /\ status k <> APPROVED
        /\ updateKyc now i dto w =
             (Normal (set_updatedAt now (Object_assign k dto)),
              {| rows := replaceRow k (set_updatedAt now (Object_assign k dto)) (rows w);
                 lastId := lastId w;
                 emitted := emitted w |})).
Proof.
  destruct (find (whereId i) (rows w)) as [k|] eqn:Hfind.
  - unfold updateKyc, bind.
    rewrite (proj2 (getKycById_Normal i w k w) (conj Hfind eq_refl)).
    destruct (bool_decide (status k = APPROVED)) eqn:Hst.
    + left. eexists. reflexivity.
    + right. exists k. split; [reflexivity|].
      split; [now apply bool_decide_eq_false in Hst|].
      destruct (Object_assign_fixed k dto) as (Hid & _).
      apply (save_update now _ k _ w Hfind Hid).
  - left. eexists. unfold updateKyc, bind.
    now rewrite (getKycById_not_found _ _ Hfind).
Qed.

Lemma handleWebhook_ends now vid st data w :
  (find (whereVerificationId vid) (rows w) = None
   /\ handleWebhook now vid st data w =
        (Throw (NotFoundException "KYC verification not found"), w))
  \/ (exists k,
        find (whereVerificationId vid) (rows w) = Some k
        /\ handleWebhook now vid st data w =
             (Normal (set_updatedAt now (webhookAssign now st data k)),
              {| rows := replaceRow k (set_updatedAt now (webhookAssign now st data k)) (rows w);
                 lastId := lastId w;
                 emitted := emitted w ++
                   webhookEvents (status k) st vid
                     (set_updatedAt now (webhookAssign now st data k)) |})).
Proof.
  destruct (find (whereVerificationId vid) (rows w)) as [k|] eqn:Hfind.
  - right. exists k. split; [reflexivity|]. now apply handleWebhook_found.
  - left. split; [reflexivity|]. unfold handleWebhook, bind.
    now rewrite (getKycByVerificationId_not_found _ _ Hfind).
Qed.

Lemma manualReview_ends now i dto w :
  (exists e, manualReview now i dto w = (Throw e, w))
  \/ (exists k,
        find (whereId i) (rows w) = Some k
        /\ isManualReview k = true
        /\ manualReview now i dto w =
             (Normal (set_updatedAt now (reviewAssign now dto k)),
              {| rows := replaceRow k (set_updatedAt now (reviewAssign now dto k)) (rows w);
                 lastId := lastId w;
                 emitted := emitted w ++
                   [kyc_manually_reviewed (id k) (userId k)
                      (ManualReviewDto.status dto) (ManualReviewDto.reviewedBy dto)] |})).
Proof.
  destruct (find (whereId i) (rows w)) as [k|] eqn:Hfind.
  - destruct (isManualReview k) eqn:Hflag.
    + right. exists k. split; [reflexivity|]. split; [exact Hflag|].
      rewrite (manualReview_found now i dto w k Hfind Hflag). reflexivity.
    + left. eexists. unfold manualReview, bind.
      rewrite (proj2 (getKycById_Normal i w k w) (conj Hfind eq_refl)).
      now rewrite Hflag.
  - left. eexists. unfold manualReview, bind.
    now rewrite (getKycById_not_found _ _ Hfind).
Qed.

Lemma retryKyc_provider_failure svc now i w k request e :
  find (whereId i) (rows w) = Some k ->
  status k = REJECTED \/ status k = EXPIRED ->
  (attemptCount k < 3)%Z ->
  retryRequest k = Normal request ->
  createVerification svc request = Throw e ->
  retryKyc svc now i w = (Throw e, w).
Proof.
  intros Hfind Hst Hc Hreq Hresp. unfold retryKyc, bind at 1.
  rewrite (proj2 (getKycById_Normal i w k w) (conj Hfind eq_refl)).
  replace (negb (bool_decide (status k = REJECTED))
           && negb (bool_decide (status k = EXPIRED))) with false
    by (destruct Hst as [-> | ->]; reflexivity).
  replace (3 <=? attemptCount k)%Z with false
    by (symmetry; apply Z.leb_gt; lia).
  unfold bind, await. now rewrite Hreq, Hresp.
Qed.

Lemma retryKyc_ends svc now i w :
  (exists e, retryKyc svc now i w = (Throw e, w))
  \/ (exists k resp,
        find (whereId i) (rows w) = Some k
        /\ retryKyc svc now i w =
             (Normal (set_updatedAt now (retryAssign now resp k)),
              {| rows :=
                   replaceRow k
                     (set_updatedAt now (retryRow resp k (retryAssign now resp k)))
                     (rows w);
                 lastId := lastId w;
                 emitted := emitted w |})).
Proof.
  destruct (find (whereId i) (rows w)) as [k|] eqn:Hfind.
  - destruct (decide (status k = REJECTED \/ status k = EXPIRED)) as [Hst|Hst].
    + destruct (Z_lt_le_dec (attemptCount k) 3) as [Hc|Hc].
      * destruct (retryRequest k) as [request|e] eqn:Hreq.
        -- destruct (createVerification svc request) as [resp|e] eqn:Hresp.
           ++ right. exists k, resp. split; [reflexivity|].
              now apply (retryKyc_found _ _ _ _ _ request).
           ++ left. exists e.
              now apply (retryKyc_provider_failure _ _ _ _ k request).
        -- left. exists e. now apply (retryKyc_request_failure _ _ _ _ k).
      * left. eexists. now apply (retryKyc_max_attempts _ _ _ _ k).
    + left. eexists. apply (retryKyc_wrong_status _ _ _ _ k Hfind);
        intros H; apply Hst; [left|right]; exact H.
  - left. eexists. unfold retryKyc, bind.
    now rewrite (getKycById_not_found _ _ Hfind).
Qed.

Lemma save_ids now k w :
  exists k' w',
    save now k w = (Normal k', w')
    /\ emitted w' = emitted w
    /\ exists extra,
         map id (rows w') = (map id (rows w) ++ extra)%list
         /\ (List.length extra <= 1)%nat.
Proof.
  unfold save. destruct (existsb (sameId k) (rows w)); eexists _, _;
    (split; [reflexivity|split; [reflexivity|]]); cbn [rows].
  - exists []. rewrite app_nil_r. split; [|cbn; lia].
    now apply map_id_replaceRow.
  - eexists [_]. rewrite map_app. split; [reflexivity|cbn; lia].
Qed.

Lemma initiateKyc_saves svc now dto w :
  (exists e, initiateKyc svc now dto w = (Throw e, w))
  \/ (exists k0 k' ws,
        save now k0 w = (Normal k', ws)
        /\ initiateKyc svc now dto w =
             (Normal k',
              {| rows := rows ws;
                 lastId := lastId ws;
                 emitted := emitted ws ++
                   [kyc_initiated (id k') (userId k') (verificationId k')] |})).
Proof.
  unfold initiateKyc. rewrite bind_findOne.
  destruct (find (whereUserStatus _ IN_PROGRESS) (rows w)) as [r|];
    [left; eexists; reflexivity|].
  rewrite bool_decide_eq_false_2 by (intros [? [=]]).
  rewrite bind_findOne.
  destruct (match find (whereUserStatus _ APPROVED) (rows w) with
            | Some v => negb (isKycExpired now v)
            | None => false
            end); [left; eexists; reflexivity|].
  destruct (createVerification svc _) as [resp|e] eqn:Hresp.
  - right. rewrite bind_await_Normal. unfold bind at 1.
    match goal with |- context [save now ?k w] =>
      destruct (save_Normal now k w) as (k' & w' & Hs & He); rewrite Hs;
      exists k, k', w'
    end.
    split; [exact Hs | reflexivity].
  - left. eexists. apply bind_await_Throw.
Qed.

Lemma webhookAssign_userId now st data k :
  userId (webhookAssign now st data k) = userId k.
Proof.
  unfold webhookAssign.
  repeat match goal with
         | |- context [if ?b then _ else _] => destruct b
         | |- context [match ?o with Some _ => _ | None => _ end] => destruct o
         end; reflexivity.
Qed.

(** X1. A writing call that throws leaves the world as it was: the table,
    the key generator and the event log are unchanged. *)
Theorem failed_call_changes_nothing c w e :
  thrown c w = Some e -> run c w = w.
Proof.
  destruct c as [svc now dto | now i dto | now vid st data | now i dto | svc now i];
    cbn [thrown run].
  - destruct (initiateKyc_ends svc now dto w) as [[e' ->] | (k' & w' & -> & _)];
      [reflexivity | discriminate].
  - destruct (updateKyc_ends now i dto w) as [[e' ->] | (k & _ & _ & ->)];
      [reflexivity | discriminate].
  - destruct (handleWebhook_ends now vid st data w) as [[_ ->] | (k & _ & ->)];
      [reflexivity | discriminate].
  - destruct (manualReview_ends now i dto w) as [[e' ->] | (k & _ & _ & ->)];
      [reflexivity | discriminate].
  - destruct (retryKyc_ends svc now i w) as [[e' ->] | (k & resp & _ & ->)];
      [reflexivity | discriminate].
Qed.

Lemma failed_call_changes_nothing_witness :
  thrown (CallRetry (Scenario.provider "v2" None) 30 1) Scenario.w1
    = Some (BadRequestException "Can only retry rejected or expired KYC")
  /\ run (CallRetry (Scenario.provider "v2" None) 30 1) Scenario.w1
     = Scenario.w1.
Proof.
  assert (H : thrown (CallRetry (Scenario.provider "v2" None) 30 1) Scenario.w1
              = Some (BadRequestException "Can only retry rejected or expired KYC"))
    by (vm_compute; reflexivity).
  split; [exact H|].
  exact (failed_call_changes_nothing _ _ _ H).
Defined.

(** X2. The event log only grows, and by what each call emits: nothing
    when the call throws, nothing for updateKyc and retryKyc, one
    [kyc.initiated] for a successful initiateKyc, one
    [kyc.manually.reviewed] for a successful manualReview, and for a
    successful handleWebhook one [kyc.status.changed] that carries the
    stored status before the call and the reported status, followed by at
    most one more event. *)
Theorem events_per_call c w :
  exists evs,
    emitted (run c w) = (emitted w ++ evs)%list
    /\ (thrown c w <> None -> evs = [])
    /\ match c with
       | CallInitiate _ _ _ =>
           thrown c w = None -> exists i u v, evs = [kyc_initiated i u v]
       | CallWebhook _ vid st _ =>
           thrown c w = None ->
           exists k more,
             getKycByVerificationId vid w = (Normal k, w)
             /\ evs = kyc_status_changed (id k) (userId k) (status k) st vid :: more
             /\ (List.length more <= 1)%nat
       | CallManualReview _ i dto =>
           thrown c w = None ->
           exists u,
             evs = [kyc_manually_reviewed i u (ManualReviewDto.status dto)
                      (ManualReviewDto.reviewedBy dto)]
       | CallUpdate _ _ _ | CallRetry _ _ _ => evs = []
       end.
Proof.
  destruct c as [svc now dto | now i dto | now vid st data | now i dto | svc now i];
    cbn [thrown run].
  - destruct (initiateKyc_saves svc now dto w)
      as [[e' ->] | (k0 & k' & ws & Hs & ->)].
    + exists []. rewrite app_nil_r. split_all; [reflexivity | reflexivity |].
      intros [=].
    + destruct (save_Normal now k0 w) as (k1 & w1 & Hs1 & He).
      rewrite Hs in Hs1. injection Hs1 as <- <-.
      eexists [_]. cbn [snd emitted fst failureOf]. rewrite He.
      split_all; [reflexivity | congruence | eauto].
  - destruct (updateKyc_ends now i dto w) as [[e' ->] | (k & _ & _ & ->)];
      exists []; rewrite app_nil_r; split_all; reflexivity.
  - destruct (handleWebhook_ends now vid st data w) as [[_ ->] | (k & Hfind & ->)].
    + exists []. rewrite app_nil_r. split_all; [reflexivity | reflexivity |].
      intros [=].
    + eexists. cbn [snd emitted fst failureOf].
      split_all; [reflexivity | congruence |]. intros _.
      exists k. eexists. split_all.
      * apply getKycByVerificationId_Normal. now split.
      * unfold webhookEvents. cbn [id userId set_updatedAt].
        rewrite webhookAssign_id, webhookAssign_userId. reflexivity.
      * destruct (bool_decide (st = APPROVED)); [cbn; lia|].
        destruct (bool_decide (st = REJECTED)); cbn; lia.
  - destruct (manualReview_ends now i dto w) as [[e' ->] | (k & Hfind & _ & ->)].
    + exists []. rewrite app_nil_r. split_all; [reflexivity | reflexivity |].
      intros [=].
    + eexists [_]. cbn [snd emitted fst failureOf].
      split_all; [reflexivity | congruence |]. intros _.
      exists (userId k). apply find_whereId in Hfind. now subst i.
  - destruct (retryKyc_ends svc now i w) as [[e' ->] | (k & resp & _ & ->)];
      exists []; rewrite app_nil_r; split_all; reflexivity.
Qed.

(** ** What no call does *)

Lemma Object_assign_sameSubject k dto : sameSubject k (Object_assign k dto).
Proof.
  destruct dto as [a c s p dt dn m]. unfold Object_assign, assignOpt, sameSubject.
  cbn [UpdateKycDto.address UpdateKycDto.city UpdateKycDto.state
       UpdateKycDto.postalCode UpdateKycDto.documentType
       UpdateKycDto.documentNumber UpdateKycDto.metadata].
  destruct a, c, s, p, dt, dn, m; split_all; reflexivity.
Qed.

Lemma webhookAssign_sameSubject now st data k :
  sameSubject k (webhookAssign now st data k).
Proof.
  destruct data as [reason ra md req].
  unfold webhookAssign, needsManualReview, sameSubject.
  cbn [WebhookData.rejectionReason WebhookData.riskAssessment
       WebhookData.metadata WebhookData.requiresReview].
  destruct (truthy reason), ra as [[[] ? ?]|], md, req, st;
    split_all; reflexivity.
Qed.

Lemma Written_sameSubject k k' : Written k k' -> sameSubject k k'.
Proof.
  intros [now dto _ | now st data | now dto _ | now resp _ _].
  - exact (Object_assign_sameSubject k dto).
  - exact (webhookAssign_sameSubject now st data k).
  - unfold sameSubject. split_all; reflexivity.
  - unfold sameSubject. split_all; reflexivity.
Qed.

(** X3. No call deletes or reorders a case: after any call the primary keys
    of the table are the keys before it, in the same order, followed by at
    most one new key, and only initiateKyc adds one. *)
Theorem cases_are_never_deleted c w :
  exists extra,
    map id (rows (run c w)) = (map id (rows w) ++ extra)%list
    /\ (List.length extra <= 1)%nat
    /\ (isInitiate c = false -> extra = []).
Proof.
  assert (Hsame : forall k k' : KycVerification,
             id k' = id k ->
             exists extra,
               map id (replaceRow k k' (rows w)) = (map id (rows w) ++ extra)%list
               /\ (List.length extra <= 1)%nat
               /\ (isInitiate c = false -> extra = [])).
  { intros k k' Hid. exists []. rewrite app_nil_r.
    split_all; [now apply map_id_replaceRow | cbn; lia | reflexivity]. }
  assert (Hnone : exists extra,
             map id (rows w) = (map id (rows w) ++ extra)%list
             /\ (List.length extra <= 1)%nat
             /\ (isInitiate c = false -> extra = [])).
  { exists []. rewrite app_nil_r. split_all; [reflexivity | cbn; lia | reflexivity]. }
  destruct c as [svc now dto | now i dto | now vid st data | now i dto | svc now i];
    cbn [run].
  - destruct (initiateKyc_saves svc now dto w)
      as [[e' ->] | (k0 & k' & ws & Hs & ->)]; [exact Hnone|].
    destruct (save_ids now k0 w) as (k1 & w1 & Hs1 & _ & extra & Hids & Hlen).
    rewrite Hs in Hs1. injection Hs1 as <- <-.
    exists extra. cbn [snd rows]. split_all; [exact Hids | exact Hlen |].
    intros [=].
  - destruct (updateKyc_ends now i dto w) as [[e' ->] | (k & _ & _ & ->)];
      [exact Hnone|].
    apply Hsame. apply Object_assign_sameSubject.
  - destruct (handleWebhook_ends now vid st data w) as [[_ ->] | (k & _ & ->)];
      [exact Hnone|].
    apply Hsame. apply webhookAssign_id.
  - destruct (manualReview_ends now i dto w) as [[e' ->] | (k & _ & _ & ->)];
      [exact Hnone|].
    apply Hsame. reflexivity.
  - destruct (retryKyc_ends svc now i w) as [[e' ->] | (k & resp & _ & ->)];
      [exact Hnone|].
    apply Hsame. reflexivity.
Qed.

(** X4. On a table with well-formed keys, a call never changes the
    identity or subject columns of a stored case: every row after the call
    either has a key that was not in the table (the case initiateKyc just
    created) or has the [id], [userId], [level], [provider], [createdAt],
    names, email, phone number, date of birth and country of the row that
    had its key before. *)
Theorem subject_columns_are_immutable c w r' :
  keysOk w ->
  In r' (rows (run c w)) ->
  (exists r, In r (rows w) /\ sameSubject r r')
  \/ (forall r, In r (rows w) -> id r <> id r').
Proof.
  intros Hkeys Hin.
  assert (Hrefl : forall r, sameSubject r r)
    by (intros r; unfold sameSubject; split_all; reflexivity).
  destruct (run_effect c w Hkeys)
    as [Hrows _ | k k' Hk Hid Hw _ Hrows _ | k' Hc Hid Hrows _];
    rewrite Hrows in Hin.
  - left. exists r'. auto.
  - apply In_replaceRow in Hin as [-> | Hin].
    + left. exists k. split; [assumption|]. now apply Written_sameSubject.
    + left. exists r'. auto.
  - apply in_app_or in Hin as [Hin | [<- | []]].
    + left. exists r'. auto.
    + right. intros r Hr. destruct Hkeys as [_ Hall].
      rewrite List.Forall_forall in Hall. specialize (Hall r Hr). lia.
Qed.

Lemma subject_columns_are_immutable_witness :
  keysOk Scenario.w1
  /\ In Scenario.caseApproved
       (rows (run (CallWebhook 20 "v1" APPROVED Scenario.plain) Scenario.w1))
  /\ ((exists r, In r (rows Scenario.w1) /\ sameSubject r Scenario.caseApproved)
      \/ (forall r, In r (rows Scenario.w1) -> id r <> id Scenario.caseApproved)).
Proof.
  assert (Hkeys : keysOk Scenario.w1)
    by apply reachable_keysOk, Scenario_w1_reachable.
  assert (Hin : In Scenario.caseApproved
                  (rows (run (CallWebhook 20 "v1" APPROVED Scenario.plain)
                           Scenario.w1)))
    by (vm_compute; left; reflexivity).
  split; [exact Hkeys|]. split; [exact Hin|].
  exact (subject_columns_are_immutable _ _ _ Hkeys Hin).
Defined.

(** ** Initiation: guards, success, provider failure *)

Lemma find_None (p : KycVerification -> bool) l :
  (forall r, In r l -> p r = false) -> find p l = None.
Proof.
  induction l as [|x l IH]; intros H; [reflexivity|].
  cbn [find]. rewrite (H x) by now left.
  apply IH. intros r Hr. apply H. now right.
Qed.

Lemma mayInitiate_guards now u w :
  mayInitiate now u w ->
  find (whereUserStatus u IN_PROGRESS) (rows w) = None
  /\ match find (whereUserStatus u APPROVED) (rows w) with
     | Some v => negb (isKycExpired now v)
     | None => false
     end = false.
Proof.
  intros [Hprog Happ]. split.
  - apply find_None. intros r Hr. unfold whereUserStatus.
    destruct (bool_decide (userId r = u)) eqn:Hu; [|reflexivity].
    apply bool_decide_eq_true in Hu.
    rewrite bool_decide_eq_false_2; [reflexivity|]. now apply Hprog.
  - destruct (find _ _) as [v|] eqn:Hfind; [|reflexivity].
    apply find_some in Hfind as [Hin Hp]. unfold whereUserStatus in Hp.
    apply andb_true_iff in Hp as [Hu Hs].
    apply bool_decide_eq_true in Hu, Hs.
    now rewrite (Happ v Hin Hu Hs).
Qed.

Lemma initiateKyc_proceeds svc now dto w :
  mayInitiate now (InitiateKycDto.userId dto) w ->
  initiateKyc svc now dto w =
  match createVerification svc (initiateRequest dto) with
  | Throw e => (Throw e, w)
  | Normal resp =>
      let kyc :=
        create (InitiateKycDto.userId dto)
          (KycProviderResponse.verificationId resp)
          (KycProviderResponse.verificationUrl resp)
          PENDING (default BASIC (InitiateKycDto.level dto))
          (InitiateKycDto.firstName dto) (InitiateKycDto.lastName dto)
          (InitiateKycDto.email dto) (InitiateKycDto.phoneNumber dto)
          (InitiateKycDto.dateOfBirth dto) (InitiateKycDto.country dto)
          (getProviderName svc) (Some now)
          (KycProviderResponse.expiresAt resp)
          (InitiateKycDto.metadata dto) 1%Z in
      (let* savedKyc := save now kyc in
       emit (kyc_initiated (id savedKyc) (userId savedKyc)
               (verificationId savedKyc));;
       ret savedKyc) w
  end.
Proof.
  intros Hmay. destruct (mayInitiate_guards _ _ _ Hmay) as [H1 H2].
  unfold initiateKyc. rewrite bind_findOne, H1.
  rewrite bool_decide_eq_false_2 by (intros [? [=]]).
  rewrite bind_findOne, H2.
  change (createVerification svc _) with (createVerification svc (initiateRequest dto)).
  destruct (createVerification svc (initiateRequest dto)) as [resp|e].
  - now rewrite bind_await_Normal.
  - apply bind_await_Throw.
Qed.

(** X5. initiateKyc for a user with no case in progress and no approved
    case that is still valid, on a table with well-formed keys, with a
    provider that opens a session: the call returns and appends exactly
    one row, under a fresh key, with status PENDING, [attemptCount = 1],
    [submittedAt = now], the requested level (BASIC when none is given),
    the provider's verification id, URL and expiry, no completion, no
    review flag; it emits exactly one [kyc.initiated] for that row. *)
Theorem initiateKyc_creates_pending_case svc now dto w resp :
  keysOk w ->
  mayInitiate now (InitiateKycDto.userId dto) w ->
  createVerification svc (initiateRequest dto) = Normal resp ->
  exists k' w',
    initiateKyc svc now dto w = (Normal k', w')
    /\ rows w' = (rows w ++ [k'])%list
    /\ (forall r, In r (rows w) -> id r <> id k')
    /\ emitted w' =
         (emitted w ++
            [kyc_initiated (id k') (InitiateKycDto.userId dto)
               (KycProviderResponse.verificationId resp)])%list
    /\ userId k' = InitiateKycDto.userId dto
    /\ status k' = PENDING
    /\ attemptCount k' = 1%Z
    /\ level k' = default BASIC (InitiateKycDto.level dto)
    /\ submittedAt k' = Some now
    /\ completedAt k' = None
    /\ isManualReview k' = false
    /\ verificationId k' = KycProviderResponse.verificationId resp
    /\ verificationUrl k' = KycProviderResponse.verificationUrl resp
    /\ expiresAt k' = KycProviderResponse.expiresAt resp
    /\ metadata k' = InitiateKycDto.metadata dto.
Proof.
  intros Hkeys Hmay Hresp.
  rewrite (initiateKyc_proceeds svc now dto w Hmay), Hresp.
  cbv zeta. unfold bind at 1, save.
  rewrite (keysOk_no_zero w _ Hkeys) by reflexivity.
  eexists _, _. split; [reflexivity|].
  split_all; try reflexivity.
  intros r Hr. destruct Hkeys as [_ Hall].
  rewrite List.Forall_forall in Hall. specialize (Hall r Hr).
  cbn [id set_id]. lia.
Qed.

(** X6. When the provider call fails, initiateKyc (for a user the guards
    let through) and retryKyc (for a case that may be retried and whose
    request can be built, which is a case without date of birth) throw the
    provider's exception as it is and leave the world unchanged: no case
    is stored or altered and nothing is emitted.  For a retryable case
    with a date of birth retryKyc does not reach the provider: it throws
    the [TypeError] of building the request, and changes nothing either. *)
Theorem provider_failure_propagates svc now w e :
  (forall dto,
     mayInitiate now (InitiateKycDto.userId dto) w ->
     createVerification svc (initiateRequest dto) = Throw e ->
     initiateKyc svc now dto w = (Throw e, w))
  /\ (forall i k request,
        getKycById i w = (Normal k, w) ->
        status k = REJECTED \/ status k = EXPIRED ->
        (attemptCount k < 3)%Z ->
        retryRequest k = Normal request ->
        createVerification svc request = Throw e ->
        retryKyc svc now i w = (Throw e, w))
  /\ (forall i k born,
        getKycById i w = (Normal k, w) ->
        status k = REJECTED \/ status k = EXPIRED ->
        (attemptCount k < 3)%Z ->
        dateOfBirth k = Some born ->
        exists message, retryKyc svc now i w = (Throw (TypeError message), w)).
Proof.
  split; [|split].
  - intros dto Hmay Hresp.
    now rewrite (initiateKyc_proceeds svc now dto w Hmay), Hresp.
  - intros i k request Hget Hst Hc Hreq Hresp.
    apply getKycById_Normal in Hget as [Hfind _].
    now apply (retryKyc_provider_failure _ _ _ _ k request).
  - intros i k born Hget Hst Hc Hborn.
    apply getKycById_Normal in Hget as [Hfind _].
    eexists. apply (retryKyc_request_failure _ _ _ _ k _ Hfind Hst Hc).
    unfold retryRequest. rewrite Hborn. reflexivity.
Qed.

(** X7. The two guards of initiateKyc.  A user with a case IN_PROGRESS is
    refused with the conflict "User already has a KYC verification in
    progress".  A user with no case in progress and at least one APPROVED
    case, all of them still valid at [now], is refused with the conflict
    "User is already verified".  Either way the provider is not called
    and the world is unchanged. *)
Theorem initiateKyc_conflicts svc now dto w :
  ((exists r, In r (rows w) /\ userId r = InitiateKycDto.userId dto
              /\ status r = IN_PROGRESS) ->
   initiateKyc svc now dto w =
     (Throw (ConflictException "User already has a KYC verification in progress"), w))
  /\ ((forall r, In r (rows w) -> userId r = InitiateKycDto.userId dto ->
                 status r <> IN_PROGRESS) ->
      (exists r, In r (rows w) /\ userId r = InitiateKycDto.userId dto
                 /\ status r = APPROVED) ->
      (forall r, In r (rows w) -> userId r = InitiateKycDto.userId dto ->
                 status r = APPROVED -> isKycExpired now r = false) ->
      initiateKyc svc now dto w =
        (Throw (ConflictException "User is already verified"), w)).
Proof.
  split.
  - intros (r & Hin & Hu & Hs).
    now apply (initiateKyc_conflict_in_progress _ _ _ _ r).
  - intros Hprog (r & Hin & Hu & Hs) Hvalid.
    assert (H1 : find (whereUserStatus (InitiateKycDto.userId dto) IN_PROGRESS)
                   (rows w) = None).
    { apply find_None. intros x Hx. unfold whereUserStatus.
      destruct (bool_decide (userId x = InitiateKycDto.userId dto)) eqn:E;
        [|reflexivity].
      apply bool_decide_eq_true in E.
      rewrite bool_decide_eq_false_2; [reflexivity|]. now apply Hprog. }
    destruct (find (whereUserStatus (InitiateKycDto.userId dto) APPROVED) (rows w))
      as [v|] eqn:H2.
    + apply (initiateKyc_conflict_verified _ _ _ _ v H1 H2).
      apply find_some in H2 as [Hv Hp]. unfold whereUserStatus in Hp.
      apply andb_true_iff in Hp as [Hvu Hvs].
      apply bool_decide_eq_true in Hvu, Hvs. now apply Hvalid.
    + exfalso. apply (find_none _ _ H2) in Hin. unfold whereUserStatus in Hin.
      rewrite !bool_decide_eq_true_2 in Hin by assumption. discriminate.
Qed.

Lemma Cases_wInProgress_reachable : reachable Cases.wInProgress.
Proof.
  reach_by (CallWebhook 20 "v1" IN_PROGRESS Scenario.plain) Scenario_w1_reachable.
Qed.

Lemma Scenario_wExpiring_rows : rows Scenario.wExpiring = [Scenario.caseExpired].
Proof. vm_compute. reflexivity. Qed.

Lemma Scenario_wApproved_rows : rows Scenario.wApproved = [Scenario.caseApproved].
Proof. vm_compute. reflexivity. Qed.

Lemma mayInitiate_wExpiring : mayInitiate 100 "U1" Scenario.wExpiring.
Proof.
  split; intros r Hr; rewrite Scenario_wExpiring_rows in Hr;
    destruct Hr as [<- | []]; intros _.
  - vm_compute. discriminate.
  - intros _. vm_compute. reflexivity.
Qed.

Lemma initiateKyc_creates_pending_case_witness :
  keysOk Scenario.wExpiring
  /\ mayInitiate 100 (InitiateKycDto.userId Scenario.dtoU1) Scenario.wExpiring
  /\ createVerification (Scenario.provider "v2" None)
       (initiateRequest Scenario.dtoU1) = Normal Cases.responseV2
  /\ exists k' w',
       initiateKyc (Scenario.provider "v2" None) 100 Scenario.dtoU1
         Scenario.wExpiring = (Normal k', w')
       /\ status k' = PENDING
       /\ attemptCount k' = 1%Z.
Proof.
  assert (Hkeys : keysOk Scenario.wExpiring)
    by apply reachable_keysOk, Scenario_wExpiring_reachable.
  assert (Hresp : createVerification (Scenario.provider "v2" None)
                    (initiateRequest Scenario.dtoU1) = Normal Cases.responseV2)
    by (vm_compute; reflexivity).
  split; [exact Hkeys|]. split; [exact mayInitiate_wExpiring|].
  split; [exact Hresp|].
  destruct (initiateKyc_creates_pending_case (Scenario.provider "v2" None) 100
              Scenario.dtoU1 Scenario.wExpiring Cases.responseV2
              Hkeys mayInitiate_wExpiring Hresp)
    as (k' & w' & Hrun & _ & _ & _ & _ & Hst & Hc & _).
  exists k', w'. split; [exact Hrun|]. split; [exact Hst | exact Hc].
Defined.

Lemma provider_failure_propagates_witness :
  (mayInitiate 100 (InitiateKycDto.userId Scenario.dtoU1) Scenario.wExpiring
   /\ initiateKyc (providerOver Cases.unreachable "onfido") 100 Scenario.dtoU1
        Scenario.wExpiring
      = (Throw (HttpException "KYC provider service unavailable" 503),
         Scenario.wExpiring))
  /\ (getKycById 1 Scenario.wRejected
        = (Normal Scenario.caseRejected, Scenario.wRejected)
      /\ retryRequest Scenario.caseRejected = Normal Cases.requestU1
      /\ retryKyc (providerOver Cases.unreachable "onfido") 30 1 Scenario.wRejected
         = (Throw (HttpException "KYC provider service unavailable" 503),
            Scenario.wRejected))
  /\ (getKycById 1 Scenario.wBornRejected
        = (Normal Scenario.caseBornRejected, Scenario.wBornRejected)
      /\ dateOfBirth Scenario.caseBornRejected = Some 631152000000%Z
      /\ exists message,
           retryKyc (providerOver Cases.unreachable "onfido") 30 1
             Scenario.wBornRejected
           = (Throw (TypeError message), Scenario.wBornRejected)).
Proof.
  split; [|split].
  - split; [exact mayInitiate_wExpiring|].
    apply (proj1 (provider_failure_propagates
                    (providerOver Cases.unreachable "onfido") 100
                    Scenario.wExpiring
                    (HttpException "KYC provider service unavailable" 503))
             Scenario.dtoU1 mayInitiate_wExpiring).
    reflexivity.
  - assert (Hget : getKycById 1 Scenario.wRejected
                   = (Normal Scenario.caseRejected, Scenario.wRejected))
      by (vm_compute; reflexivity).
    assert (Hreq : retryRequest Scenario.caseRejected = Normal Cases.requestU1)
      by (vm_compute; reflexivity).
    split; [exact Hget|]. split; [exact Hreq|].
    apply (proj1 (proj2 (provider_failure_propagates
                           (providerOver Cases.unreachable "onfido") 30
                           Scenario.wRejected
                           (HttpException "KYC provider service unavailable" 503)))
             1%nat Scenario.caseRejected Cases.requestU1 Hget).
    + left. vm_compute. reflexivity.
    + vm_compute. reflexivity.
    + exact Hreq.
    + reflexivity.
  - assert (Hget : getKycById 1 Scenario.wBornRejected
                   = (Normal Scenario.caseBornRejected, Scenario.wBornRejected))
      by (vm_compute; reflexivity).
    assert (Hborn : dateOfBirth Scenario.caseBornRejected
                    = Some 631152000000%Z)
      by (vm_compute; reflexivity).
    split; [exact Hget|]. split; [exact Hborn|].
    apply (proj2 (proj2 (provider_failure_propagates
                           (providerOver Cases.unreachable "onfido") 30
                           Scenario.wBornRejected
                           (HttpException "KYC provider service unavailable" 503)))
             1%nat Scenario.caseBornRejected 631152000000%Z Hget).
    + left. vm_compute. reflexivity.
    + vm_compute. reflexivity.
    + exact Hborn.
Defined.

Lemma initiateKyc_conflicts_witness :
  ((exists r, In r (rows Cases.wInProgress)
              /\ userId r = InitiateKycDto.userId Scenario.dtoU1
              /\ status r = IN_PROGRESS)
   /\ initiateKyc (Scenario.provider "v2" None) 30 Scenario.dtoU1 Cases.wInProgress
      = (Throw (ConflictException "User already has a KYC verification in progress"),
         Cases.wInProgress))
  /\ initiateKyc (Scenario.provider "v2" None) 30 Scenario.dtoU1 Scenario.wApproved
     = (Throw (ConflictException "User is already verified"), Scenario.wApproved).
Proof.
  assert (Hex : exists r, In r (rows Cases.wInProgress)
                          /\ userId r = InitiateKycDto.userId Scenario.dtoU1
                          /\ status r = IN_PROGRESS).
  { exists (set_updatedAt 20 (set_status IN_PROGRESS Scenario.case1)).
    split; [vm_compute; left; reflexivity|].
    split; vm_compute; reflexivity. }
  split; [split; [exact Hex|]|].
  - exact (proj1 (initiateKyc_conflicts (Scenario.provider "v2" None) 30
                    Scenario.dtoU1 Cases.wInProgress) Hex).
  - apply (proj2 (initiateKyc_conflicts (Scenario.provider "v2" None) 30
                    Scenario.dtoU1 Scenario.wApproved)).
    + intros r Hr. rewrite Scenario_wApproved_rows in Hr.
      destruct Hr as [<- | []]. intros _. vm_compute. discriminate.
    + exists Scenario.caseApproved.
      split; [vm_compute; left; reflexivity|]. split; vm_compute; reflexivity.
    + intros r Hr. rewrite Scenario_wApproved_rows in Hr.
      destruct Hr as [<- | []]. intros _ _. vm_compute. reflexivity.
Defined.

(** X8. What the caller of initiateKyc sees of an HTTP failure: when the
    request to the provider gets no response, the call throws the
    HttpException "KYC provider service unavailable" with status 503; when
    the provider answers with an error, it throws "Failed to initiate KYC
    verification" with exactly the provider's status when that status is
    present and not 0, and with 502 when it is missing or 0.  Nothing is
    stored. *)
Theorem initiateKyc_http_failure http name now dto w :
  mayInitiate now (InitiateKycDto.userId dto) w ->
  (http (initiateRequest dto) = NoResponse ->
   initiateKyc (providerOver http name) now dto w =
     (Throw (HttpException "KYC provider service unavailable" 503), w))
  /\ (forall s,
        http (initiateRequest dto) = ErrorResponse s ->
        exists code,
          initiateKyc (providerOver http name) now dto w =
            (Throw (HttpException "Failed to initiate KYC verification" code), w)
          /\ (forall c, s = Some c -> c <> 0%Z -> code = c)
          /\ (s = None \/ s = Some 0%Z -> code = 502%Z)).
Proof.
  intros Hmay. split.
  - intros Hhttp. rewrite (initiateKyc_proceeds _ now dto w Hmay).
    cbn [createVerification providerOver]. now rewrite Hhttp.
  - intros s Hhttp. exists (statusOr s BAD_GATEWAY).
    split; [|split].
    + rewrite (initiateKyc_proceeds _ now dto w Hmay).
      cbn [createVerification providerOver]. now rewrite Hhttp.
    + intros c -> Hc. unfold statusOr.
      now rewrite (proj2 (Z.eqb_neq c 0) Hc).
    + intros [-> | ->]; reflexivity.
Qed.

Lemma initiateKyc_http_failure_witness :
  mayInitiate 100 (InitiateKycDto.userId Scenario.dtoU1) Scenario.wExpiring
  /\ (Cases.unprocessable (initiateRequest Scenario.dtoU1)
        = ErrorResponse (Some 422%Z)
      /\ initiateKyc (providerOver Cases.unprocessable "onfido") 100
           Scenario.dtoU1 Scenario.wExpiring =
           (Throw (HttpException "Failed to initiate KYC verification" 422),
            Scenario.wExpiring)).
Proof.
  split; [exact mayInitiate_wExpiring|]. split; [reflexivity|].
  destruct (proj2 (initiateKyc_http_failure Cases.unprocessable "onfido" 100
                     Scenario.dtoU1 Scenario.wExpiring mayInitiate_wExpiring)
              (Some 422%Z) eq_refl) as (code & Hrun & Hcode & _).
  rewrite Hrun. rewrite (Hcode 422%Z eq_refl); [reflexivity | discriminate].
Defined.

(** ** handleWebhook: what it merges and what it leaves alone *)

Lemma webhookAssign_metadata now st data k :
  metadata (webhookAssign now st data k) =
  match WebhookData.metadata data with
  | Some m => Some (spread (metadata k) m)
  | None => metadata k
  end.
Proof.
  destruct data as [reason ra md req].
  unfold webhookAssign, needsManualReview.
  cbn [WebhookData.rejectionReason WebhookData.riskAssessment
       WebhookData.metadata WebhookData.requiresReview].
  destruct (truthy reason), ra as [[[] ? ?]|], md, req, st; reflexivity.
Qed.

Lemma spread_lookup (old : option Metadata) (m : Metadata) (key : string) :
  spread old m !! key =
  match m !! key with
  | Some v => Some v
  | None => default ∅ old !! key
  end.
Proof.
  unfold spread. rewrite lookup_union.
  destruct (m !! key), (default ∅ old !! key); reflexivity.
Qed.

(** X9. handleWebhook merges the payload's metadata into the stored one
    key by key: after the call a key holds the payload's value if the
    payload has the key, and its stored value otherwise, so no stored key
    is lost.  A payload without metadata leaves the stored metadata as it
    is. *)
Theorem handleWebhook_merges_metadata now vid st data w k :
  getKycByVerificationId vid w = (Normal k, w) ->
  exists k' w',
    handleWebhook now vid st data w = (Normal k', w')
    /\ match WebhookData.metadata data with
       | None => metadata k' = metadata k
       | Some m =>
           exists merged : Metadata,
             metadata k' = Some merged
             /\ forall key : string,
                  merged !! key =
                  match m !! key with
                  | Some v => Some v
                  | None => default ∅ (metadata k) !! key
                  end
       end.
Proof.
  intros Hget. apply getKycByVerificationId_Normal in Hget as [Hfind _].
  eexists _, _. split; [apply (handleWebhook_found _ _ _ _ _ _ Hfind)|].
  cbn [metadata set_updatedAt]. rewrite webhookAssign_metadata.
  destruct (WebhookData.metadata data) as [m|]; [|reflexivity].
  exists (spread (metadata k) m). split; [reflexivity|].
  intros key. apply spread_lookup.
Qed.

Lemma handleWebhook_merges_metadata_witness :
  getKycByVerificationId "v1" Scenario.wMeta = (Normal Cases.caseMeta, Scenario.wMeta)
  /\ exists k' w',
       handleWebhook 20 "v1" IN_PROGRESS Scenario.webhookTier Scenario.wMeta
         = (Normal k', w')
       /\ match WebhookData.metadata Scenario.webhookTier with
          | None => metadata k' = metadata Cases.caseMeta
          | Some m =>
              exists merged : Metadata,
                metadata k' = Some merged
                /\ forall key : string,
                     merged !! key =
                     match m !! key with
                     | Some v => Some v
                     | None => default ∅ (metadata Cases.caseMeta) !! key
                     end
          end.
Proof.
  assert (Hget : getKycByVerificationId "v1" Scenario.wMeta
                 = (Normal Cases.caseMeta, Scenario.wMeta))
    by (vm_compute; reflexivity).
  split; [exact Hget|].
  exact (handleWebhook_merges_metadata 20 "v1" IN_PROGRESS Scenario.webhookTier
           Scenario.wMeta Cases.caseMeta Hget).
Defined.

Lemma webhookAssign_leaves now st data k :
  isManualReview (webhookAssign now st data k)
    = isManualReview k || needsManualReview data
  /\ rejectionReason (webhookAssign now st data k)
     = (if truthy (WebhookData.rejectionReason data)
        then WebhookData.rejectionReason data else rejectionReason k)
  /\ riskAssessment (webhookAssign now st data k)
     = match WebhookData.riskAssessment data with
       | Some ra => Some ra
       | None => riskAssessment k
       end
  /\ reviewedBy (webhookAssign now st data k) = reviewedBy k
  /\ reviewNotes (webhookAssign now st data k) = reviewNotes k
  /\ submittedAt (webhookAssign now st data k) = submittedAt k
  /\ expiresAt (webhookAssign now st data k) = expiresAt k
  /\ verificationUrl (webhookAssign now st data k) = verificationUrl k.
Proof.
  destruct data as [reason ra md req].
  unfold webhookAssign, needsManualReview.
  cbn [WebhookData.rejectionReason WebhookData.riskAssessment
       WebhookData.metadata WebhookData.requiresReview].
  destruct (truthy reason), ra as [[[] ? ?]|], md, req, st; split_all;
    simpl; rewrite ?orb_true_r, ?orb_false_r; reflexivity.
Qed.

(** X10. handleWebhook overwrites [rejectionReason] and [riskAssessment]
    only when the payload carries them (a reason that is present and not
    empty): otherwise the stored values stay, whatever status is reported.
    It sets the review flag when the payload calls for review (a high risk
    level or [requiresReview]) and never clears it: the flag afterwards
    is the flag before or the payload's call for review.  It never
    touches [reviewedBy], [reviewNotes], [submittedAt], [expiresAt],
    [verificationUrl], [verificationId] or [attemptCount]. *)
Theorem handleWebhook_optional_fields now vid st data w k :
  getKycByVerificationId vid w = (Normal k, w) ->
  exists k' w',
    handleWebhook now vid st data w = (Normal k', w')
    /\ getKycByVerificationId vid w' = (Normal k', w')
    /\ rejectionReason k'
       = (if truthy (WebhookData.rejectionReason data)
          then WebhookData.rejectionReason data else rejectionReason k)
    /\ riskAssessment k'
       = match WebhookData.riskAssessment data with
         | Some ra => Some ra
         | None => riskAssessment k
         end
    /\ isManualReview k' = isManualReview k || needsManualReview data
    /\ (isManualReview k = true -> isManualReview k' = true)
    /\ (needsManualReview data = true -> isManualReview k' = true)
    /\ reviewedBy k' = reviewedBy k
    /\ reviewNotes k' = reviewNotes k
    /\ submittedAt k' = submittedAt k
    /\ expiresAt k' = expiresAt k
    /\ verificationUrl k' = verificationUrl k
    /\ verificationId k' = verificationId k
    /\ attemptCount k' = attemptCount k.
Proof.
  intros Hget. apply getKycByVerificationId_Normal in Hget as [Hfind _].
  pose (k' := set_updatedAt now (webhookAssign now st data k)).
  exists k'. eexists.
  split; [exact (handleWebhook_found now vid st data w k Hfind)|].
  destruct (webhookAssign_leaves now st data k)
    as (H0 & H1 & H2 & H3 & H4 & H5 & H6 & H7).
  assert (Hflag : isManualReview k'
                  = isManualReview k || needsManualReview data) by exact H0.
  split.
  { apply getKycByVerificationId_Normal. split; [|reflexivity]. cbn [rows].
    apply find_replaceRow; [assumption|].
    unfold whereVerificationId. apply bool_decide_eq_true.
    change (verificationId k') with (verificationId (webhookAssign now st data k)).
    rewrite webhookAssign_verificationId.
    now apply find_whereVerificationId in Hfind. }
  split; [exact H1|]. split; [exact H2|]. split; [exact Hflag|].
  split; [intros Hk; rewrite Hflag, Hk; reflexivity|].
  split; [intros Hd; rewrite Hflag, Hd; apply orb_true_r|].
  split_all; [exact H3 | exact H4 | exact H5 | exact H6
              | exact H7 | apply webhookAssign_verificationId
              | apply webhookAssign_attemptCount].
Qed.

Lemma handleWebhook_optional_fields_witness :
  getKycByVerificationId "v1" Cases.wFlagged
    = (Normal Cases.caseFlagged, Cases.wFlagged)
  /\ isManualReview Cases.caseFlagged = true
  /\ exists k' w',
       handleWebhook 30 "v1" APPROVED Scenario.plain Cases.wFlagged
         = (Normal k', w')
       /\ getKycByVerificationId "v1" w' = (Normal k', w')
       /\ isManualReview k' = true
       /\ riskAssessment k' = riskAssessment Cases.caseFlagged
       /\ rejectionReason k' = None.
Proof.
  assert (Hget : getKycByVerificationId "v1" Cases.wFlagged
                 = (Normal Cases.caseFlagged, Cases.wFlagged))
    by (vm_compute; reflexivity).
  assert (Hflag : isManualReview Cases.caseFlagged = true)
    by (vm_compute; reflexivity).
  split; [exact Hget|]. split; [exact Hflag|].
  destruct (handleWebhook_optional_fields 30 "v1" APPROVED Scenario.plain
              Cases.wFlagged Cases.caseFlagged Hget)
    as (k' & w' & Hrun & Hstored & Hreason & Hrisk & _ & Hkeep & _).
  exists k', w'. split; [exact Hrun|]. split; [exact Hstored|].
  split; [exact (Hkeep Hflag)|]. split; [exact Hrisk|].
  rewrite Hreason. vm_compute. reflexivity.
Defined.

(** ** Manual review *)

Lemma getKycById_after_replace i l k k' :
  find (whereId i) l = Some k -> id k' = id k ->
  find (whereId i) (replaceRow k k' l) = Some k'.
Proof.
  intros Hfind Hid. apply find_replaceRow; [assumption|].
  unfold whereId. rewrite Hid. apply Nat.eqb_eq. now apply find_whereId in Hfind.
Qed.

(** X11. manualReview on a case without the review flag throws the bad
    request "This verification does not require manual review" and changes
    nothing.  On a flagged case it returns and stores the case with the
    reviewer's decision as status, [reviewedBy] and [reviewNotes] set,
    [completedAt = now] and the flag cleared, so that any further
    manualReview of the case is refused in turn. *)
Theorem manualReview_closes_once now i dto w k :
  getKycById i w = (Normal k, w) ->
  (isManualReview k = false ->
   manualReview now i dto w =
     (Throw (BadRequestException
               "This verification does not require manual review"), w))
  /\ (isManualReview k = true ->
      exists k' w',
        manualReview now i dto w = (Normal k', w')
        /\ getKycById i w' = (Normal k', w')
        /\ status k' = ManualReviewDto.status dto
        /\ reviewedBy k' = Some (ManualReviewDto.reviewedBy dto)
        /\ reviewNotes k' = Some (ManualReviewDto.reviewNotes dto)
        /\ completedAt k' = Some now
        /\ isManualReview k' = false
        /\ forall now' dto',
             manualReview now' i dto' w' =
               (Throw (BadRequestException
                         "This verification does not require manual review"), w')).
Proof.
  intros Hget. apply getKycById_Normal in Hget as [Hfind _]. split.
  - intros Hflag. unfold manualReview, bind.
    rewrite (proj2 (getKycById_Normal i w k w) (conj Hfind eq_refl)).
    now rewrite Hflag.
  - intros Hflag. eexists _, _.
    split; [apply (manualReview_found now i dto w k Hfind Hflag)|].
    assert (Hfind' : find (whereId i)
                       (replaceRow k (set_updatedAt now (reviewAssign now dto k)) (rows w))
                     = Some (set_updatedAt now (reviewAssign now dto k)))
      by (now apply getKycById_after_replace).
    split; [apply getKycById_Normal; now split|].
    split_all; try reflexivity.
    intros now' dto'. unfold manualReview, bind.
    match goal with |- context [getKycById i ?w'] =>
      rewrite (proj2 (getKycById_Normal i w' _ w') (conj Hfind' eq_refl))
    end.
    reflexivity.
Qed.

Lemma manualReview_closes_once_witness :
  (getKycById 1 Scenario.w1 = (Normal Scenario.case1, Scenario.w1)
   /\ isManualReview Scenario.case1 = false
   /\ manualReview 30 1 Cases.approveAfterReview Scenario.w1 =
        (Throw (BadRequestException
                  "This verification does not require manual review"),
         Scenario.w1))
  /\ (getKycById 1 Cases.wFlagged = (Normal Cases.caseFlagged, Cases.wFlagged)
      /\ isManualReview Cases.caseFlagged = true
      /\ exists k' w',
           manualReview 30 1 Cases.approveAfterReview Cases.wFlagged
             = (Normal k', w')
           /\ status k' = APPROVED
           /\ isManualReview k' = false
           /\ manualReview 40 1 Cases.approveAfterReview w' =
                (Throw (BadRequestException
                          "This verification does not require manual review"), w')).
Proof.
  assert (H1 : getKycById 1 Scenario.w1 = (Normal Scenario.case1, Scenario.w1))
    by (vm_compute; reflexivity).
  assert (F1 : isManualReview Scenario.case1 = false) by (vm_compute; reflexivity).
  assert (H2 : getKycById 1 Cases.wFlagged = (Normal Cases.caseFlagged, Cases.wFlagged))
    by (vm_compute; reflexivity).
  assert (F2 : isManualReview Cases.caseFlagged = true) by (vm_compute; reflexivity).
  split; (split; [|split]).
  - exact H1.
  - exact F1.
  - exact (proj1 (manualReview_closes_once 30 1 Cases.approveAfterReview
                    Scenario.w1 Scenario.case1 H1) F1).
  - exact H2.
  - exact F2.
  - destruct (proj2 (manualReview_closes_once 30 1 Cases.approveAfterReview
                       Cases.wFlagged Cases.caseFlagged H2) F2)
      as (k' & w' & Hrun & _ & Hst & _ & _ & _ & Hflag & Hagain).
    exists k', w'. split; [exact Hrun|]. split; [exact Hst|].
    split; [exact Hflag|]. exact (Hagain 40%Z Cases.approveAfterReview).
Defined.

(** X12. A case that carries the review flag keeps it through any webhook,
    whatever the provider reports and even when the new payload has no
    risk signal: the flag is only ever cleared by manualReview, which
    therefore still succeeds after the webhook. *)
Theorem review_flag_survives_webhooks now vid st data now' dto w k i :
  getKycByVerificationId vid w = (Normal k, w) ->
  getKycById i w = (Normal k, w) ->
  isManualReview k = true ->
  exists k1 w1,
    handleWebhook now vid st data w = (Normal k1, w1)
    /\ isManualReview k1 = true
    /\ status k1 = (if needsManualReview data then REQUIRES_REVIEW else st)
    /\ exists k2 w2,
         manualReview now' i dto w1 = (Normal k2, w2)
         /\ status k2 = ManualReviewDto.status dto
         /\ isManualReview k2 = false.
Proof.
  intros Hvid Hid Hflag.
  apply getKycByVerificationId_Normal in Hvid as [Hfindv _].
  apply getKycById_Normal in Hid as [Hfindi _].
  pose (k1 := set_updatedAt now (webhookAssign now st data k)).
  assert (Hflag1 : isManualReview k1 = true).
  { destruct (webhookAssign_leaves now st data k) as (H & _).
    change (isManualReview k1) with (isManualReview (webhookAssign now st data k)).
    now rewrite H, Hflag. }
  assert (Hfind1 : find (whereId i) (replaceRow k k1 (rows w)) = Some k1).
  { apply getKycById_after_replace; [assumption|]. apply webhookAssign_id. }
  exists k1. eexists.
  split; [apply (handleWebhook_found _ _ _ _ _ _ Hfindv)|].
  split; [exact Hflag1|]. split; [apply webhookAssign_status|].
  eexists _, _. split.
  - match goal with |- manualReview _ _ _ ?w1 = _ =>
      exact (manualReview_found now' i dto w1 k1 Hfind1 Hflag1)
    end.
  - split; reflexivity.
Qed.

Lemma review_flag_survives_webhooks_witness :
  getKycByVerificationId "v1" Cases.wFlagged = (Normal Cases.caseFlagged, Cases.wFlagged)
  /\ getKycById 1 Cases.wFlagged = (Normal Cases.caseFlagged, Cases.wFlagged)
  /\ isManualReview Cases.caseFlagged = true
  /\ exists k1 w1,
       handleWebhook 30 "v1" APPROVED Scenario.plain Cases.wFlagged = (Normal k1, w1)
       /\ isManualReview k1 = true
       /\ status k1 = (if needsManualReview Scenario.plain
                       then REQUIRES_REVIEW else APPROVED)
       /\ exists k2 w2,
            manualReview 40 1 Cases.approveAfterReview w1 = (Normal k2, w2)
            /\ status k2 = ManualReviewDto.status Cases.approveAfterReview
            /\ isManualReview k2 = false.
Proof.
  assert (H1 : getKycByVerificationId "v1" Cases.wFlagged
               = (Normal Cases.caseFlagged, Cases.wFlagged))
    by (vm_compute; reflexivity).
  assert (H2 : getKycById 1 Cases.wFlagged = (Normal Cases.caseFlagged, Cases.wFlagged))
    by (vm_compute; reflexivity).
  assert (F : isManualReview Cases.caseFlagged = true) by (vm_compute; reflexivity).
  split; [exact H1|]. split; [exact H2|]. split; [exact F|].
  exact (review_flag_survives_webhooks 30 "v1" APPROVED Scenario.plain 40
           Cases.approveAfterReview Cases.wFlagged Cases.caseFlagged 1 H1 H2 F).
Defined.

(** ** Retry supersedes the provider session *)

Lemma In_replaceRow_other k k' l r :
  In r (replaceRow k k' l) -> r = k' \/ (In r l /\ id r <> id k).
Proof.
  unfold replaceRow. intros H. apply in_map_iff in H as (r0 & Hr & Hin).
  unfold sameId in Hr. destruct (id r0 =? id k)%nat eqn:E.
  - now left.
  - subst r0. right. split; [assumption|]. now apply Nat.eqb_neq.
Qed.

Lemma find_replaceRow_new (p : KycVerification -> bool) l k k' :
  In k l -> (forall r, In r l -> p r = false) -> p k' = true ->
  find p (replaceRow k k' l) = Some k'.
Proof.
  intros Hin Hnone Hp. induction l as [|r l IH]; [contradiction|].
  cbn [replaceRow map find]. destruct (sameId k r) eqn:E.
  - now rewrite Hp.
  - rewrite (Hnone r) by now left.
    apply IH.
    + destruct Hin as [-> | Hin]; [|assumption].
      unfold sameId in E. now rewrite Nat.eqb_refl in E.
    + intros x Hx. apply Hnone. now right.
Qed.

(** X13. After a successful retryKyc the case answers to the new provider
    session only.  For a stored case that may be retried and whose request
    can be built (a case without date of birth), with a provider that
    opens a session: if the old verification id belonged to no other case
    and the provider's new id differs from it, a webhook that still names
    the old id is refused with NotFound and changes nothing; if the new
    id was not in the table, a lookup by it returns the row of the retried
    case, which carries the new id under the key of the case. *)
Theorem retry_supersedes_session svc now i w k request resp :
  getKycById i w = (Normal k, w) ->
  status k = REJECTED \/ status k = EXPIRED ->
  (attemptCount k < 3)%Z ->
  retryRequest k = Normal request ->
  createVerification svc request = Normal resp ->
  exists k' row w',
    retryKyc svc now i w = (Normal k', w')
    /\ id row = id k
    /\ verificationId row = KycProviderResponse.verificationId resp
    /\ k' = set_expiresAt (KycProviderResponse.expiresAt resp) row
    /\ (KycProviderResponse.verificationId resp <> verificationId k ->
        (forall r, In r (rows w) -> verificationId r = verificationId k ->
                   id r = id k) ->
        forall now' st data,
          handleWebhook now' (verificationId k) st data w' =
            (Throw (NotFoundException "KYC verification not found"), w'))
    /\ ((forall r, In r (rows w) ->
                   verificationId r <> KycProviderResponse.verificationId resp) ->
        getKycByVerificationId (KycProviderResponse.verificationId resp) w'
          = (Normal row, w')).
Proof.
  intros Hget Hst Hc Hreq Hresp. apply getKycById_Normal in Hget as [Hfind _].
  pose (row := set_updatedAt now (retryRow resp k (retryAssign now resp k))).
  exists (set_updatedAt now (retryAssign now resp k)), row. eexists.
  split; [exact (retryKyc_found svc now i w k request resp
                   Hfind Hst Hc Hreq Hresp)|].
  split; [reflexivity|]. split; [reflexivity|].
  split; [symmetry; exact (retryRow_entity now resp k)|].
  split.
  - intros Hnew Honly now' st data.
    unfold handleWebhook, bind.
    rewrite getKycByVerificationId_not_found; [reflexivity|].
    apply find_None. cbn [rows]. intros r Hr.
    unfold whereVerificationId. apply bool_decide_eq_false.
    apply In_replaceRow_other in Hr as [-> | [Hin Hid]].
    + exact Hnew.
    + intros Hv. apply Hid. now apply Honly.
  - intros Hfresh. apply getKycByVerificationId_Normal. split; [|reflexivity].
    cbn [rows]. apply find_replaceRow_new.
    + now apply find_some in Hfind.
    + intros r Hr. unfold whereVerificationId. apply bool_decide_eq_false.
      now apply Hfresh.
    + unfold whereVerificationId. now apply bool_decide_eq_true.
Qed.

Lemma Scenario_wRejected_rows : rows Scenario.wRejected = [Scenario.caseRejected].
Proof. vm_compute. reflexivity. Qed.

Lemma retry_supersedes_session_witness :
  getKycById 1 Scenario.wRejected = (Normal Scenario.caseRejected, Scenario.wRejected)
  /\ (status Scenario.caseRejected = REJECTED \/ status Scenario.caseRejected = EXPIRED)
  /\ (attemptCount Scenario.caseRejected < 3)%Z
  /\ retryRequest Scenario.caseRejected = Normal Cases.requestU1
  /\ createVerification (Scenario.provider "v2" (Some 500%Z)) Cases.requestU1
     = Normal Scenario.responseV2
  /\ exists k' row w',
       retryKyc (Scenario.provider "v2" (Some 500%Z)) 30 1 Scenario.wRejected
         = (Normal k', w')
       /\ handleWebhook 40 "v1" APPROVED Scenario.plain w' =
            (Throw (NotFoundException "KYC verification not found"), w')
       /\ getKycByVerificationId "v2" w' = (Normal row, w').
Proof.
  assert (H1 : getKycById 1 Scenario.wRejected
               = (Normal Scenario.caseRejected, Scenario.wRejected))
    by (vm_compute; reflexivity).
  assert (H2 : status Scenario.caseRejected = REJECTED
               \/ status Scenario.caseRejected = EXPIRED)
    by (left; vm_compute; reflexivity).
  assert (H3 : (attemptCount Scenario.caseRejected < 3)%Z)
    by (vm_compute; reflexivity).
  assert (H4 : retryRequest Scenario.caseRejected = Normal Cases.requestU1)
    by (vm_compute; reflexivity).
  assert (H5 : createVerification (Scenario.provider "v2" (Some 500%Z))
                 Cases.requestU1 = Normal Scenario.responseV2)
    by (vm_compute; reflexivity).
  split; [exact H1|]. split; [exact H2|]. split; [exact H3|].
  split; [exact H4|]. split; [exact H5|].
  destruct (retry_supersedes_session (Scenario.provider "v2" (Some 500%Z)) 30 1
              Scenario.wRejected Scenario.caseRejected Cases.requestU1
              Scenario.responseV2 H1 H2 H3 H4 H5)
    as (k' & row & w' & Hrun & _ & _ & _ & Hold & Hnew).
  exists k', row, w'. split; [exact Hrun|]. split.
  - refine (Hold _ _ 40%Z APPROVED Scenario.plain).
    + vm_compute. discriminate.
    + intros r Hr _. rewrite Scenario_wRejected_rows in Hr.
      destruct Hr as [<- | []]. reflexivity.
  - apply Hnew. intros r Hr. rewrite Scenario_wRejected_rows in Hr.
    destruct Hr as [<- | []]. vm_compute. discriminate.
Defined.

(** ** updateKyc *)

Lemma Object_assign_patch k dto :
  let pick (new : option (option string)) (old : option string) :=
    match new with Some v => v | None => old end in
  address (Object_assign k dto) = pick (UpdateKycDto.address dto) (address k)
  /\ city (Object_assign k dto) = pick (UpdateKycDto.city dto) (city k)
  /\ state (Object_assign k dto) = pick (UpdateKycDto.state dto) (state k)
  /\ postalCode (Object_assign k dto)
     = pick (UpdateKycDto.postalCode dto) (postalCode k)
  /\ documentType (Object_assign k dto)
     = pick (UpdateKycDto.documentType dto) (documentType k)
  /\ documentNumber (Object_assign k dto)
     = pick (UpdateKycDto.documentNumber dto) (documentNumber k)
  /\ verificationId (Object_assign k dto) = verificationId k
  /\ isManualReview (Object_assign k dto) = isManualReview k
  /\ rejectionReason (Object_assign k dto) = rejectionReason k
  /\ riskAssessment (Object_assign k dto) = riskAssessment k
  /\ expiresAt (Object_assign k dto) = expiresAt k
  /\ submittedAt (Object_assign k dto) = submittedAt k.
Proof.
  destruct dto as [a c s p dt dn m]. unfold Object_assign, assignOpt.
  cbn [UpdateKycDto.address UpdateKycDto.city UpdateKycDto.state
       UpdateKycDto.postalCode UpdateKycDto.documentType
       UpdateKycDto.documentNumber UpdateKycDto.metadata].
  destruct a, c, s, p, dt, dn, m; split_all; reflexivity.
Qed.

(** X14. updateKyc on an APPROVED case throws the bad request "Cannot
    update approved KYC verification" and changes nothing.  On any other
    stored case it returns and stores the case with each address and
    document column replaced by the value of the patch's property where
    the patch has the property, so cleared where that value is [null],
    and kept where the patch has no such property; [status],
    [attemptCount], [completedAt], [verificationId], the review flag, the
    rejection reason, the risk assessment and the timestamps of submission
    and expiry are as they were; it emits nothing. *)
Theorem updateKyc_patches_address_and_document now i dto w k :
  getKycById i w = (Normal k, w) ->
  (status k = APPROVED ->
   updateKyc now i dto w =
     (Throw (BadRequestException "Cannot update approved KYC verification"), w))
  /\ (status k <> APPROVED ->
      exists k' w',
        updateKyc now i dto w = (Normal k', w')
        /\ getKycById i w' = (Normal k', w')
        /\ emitted w' = emitted w
        /\ address k' = match UpdateKycDto.address dto with
                        | Some v => v | None => address k end
        /\ city k' = match UpdateKycDto.city dto with
                     | Some v => v | None => city k end
        /\ state k' = match UpdateKycDto.state dto with
                      | Some v => v | None => state k end
        /\ postalCode k' = match UpdateKycDto.postalCode dto with
                           | Some v => v | None => postalCode k end
        /\ documentType k' = match UpdateKycDto.documentType dto with
                             | Some v => v | None => documentType k end
        /\ documentNumber k' = match UpdateKycDto.documentNumber dto with
                               | Some v => v | None => documentNumber k end
        /\ status k' = status k
        /\ attemptCount k' = attemptCount k
        /\ completedAt k' = completedAt k
        /\ verificationId k' = verificationId k
        /\ isManualReview k' = isManualReview k
        /\ rejectionReason k' = rejectionReason k
        /\ riskAssessment k' = riskAssessment k
        /\ expiresAt k' = expiresAt k
        /\ submittedAt k' = submittedAt k).
Proof.
  intros Hget. apply getKycById_Normal in Hget as [Hfind _]. split.
  - intros Hst. unfold updateKyc, bind.
    rewrite (proj2 (getKycById_Normal i w k w) (conj Hfind eq_refl)).
    now rewrite bool_decide_eq_true_2.
  - intros Hst.
    destruct (updateKyc_ends now i dto w) as [[e He] | (k0 & Hfind0 & _ & Hrun)].
    + exfalso. revert He. unfold updateKyc, bind.
      rewrite (proj2 (getKycById_Normal i w k w) (conj Hfind eq_refl)).
      rewrite bool_decide_eq_false_2 by assumption.
      destruct (Object_assign_fixed k dto) as (Hid & _).
      rewrite (save_update now _ k _ w Hfind Hid). discriminate.
    + rewrite Hfind in Hfind0. injection Hfind0 as <-.
      eexists _, _. split; [exact Hrun|].
      destruct (Object_assign_fixed k dto) as (Hid & Hs & Hcomp & Hcount).
      destruct (Object_assign_patch k dto)
        as (P1 & P2 & P3 & P4 & P5 & P6 & P7 & P8 & P9 & P10 & P11 & P12).
      split.
      { apply getKycById_Normal. split; [|reflexivity]. cbn [rows].
        now apply getKycById_after_replace. }
      split; [reflexivity|].
      cbv zeta in P1, P2, P3, P4, P5, P6.
      split_all; cbn [address city state postalCode documentType documentNumber
                      status attemptCount completedAt verificationId
                      isManualReview rejectionReason riskAssessment expiresAt
                      submittedAt set_updatedAt];
        [exact P1 | exact P2 | exact P3 | exact P4 | exact P5
         | exact P6 | exact Hs | exact Hcount | exact Hcomp | exact P7
         | exact P8 | exact P9 | exact P10 | exact P11 | exact P12].
Qed.

Lemma updateKyc_patches_address_and_document_witness :
  getKycById 1 Cases.wAddressed = (Normal Cases.caseAddressed, Cases.wAddressed)
  /\ status Cases.caseAddressed <> APPROVED
  /\ address Cases.caseAddressed = Some "123 Main St"
  /\ city Cases.caseAddressed = Some "New York"
  /\ exists k' w',
       updateKyc 30 1 Cases.patchMove Cases.wAddressed = (Normal k', w')
       /\ getKycById 1 w' = (Normal k', w')
       /\ address k' = Some "5 Elm Rd"
       /\ city k' = None
       /\ state k' = state Cases.caseAddressed
       /\ status k' = status Cases.caseAddressed.
Proof.
  assert (H1 : getKycById 1 Cases.wAddressed
               = (Normal Cases.caseAddressed, Cases.wAddressed))
    by (vm_compute; reflexivity).
  assert (H2 : status Cases.caseAddressed <> APPROVED)
    by (vm_compute; discriminate).
  split; [exact H1|]. split; [exact H2|].
  split; [vm_compute; reflexivity|]. split; [vm_compute; reflexivity|].
  destruct (updateKyc_patches_address_and_document 30 1 Cases.patchMove
              Cases.wAddressed Cases.caseAddressed H1) as [_ Hok].
  destruct (Hok H2)
    as (k' & w' & Hrun & Hget & _ & Ha & Hc & Hs & _ & _ & _ & Hst & _).
  exists k', w'. split; [exact Hrun|]. split; [exact Hget|].
  split; [exact Ha|]. split; [exact Hc|]. split; [exact Hs|]. exact Hst.
Defined.

Lemma updateKyc_found now i dto w k :
  find (whereId i) (rows w) = Some k -> status k <> APPROVED ->
  let k' := set_updatedAt now (Object_assign k dto) in
  updateKyc now i dto w =
    (Normal k',
     {| rows := replaceRow k k' (rows w);
        lastId := lastId w;
        emitted := emitted w |}).
Proof.
  intros Hfind Hst k'. unfold updateKyc, bind.
  rewrite (proj2 (getKycById_Normal i w k w) (conj Hfind eq_refl)).
  rewrite bool_decide_eq_false_2 by assumption.
  destruct (Object_assign_fixed k dto) as (Hid & _).
  now rewrite (save_update now _ k _ w Hfind Hid).
Qed.

Lemma Object_assign_again t k dto :
  Object_assign (set_updatedAt t (Object_assign k dto)) dto
  = set_updatedAt t (Object_assign k dto).
Proof.
  destruct dto as [a c s p dt dn m]. unfold Object_assign, assignOpt.
  cbn [UpdateKycDto.address UpdateKycDto.city UpdateKycDto.state
       UpdateKycDto.postalCode UpdateKycDto.documentType
       UpdateKycDto.documentNumber UpdateKycDto.metadata].
  destruct k. destruct a, c, s, p, dt, dn, m; vm_compute; reflexivity.
Qed.

Lemma replaceRow_replaceRow k k1 k2 l :
  id k1 = id k -> replaceRow k1 k2 (replaceRow k k1 l) = replaceRow k k2 l.
Proof.
  intros Hid. unfold replaceRow. rewrite map_map. apply map_ext. intros r.
  unfold sameId. rewrite Hid.
  destruct (id r =? id k)%nat eqn:E.
  - now rewrite Hid, Nat.eqb_refl.
  - now rewrite E.
Qed.

(** X15. updateKyc is idempotent: sending the same patch to a stored case
    that is not APPROVED a second time succeeds again, and the case it
    returns and stores differs from the result of the first call in
    [updatedAt] only; neither call emits an event or adds a row. *)
Theorem updateKyc_twice now1 now2 i dto w k :
  getKycById i w = (Normal k, w) ->
  status k <> APPROVED ->
  exists k1 w1 k2 w2,
    updateKyc now1 i dto w = (Normal k1, w1)
    /\ updateKyc now2 i dto w1 = (Normal k2, w2)
    /\ k2 = set_updatedAt now2 k1
    /\ rows w2 = replaceRow k k2 (rows w)
    /\ emitted w2 = emitted w.
Proof.
  intros Hget Hst. apply getKycById_Normal in Hget as [Hfind _].
  pose (k1 := set_updatedAt now1 (Object_assign k dto)).
  assert (Hid1 : id k1 = id k) by apply (Object_assign_fixed k dto).
  assert (Hst1 : status k1 <> APPROVED).
  { unfold k1. cbn [status set_updatedAt].
    destruct (Object_assign_fixed k dto) as (_ & -> & _). exact Hst. }
  exists k1. eexists. exists (set_updatedAt now2 k1). eexists.
  split; [exact (updateKyc_found now1 i dto w k Hfind Hst)|].
  split.
  - match goal with |- updateKyc _ _ _ ?w1 = _ =>
      assert (Hfind1 : find (whereId i) (rows w1) = Some k1)
        by (cbn [rows]; now apply getKycById_after_replace);
      rewrite (updateKyc_found now2 i dto w1 k1 Hfind1 Hst1)
    end.
    unfold k1 at 1 3. rewrite Object_assign_again. reflexivity.
  - split; [reflexivity|]. split; [|reflexivity].
    cbn [rows]. now apply replaceRow_replaceRow.
Qed.

Lemma updateKyc_twice_witness :
  getKycById 1 Scenario.w1 = (Normal Scenario.case1, Scenario.w1)
  /\ status Scenario.case1 <> APPROVED
  /\ exists k1 w1 k2 w2,
       updateKyc 20 1 Cases.patchAddress Scenario.w1 = (Normal k1, w1)
       /\ updateKyc 30 1 Cases.patchAddress w1 = (Normal k2, w2)
       /\ k2 = set_updatedAt 30 k1.
Proof.
  assert (H1 : getKycById 1 Scenario.w1 = (Normal Scenario.case1, Scenario.w1))
    by (vm_compute; reflexivity).
  assert (H2 : status Scenario.case1 <> APPROVED) by (vm_compute; discriminate).
  split; [exact H1|]. split; [exact H2|].
  destruct (updateKyc_twice 20 30 1 Cases.patchAddress Scenario.w1
              Scenario.case1 H1 H2)
    as (k1 & w1 & k2 & w2 & Hr1 & Hr2 & Hk & _).
  exists k1, w1, k2, w2. split; [exact Hr1|]. split; [exact Hr2|]. exact Hk.
Defined.

(** ** Verification queries *)

Lemma descBefore_irrefl a : descBefore a a = false.
Proof. destruct a; cbn; [apply Z.ltb_irrefl | reflexivity]. Qed.

Lemma descBefore_trans a b c :
  descBefore a b = true -> descBefore b c = true -> descBefore a c = true.
Proof.
  destruct a, b, c; cbn; try congruence.
  rewrite !Z.ltb_lt. lia.
Qed.

Lemma descBefore_not_trans a b c :
  descBefore a b = false -> descBefore b c = false -> descBefore a c = false.
Proof.
  destruct a, b, c; cbn; try congruence.
  rewrite !Z.ltb_ge. lia.
Qed.

(** The row [firstDesc] returns sorts before or with every matching row. *)
Lemma firstDesc_acc_first (key : KycVerification -> option Z)
    (p : KycVerification -> bool) (l : list KycVerification) :
  forall (acc : option KycVerification) (k : KycVerification),
    fold_left
      (fun best r =>
         if p r then
           match best with
           | None => Some r
           | Some b => if descBefore (key r) (key b) then Some r else Some b
           end
         else best)
      l acc = Some k ->
    (forall r, In r l -> p r = true -> descBefore (key r) (key k) = false)
    /\ (forall b, acc = Some b -> descBefore (key b) (key k) = false).
Proof.
  induction l as [|r l IH]; intros acc k H; cbn [fold_left] in H.
  - split; [intros r []|]. intros b Hb. rewrite Hb in H. injection H as ->.
    apply descBefore_irrefl.
  - apply IH in H as [Hl Hacc]. split.
    + intros r' [<- | Hin] Hp; [|now apply Hl].
      rewrite Hp in Hacc. destruct acc as [b|]; [|now apply Hacc].
      destruct (descBefore (key r) (key b)) eqn:E; [now apply Hacc|].
      apply (descBefore_not_trans _ (key b)); [assumption | now apply Hacc].
    + intros b ->. destruct (p r); [|now apply Hacc].
      destruct (descBefore (key r) (key b)) eqn:E; [|now apply Hacc].
      specialize (Hacc r eq_refl).
      destruct (descBefore (key b) (key k)) eqn:E'; [|reflexivity].
      now rewrite (descBefore_trans _ _ _ E E') in Hacc.
Qed.

Lemma firstDesc_first key p l k :
  firstDesc key p l = Some k ->
  forall r, In r l -> p r = true -> descBefore (key r) (key k) = false.
Proof. intros H. now apply firstDesc_acc_first in H as [H _]. Qed.

Lemma firstDesc_acc_None (key : KycVerification -> option Z)
    (p : KycVerification -> bool) (l : list KycVerification) :
  forall acc : option KycVerification,
    fold_left
      (fun best r =>
         if p r then
           match best with
           | None => Some r
           | Some b => if descBefore (key r) (key b) then Some r else Some b
           end
         else best)
      l acc = None ->
    acc = None /\ forall r, In r l -> p r = false.
Proof.
  induction l as [|r l IH]; intros acc H; cbn [fold_left] in H.
  - split; [assumption | intros r []].
  - apply IH in H as [Hacc Hl].
    destruct (p r) eqn:Hp.
    + destruct acc as [b|]; [destruct (descBefore _ _)|]; discriminate.
    + split; [assumption|]. intros r' [<- | Hin]; [assumption | now apply Hl].
Qed.

Lemma firstDesc_None key p l :
  firstDesc key p l = None <-> forall r, In r l -> p r = false.
Proof.
  split.
  - intros H. now apply firstDesc_acc_None in H.
  - intros H. unfold firstDesc.
    induction l as [|r l IH]; [reflexivity|].
    cbn [fold_left]. rewrite (H r) by now left.
    apply IH. intros x Hx. apply H. now right.
Qed.

Lemma whereUserStatus_true u st r :
  whereUserStatus u st r = true <-> userId r = u /\ status r = st.
Proof.
  unfold whereUserStatus. rewrite andb_true_iff, !bool_decide_eq_true.
  reflexivity.
Qed.

(** X16. The two verification queries agree.  Both return without
    changing anything; without a required level [isUserVerified] answers
    whether [getUserVerificationLevel] reports a level at all, and with a
    required level it answers whether the reported level is at least the
    required one in the order basic, intermediate, advanced.  So a user
    verified for a level is verified for every lower level, and a BASIC
    requirement is the same as none. *)
Theorem verification_queries_agree now u w :
  exists userLevel,
    getUserVerificationLevel now u w = (Normal userLevel, w)
    /\ isUserVerified now u None w
       = (Normal (bool_decide (userLevel <> None)), w)
    /\ (forall required,
          isUserVerified now u (Some required) w
          = (Normal
               match userLevel with
               | Some l => (indexOf levels required <=? indexOf levels l)%Z
               | None => false
               end,
             w))
    /\ isUserVerified now u (Some BASIC) w = isUserVerified now u None w
    /\ (isUserVerified now u (Some ADVANCED) w = (Normal true, w) ->
        isUserVerified now u (Some INTERMEDIATE) w = (Normal true, w))
    /\ (isUserVerified now u (Some INTERMEDIATE) w = (Normal true, w) ->
        isUserVerified now u (Some BASIC) w = (Normal true, w)).
Proof.
  unfold getUserVerificationLevel, isUserVerified, bind, findOneOrderDesc, ret.
  destruct (firstDesc completedAt (whereUserStatus u APPROVED) (rows w))
    as [k|]; [destruct (isKycExpired now k)|].
  - exists None. split_all; try reflexivity; intros; (reflexivity || discriminate).
  - exists (Some (level k)).
    split; [reflexivity|]. split; [reflexivity|].
    split; [intros required; reflexivity|].
    rewrite !indexOf_levels. destruct (level k); split_all;
      try reflexivity; intros; (reflexivity || discriminate).
  - exists None. split_all; try reflexivity; intros; (reflexivity || discriminate).
Qed.

(** X17. When [isUserVerified] answers true the table holds a case of
    that user that is APPROVED, not expired at the time of the call, of at
    least the required level, and such that no other APPROVED case of the
    user sorts before it by [completedAt] descending. *)
Theorem isUserVerified_sound now u required w :
  isUserVerified now u required w = (Normal true, w) ->
  exists k,
    In k (rows w)
    /\ userId k = u
    /\ status k = APPROVED
    /\ isKycExpired now k = false
    /\ (forall l, required = Some l ->
          (indexOf levels l <= indexOf levels (level k))%Z)
    /\ (forall r, In r (rows w) -> userId r = u -> status r = APPROVED ->
          descBefore (completedAt r) (completedAt k) = false).
Proof.
  unfold isUserVerified, bind, findOneOrderDesc, ret.
  destruct (firstDesc completedAt (whereUserStatus u APPROVED) (rows w))
    as [k|] eqn:Hfirst; [|discriminate].
  destruct (isKycExpired now k) eqn:Hexp; [discriminate|].
  intros H. exists k.
  destruct (firstDesc_Some _ _ _ _ Hfirst) as [Hin Hp].
  apply whereUserStatus_true in Hp as [Hu Hst].
  split_all; try assumption.
  - intros l ->. injection H as H. now apply Z.leb_le.
  - intros r Hr Hru Hrs.
    apply (firstDesc_first _ _ _ _ Hfirst r Hr).
    now apply whereUserStatus_true.
Qed.

Lemma isUserVerified_sound_witness :
  isUserVerified 30 "U1" (Some BASIC) Scenario.wApproved
    = (Normal true, Scenario.wApproved)
  /\ exists k,
       In k (rows Scenario.wApproved)
       /\ userId k = "U1"
       /\ status k = APPROVED
       /\ isKycExpired 30 k = false.
Proof.
  assert (H : isUserVerified 30 "U1" (Some BASIC) Scenario.wApproved
              = (Normal true, Scenario.wApproved))
    by (vm_compute; reflexivity).
  split; [exact H|].
  destruct (isUserVerified_sound 30 "U1" (Some BASIC) Scenario.wApproved H)
    as (k & Hin & Hu & Hst & Hexp & _).
  exists k. split; [exact Hin|]. split; [exact Hu|]. split; [exact Hst|].
  exact Hexp.
Defined.

(** ** getKycByUserId *)

(** X18. getKycByUserId throws NotFound exactly when the user has no case;
    otherwise it returns a case of that user whose [createdAt] no other
    case of the user exceeds.  It changes nothing. *)
Theorem getKycByUserId_latest u w :
  (getKycByUserId u w
     = (Throw (NotFoundException "KYC verification not found for user"), w)
   /\ forall r, In r (rows w) -> userId r <> u)
  \/ (exists k,
        getKycByUserId u w = (Normal k, w)
        /\ In k (rows w)
        /\ userId k = u
        /\ forall r, In r (rows w) -> userId r = u ->
             (createdAt r <= createdAt k)%Z).
Proof.
  unfold getKycByUserId, bind, findOneOrderDesc, ret, throw.
  destruct (firstDesc (fun r => Some (createdAt r)) (whereUser u) (rows w))
    as [k|] eqn:Hfirst.
  - right. exists k. split; [reflexivity|].
    destruct (firstDesc_Some _ _ _ _ Hfirst) as [Hin Hp].
    unfold whereUser in Hp. apply bool_decide_eq_true in Hp.
    split; [assumption|]. split; [assumption|].
    intros r Hr Hu.
    assert (Hd := firstDesc_first _ _ _ _ Hfirst r Hr).
    cbn [descBefore] in Hd. apply Z.ltb_ge. apply Hd.
    unfold whereUser. now apply bool_decide_eq_true.
  - left. split; [reflexivity|].
    intros r Hr Hu. apply (proj1 (firstDesc_None _ _ _) Hfirst) in Hr.
    unfold whereUser in Hr. now apply bool_decide_eq_false in Hr.
Qed.

(** ** KycGuard *)

Lemma isKycExpired_later now1 now2 k :
  (now1 <= now2)%Z -> isKycExpired now1 k = true -> isKycExpired now2 k = true.
Proof.
  unfold isKycExpired. destruct (expiresAt k); [|discriminate].
  rewrite !Z.ltb_lt. lia.
Qed.

(** X19. On a route that requires KYC, for an authenticated user, and when
    the clock does not go back between the guard's two service calls, the
    guard lets the request through exactly when [isUserVerified] answers
    true for the route's level; otherwise it throws a ForbiddenException.
    It changes nothing. *)
Theorem canActivate_enforces_verification req u now1 now2 w :
  KycRequirement.required req = true ->
  u <> "" ->
  (now1 <= now2)%Z ->
  exists verified,
    isUserVerified now1 u (KycRequirement.level req) w = (Normal verified, w)
    /\ if verified
       then KycGuard.canActivate (Some req) (Some u) now1 now2 w
            = (Returns true, w)
       else exists message,
            KycGuard.canActivate (Some req) (Some u) now1 now2 w
            = (ForbiddenException message, w).
Proof.
  intros Hreq Hu Hle.
  unfold KycGuard.canActivate. rewrite Hreq. cbn [negb truthy].
  rewrite bool_decide_eq_false_2 by exact Hu. cbn [negb].
  change (default "" (Some u)) with u.
  unfold isUserVerified, getUserVerificationLevel, bind, findOneOrderDesc, ret.
  destruct (firstDesc completedAt (whereUserStatus u APPROVED) (rows w))
    as [k|] eqn:Hfirst.
  - destruct (isKycExpired now1 k) eqn:E1.
    + exists false. split; [reflexivity|]. cbv beta iota. rewrite Hfirst.
      rewrite (isKycExpired_later now1 now2 k Hle E1). eexists. reflexivity.
    + destruct (KycRequirement.level req) as [l|].
      * destruct (indexOf levels l <=? indexOf levels (level k))%Z;
          eexists; (split; [reflexivity|]); [reflexivity|].
        cbv beta iota. rewrite Hfirst.
        destruct (isKycExpired now2 k); eexists; reflexivity.
      * exists true. split; reflexivity.
  - exists false. split; [reflexivity|]. cbv beta iota. rewrite Hfirst.
    destruct (KycRequirement.level req); eexists; reflexivity.
Qed.

Lemma canActivate_enforces_verification_witness :
  KycRequirement.required Cases.basicRoute = true
  /\ "U1" <> ""
  /\ (30 <= 31)%Z
  /\ KycGuard.canActivate (Some Cases.basicRoute) (Some "U1") 30 31
       Scenario.wApproved = (Returns true, Scenario.wApproved)
  /\ exists message,
       KycGuard.canActivate (Some Cases.basicRoute) (Some "U1") 30 31
         Scenario.w1 = (ForbiddenException message, Scenario.w1).
Proof.
  assert (H1 : KycRequirement.required Cases.basicRoute = true) by reflexivity.
  assert (H2 : "U1" <> "") by discriminate.
  assert (H3 : (30 <= 31)%Z) by lia.
  split; [exact H1|]. split; [exact H2|]. split; [exact H3|]. split.
  - destruct (canActivate_enforces_verification Cases.basicRoute "U1" 30 31
                Scenario.wApproved H1 H2 H3) as (b & Hb & Hrun).
    assert (Hv : isUserVerified 30 "U1" (KycRequirement.level Cases.basicRoute)
                   Scenario.wApproved = (Normal true, Scenario.wApproved))
      by (vm_compute; reflexivity).
    rewrite Hv in Hb. injection Hb as <-. exact Hrun.
  - destruct (canActivate_enforces_verification Cases.basicRoute "U1" 30 31
                Scenario.w1 H1 H2 H3) as (b & Hb & Hrun).
    assert (Hv : isUserVerified 30 "U1" (KycRequirement.level Cases.basicRoute)
                   Scenario.w1 = (Normal false, Scenario.w1))
      by (vm_compute; reflexivity).
    rewrite Hv in Hb. injection Hb as <-. exact Hrun.
Defined.

(** ** KycController: the webhook endpoint *)

Lemma verifyWebhookSignature_returns secret payload signature timestamp :
  verifyWebhookSignature secret payload signature timestamp =
  Normal
    match secret, signature with
    | Some key, Some claimed =>
        bool_decide
          (claimed = NodeCrypto.hmacSha256Hex key (signedData payload timestamp))
    | _, _ => false
    end.
Proof.
  unfold verifyWebhookSignature, createHmacDigestHex.
  destruct secret as [key|]; [|reflexivity].
  generalize (NodeCrypto.hmacSha256Hex key (signedData payload timestamp)).
  intros expected. destruct signature as [claimed|]; [|reflexivity].
  apply (timingSafeEqual_or_false claimed expected).
Qed.

Lemma webhook_endpoint_run
    secret now rawBody bodyJson body signature timestamp w :
  let payload := if truthy rawBody then default "" rawBody else bodyJson in
  let valid :=
    match secret, signature with
    | Some key, Some claimed =>
        bool_decide
          (claimed = NodeCrypto.hmacSha256Hex key (signedData payload timestamp))
    | _, _ => false
    end in
  KycController.handleWebhook secret now rawBody bodyJson body signature
    timestamp w
  = if valid
    then match handleWebhook now (KycWebhookDto.verificationId body)
                 (KycWebhookDto.status body) (KycController.dataOf body) w with
         | (Normal _, w') => (Normal Success, w')
         | (Throw e, w') => (Throw e, w')
         end
    else (Normal InvalidSignature, w).
Proof.
  intros payload valid. unfold KycController.handleWebhook.
  fold payload. unfold bind at 1, await.
  rewrite verifyWebhookSignature_returns. fold valid.
  destruct valid; [|reflexivity].
  cbn [negb]. unfold bind, ret.
  destruct (handleWebhook now _ _ _ w) as [[k|e] w']; reflexivity.
Qed.

(** X20. The webhook endpoint refuses what is not correctly signed.  The
    signed payload is the raw request body when the request kept a
    non-empty one and the re-serialised body otherwise.  When no secret is
    configured, the signature header is missing, or the header is not the
    hex HMAC-SHA-256 of the signed data under the secret, the endpoint
    returns the reply [{ error: 'Invalid signature' }]: it does not throw,
    does not call the service, and leaves the table and the events as
    they were. *)
Theorem webhook_endpoint_rejects
    secret now rawBody bodyJson body signature timestamp w :
  let payload := if truthy rawBody then default "" rawBody else bodyJson in
  (forall key claimed,
     secret = Some key -> signature = Some claimed ->
     claimed <> NodeCrypto.hmacSha256Hex key (signedData payload timestamp)) ->
  KycController.handleWebhook secret now rawBody bodyJson body signature
    timestamp w
  = (Normal InvalidSignature, w).
Proof.
  intros payload Hbad.
  rewrite webhook_endpoint_run. cbv zeta. fold payload.
  destruct secret as [key|]; [|reflexivity].
  destruct signature as [claimed|]; [|reflexivity].
  now rewrite bool_decide_eq_false_2 by now apply Hbad.
Qed.

Lemma webhook_endpoint_rejects_witness :
  (forall key claimed,
     @None string = Some key -> Some Scenario.signatureWithTimestamp = Some claimed ->
     claimed <> NodeCrypto.hmacSha256Hex key
                  (signedData Scenario.body (Some "1700000000")))
  /\ KycController.handleWebhook None 20 (Some Scenario.body) Scenario.body
       Cases.approvedBody (Some Scenario.signatureWithTimestamp)
       (Some "1700000000") Scenario.w1
     = (Normal InvalidSignature, Scenario.w1).
Proof.
  assert (H : forall key claimed,
            @None string = Some key ->
            Some Scenario.signatureWithTimestamp = Some claimed ->
            claimed <> NodeCrypto.hmacSha256Hex key
                         (signedData Scenario.body (Some "1700000000")))
    by (intros key claimed Hk; discriminate Hk).
  split; [exact H|].
  exact (webhook_endpoint_rejects None 20 (Some Scenario.body) Scenario.body
           Cases.approvedBody (Some Scenario.signatureWithTimestamp)
           (Some "1700000000") Scenario.w1 H).
Defined.

(** X21. A correctly signed webhook for a stored case, sent through the
    endpoint, is answered with [{ success: true }]; the case is stored
    with status REQUIRES_REVIEW and the review flag set when the body's
    risk level is high and with the body's status otherwise (the endpoint
    forwards no [requiresReview]).  A correctly signed webhook for an
    unknown verification id makes the endpoint throw NotFound and changes
    nothing. *)
Theorem webhook_endpoint_applies
    key now rawBody bodyJson body signature timestamp w :
  let payload := if truthy rawBody then default "" rawBody else bodyJson in
  let highRisk :=
    match KycWebhookDto.riskAssessment body with
    | Some ra => bool_decide (riskLevel ra = high)
    | None => false
    end in
  signature = NodeCrypto.hmacSha256Hex key (signedData payload timestamp) ->
  match find (whereVerificationId (KycWebhookDto.verificationId body)) (rows w)
  with
  | Some k =>
      exists k' w',
        KycController.handleWebhook (Some key) now rawBody bodyJson body
          (Some signature) timestamp w = (Normal Success, w')
        /\ rows w' = replaceRow k k' (rows w)
        /\ id k' = id k
        /\ status k'
           = (if highRisk then REQUIRES_REVIEW else KycWebhookDto.status body)
        /\ isManualReview k' = isManualReview k || highRisk
  | None =>
      KycController.handleWebhook (Some key) now rawBody bodyJson body
        (Some signature) timestamp w
      = (Throw (NotFoundException "KYC verification not found"), w)
  end.
Proof.
  intros payload highRisk Hsig.
  assert (Hrun := webhook_endpoint_run (Some key) now rawBody bodyJson body
                    (Some signature) timestamp w).
  cbv beta iota zeta in Hrun. fold payload in Hrun.
  rewrite bool_decide_eq_true_2 in Hrun by exact Hsig.
  assert (Hrisk : needsManualReview (KycController.dataOf body) = highRisk).
  { unfold needsManualReview, KycController.dataOf, highRisk.
    cbn [WebhookData.riskAssessment WebhookData.requiresReview].
    apply orb_false_r. }
  destruct (find _ (rows w)) as [k|] eqn:Hfind.
  - rewrite (handleWebhook_found now _ _ _ w k Hfind) in Hrun.
    eexists _, _. split; [exact Hrun|]. split; [reflexivity|].
    cbn [id status isManualReview set_updatedAt].
    split; [apply webhookAssign_id|].
    rewrite webhookAssign_status, Hrisk. split; [reflexivity|].
    destruct (webhookAssign_leaves now (KycWebhookDto.status body)
                (KycController.dataOf body) k) as (-> & _).
    now rewrite Hrisk.
  - rewrite Hrun. unfold handleWebhook, bind.
    now rewrite (getKycByVerificationId_not_found _ _ Hfind).
Qed.

Lemma webhook_endpoint_applies_witness :
  Scenario.signatureWithTimestamp
    = NodeCrypto.hmacSha256Hex "whsec_test"
        (signedData Scenario.body (Some "1700000000"))
  /\ exists k' w',
       KycController.handleWebhook (Some "whsec_test") 20 (Some Scenario.body)
         Scenario.body Cases.approvedBody (Some Scenario.signatureWithTimestamp)
         (Some "1700000000") Scenario.w1 = (Normal Success, w')
       /\ status k' = APPROVED
       /\ rows w' = replaceRow Scenario.case1 k' (rows Scenario.w1).
Proof.
  assert (Hsig : Scenario.signatureWithTimestamp
                 = NodeCrypto.hmacSha256Hex "whsec_test"
                     (signedData Scenario.body (Some "1700000000")))
    by (vm_compute; reflexivity).
  split; [exact Hsig|].
  assert (Hfind : find (whereVerificationId
                          (KycWebhookDto.verificationId Cases.approvedBody))
                    (rows Scenario.w1) = Some Scenario.case1)
    by (vm_compute; reflexivity).
  assert (H := webhook_endpoint_applies "whsec_test" 20 (Some Scenario.body)
                 Scenario.body Cases.approvedBody
                 Scenario.signatureWithTimestamp (Some "1700000000")
                 Scenario.w1 Hsig).
  rewrite Hfind in H.
  destruct H as (k' & w' & Hrun & Hrows & _ & Hst & _).
  exists k', w'. split; [exact Hrun|]. split; [exact Hst | exact Hrows].
Defined.

(** ** Listings *)

Lemma insertBy_Permutation lt r l : Permutation (insertBy lt r l) (r :: l).
Proof.
  induction l as [|x l IH]; cbn [insertBy]; [reflexivity|].
  destruct (lt x r); [|reflexivity].
  rewrite IH. apply perm_swap.
Qed.

Lemma sortBy_Permutation lt l : Permutation (sortBy lt l) l.
Proof.
  induction l as [|r l IH]; cbn [sortBy fold_right]; [reflexivity|].
  fold (sortBy lt l). rewrite insertBy_Permutation. now apply perm_skip.
Qed.

Lemma sortBy_length lt l : List.length (sortBy lt l) = List.length l.
Proof. apply Permutation_length, sortBy_Permutation. Qed.

Section Sorting.

Variable lt : KycVerification -> KycVerification -> bool.
Variable R : KycVerification -> KycVerification -> Prop.
Hypothesis R_trans : forall a b c, R a b -> R b c -> R a c.
Hypothesis lt_R : forall a b, lt a b = true -> R a b.
Hypothesis not_lt_R : forall a b, lt a b = false -> R b a.

Lemma insertBy_sorted r l :
  StronglySorted R l -> StronglySorted R (insertBy lt r l).
Proof.
  induction 1 as [|x l Hs IH Hx]; cbn [insertBy].
  - constructor; constructor.
  - destruct (lt x r) eqn:E.
    + constructor; [assumption|].
      apply List.Forall_forall. intros y Hy.
      apply (Permutation_in _ (insertBy_Permutation lt r l)) in Hy.
      destruct Hy as [<- | Hy]; [now apply lt_R|].
      now apply (proj1 (List.Forall_forall _ _) Hx).
    + constructor; [now constructor|].
      constructor; [now apply not_lt_R|].
      apply List.Forall_forall. intros y Hy.
      apply (R_trans _ x); [now apply not_lt_R|].
      now apply (proj1 (List.Forall_forall _ _) Hx).
Qed.

Lemma sortBy_sorted l : StronglySorted R (sortBy lt l).
Proof.
  induction l as [|r l IH]; cbn [sortBy fold_right]; [constructor|].
  now apply insertBy_sorted.
Qed.

End Sorting.

Lemma StronglySorted_skipn {A} (R : A -> A -> Prop) n l :
  StronglySorted R l -> StronglySorted R (skipn n l).
Proof.
  revert l. induction n as [|n IH]; intros l H; [exact H|].
  destruct l as [|x l]; [constructor|].
  cbn [skipn]. apply IH. now inversion H.
Qed.

Lemma StronglySorted_firstn {A} (R : A -> A -> Prop) n l :
  StronglySorted R l -> StronglySorted R (firstn n l).
Proof.
  revert l. induction n as [|n IH]; intros l H; [constructor|].
  destruct l as [|x l]; [constructor|].
  cbn [firstn]. inversion H as [|? ? Hs Hx]; subst.
  constructor; [now apply IH|].
  apply List.Forall_forall. intros y Hy.
  apply (proj1 (List.Forall_forall _ _) Hx).
  rewrite <- (firstn_skipn n l). apply in_or_app. now left.
Qed.

Lemma In_skipTake {A} page limit (l : list A) x :
  In x (skipTake page limit l) -> In x l.
Proof.
  unfold skipTake. intros H.
  rewrite <- (firstn_skipn (Z.to_nat ((page - 1) * limit)) l).
  apply in_or_app. right.
  rewrite <- (firstn_skipn (Z.to_nat limit) (skipn _ l)).
  apply in_or_app. now left.
Qed.

Lemma ceilDiv_bounds total limit :
  (1 <= limit)%Z ->
  ((ceilDiv total limit - 1) * limit < total <= ceilDiv total limit * limit)%Z.
Proof.
  intros Hl. unfold ceilDiv.
  pose proof (Z.div_mod (- total) limit ltac:(lia)) as Hdm.
  pose proof (Z.mod_pos_bound (- total) limit ltac:(lia)) as Hm.
  nia.
Qed.

Lemma skipTake_beyond {A} page limit (l : list A) :
  (1 <= limit)%Z ->
  (ceilDiv (Z.of_nat (List.length l)) limit < page)%Z ->
  skipTake page limit l = [].
Proof.
  intros Hl Hp. unfold skipTake.
  pose proof (ceilDiv_bounds (Z.of_nat (List.length l)) limit Hl) as Hb.
  rewrite skipn_all2; [now destruct (Z.to_nat limit)|].
  apply Nat2Z.inj_le. rewrite Z2Nat.id by nia. nia.
Qed.


Lemma listing_Normal lt where_ page limit w :
  listing lt where_ page limit w =
    (Normal
       {| Listing.data :=
            skipTake page limit (sortBy lt (List.filter where_ (rows w)));
          Listing.total := Z.of_nat (List.length (List.filter where_ (rows w)));
          Listing.page := page;
          Listing.limit := limit;
          Listing.totalPages :=
            ceilDiv (Z.of_nat (List.length (List.filter where_ (rows w)))) limit |},
     w).
Proof. reflexivity. Qed.

(** X22. queryKyc returns without changing anything.  For a page number
    and a page size of at least 1 (after the defaults 1 and 20), the page
    holds at most [limit] cases, all of them stored and matching every
    filter given, newest first by [createdAt]; [total] counts all matching
    cases whatever the page; [totalPages] is the least number of pages of
    that size that hold [total] cases; a page after the last one is
    empty. *)
Theorem queryKyc_page dto w :
  let page := default 1%Z (QueryKycDto.page dto) in
  let limit := default 20%Z (QueryKycDto.limit dto) in
  (1 <= page)%Z -> (1 <= limit)%Z ->
  exists r,
    queryKyc dto w = (Normal r, w)
    /\ Listing.total r
       = Z.of_nat (List.length (List.filter (queryWhere dto) (rows w)))
    /\ (Z.of_nat (List.length (Listing.data r)) <= limit)%Z
    /\ (forall k, In k (Listing.data r) ->
          In k (rows w) /\ queryWhere dto k = true)
    /\ StronglySorted (fun a b => (createdAt b <= createdAt a)%Z)
         (Listing.data r)
    /\ ((Listing.totalPages r - 1) * limit < Listing.total r
        <= Listing.totalPages r * limit)%Z
    /\ ((Listing.totalPages r < page)%Z -> Listing.data r = []).
Proof.
  intros page limit Hp Hl. unfold queryKyc. fold page limit.
  rewrite listing_Normal. eexists. split; [reflexivity|].
  cbn [Listing.data Listing.total Listing.totalPages].
  split; [reflexivity|]. split.
  { unfold skipTake. rewrite length_firstn. lia. }
  split.
  { intros k Hk. apply In_skipTake in Hk.
    apply (Permutation_in _ (sortBy_Permutation _ _)) in Hk.
    now apply filter_In in Hk. }
  split.
  { unfold skipTake. apply StronglySorted_firstn, StronglySorted_skipn.
    apply (sortBy_sorted createdAtDesc); unfold createdAtDesc.
    - intros a b c ? ?. lia.
    - intros a b H. apply Z.ltb_lt in H. lia.
    - intros a b H. apply Z.ltb_ge in H. lia. }
  split; [now apply ceilDiv_bounds|].
  intros Hbeyond. apply skipTake_beyond; [assumption|].
  now rewrite sortBy_length.
Qed.

Lemma queryKyc_page_witness :
  (1 <= default 1 (QueryKycDto.page Cases.queryU1))%Z
  /\ (1 <= default 20 (QueryKycDto.limit Cases.queryU1))%Z
  /\ exists r,
       queryKyc Cases.queryU1 Scenario.wReverified
         = (Normal r, Scenario.wReverified)
       /\ Listing.total r
          = Z.of_nat (List.length (List.filter (queryWhere Cases.queryU1)
                                     (rows Scenario.wReverified)))
       /\ StronglySorted (fun a b => (createdAt b <= createdAt a)%Z)
            (Listing.data r).
Proof.
  assert (H1 : (1 <= default 1 (QueryKycDto.page Cases.queryU1))%Z)
    by (vm_compute; discriminate).
  assert (H2 : (1 <= default 20 (QueryKycDto.limit Cases.queryU1))%Z)
    by (vm_compute; discriminate).
  split; [exact H1|]. split; [exact H2|].
  destruct (queryKyc_page Cases.queryU1 Scenario.wReverified H1 H2)
    as (r & Hrun & Htotal & _ & _ & Hsorted & _).
  exists r. split; [exact Hrun|]. split; [exact Htotal | exact Hsorted].
Defined.



(** ** Pending reviews and manualReview *)

Lemma replaceRow_absent k k' l :
  (forall x, In x l -> id x <> id k) -> replaceRow k k' l = l.
Proof.
  intros H. unfold replaceRow. rewrite <- (map_id l) at 2.
  apply map_ext_in. intros x Hx. unfold sameId.
  now rewrite (proj2 (Nat.eqb_neq _ _) (H x Hx)).
Qed.

Lemma filter_replaceRow_length (p : KycVerification -> bool) k k' l :
  NoDup (map id l) -> In k l -> p k = true -> p k' = false ->
  S (List.length (List.filter p (replaceRow k k' l)))
  = List.length (List.filter p l).
Proof.
  intros Hnd Hin Hp Hp'. induction l as [|r l IH]; [contradiction|].
  cbn [map] in Hnd. apply NoDup_cons in Hnd as [Hr Hnd].
  assert (Hother : forall x, In x l -> id x <> id r).
  { intros x Hx E. apply Hr. rewrite <- E. apply list_elem_of_In, in_map, Hx. }
  cbn [replaceRow map]. fold (replaceRow k k' l).
  destruct Hin as [-> | Hin].
  - unfold sameId at 1. rewrite Nat.eqb_refl.
    rewrite (replaceRow_absent k k' l Hother).
    cbn [List.filter]. now rewrite Hp, Hp'.
  - unfold sameId at 1.
    rewrite (proj2 (Nat.eqb_neq (id r) (id k)));
      [|intros E; now apply (Hother k Hin)].
    cbn [List.filter]. destruct (p r); cbn [List.length];
      now rewrite <- (IH Hnd Hin).
Qed.

(** X24. A case listed by getPendingReviews can be reviewed, and the
    review takes it off the list: on a table with well-formed keys,
    manualReview of a listed case succeeds whatever the decision, and
    afterwards every page of getPendingReviews reports one pending review
    fewer and does not hold the case. *)
Theorem reviewed_case_leaves_pending_list now dto page limit w r k :
  keysOk w ->
  getPendingReviews page limit w = (Normal r, w) ->
  In k (Listing.data r) ->
  exists k' w',
    manualReview now (id k) dto w = (Normal k', w')
    /\ forall page' limit' r',
         getPendingReviews page' limit' w' = (Normal r', w') ->
         Listing.total r' = (Listing.total r - 1)%Z
         /\ forall x, In x (Listing.data r') -> id x <> id k.
Proof.
  intros [Hnd _] Hlist Hk.
  unfold getPendingReviews in Hlist. rewrite listing_Normal in Hlist.
  injection Hlist as <-. cbn [Listing.data Listing.total] in *.
  apply In_skipTake in Hk.
  apply (Permutation_in _ (sortBy_Permutation _ _)) in Hk.
  apply filter_In in Hk as [Hin Hp].
  assert (Hflag : isManualReview k = true).
  { unfold wherePendingReview in Hp. now apply andb_true_iff in Hp. }
  pose proof (find_unique_id (rows w) k Hnd Hin) as Hfind.
  pose (k' := set_updatedAt now (reviewAssign now dto k)).
  assert (Hp' : wherePendingReview k' = false).
  { unfold wherePendingReview, k'. cbn [isManualReview set_updatedAt reviewAssign
      set_isManualReview]. apply andb_false_r. }
  exists k'. eexists.
  split; [exact (manualReview_found now (id k) dto w k Hfind Hflag)|].
  intros page' limit' r' Hlist'.
  unfold getPendingReviews in Hlist'. rewrite listing_Normal in Hlist'.
  injection Hlist' as <-. cbn [Listing.data Listing.total rows]. split.
  - rewrite <- (filter_replaceRow_length wherePendingReview k k' (rows w)
                  Hnd Hin Hp Hp').
    fold k'. lia.
  - intros x Hx. apply In_skipTake in Hx.
    apply (Permutation_in _ (sortBy_Permutation _ _)) in Hx.
    apply filter_In in Hx as [Hx Hpx].
    apply In_replaceRow_other in Hx as [-> | [_ Hid]]; [|exact Hid].
    change (wherePendingReview k' = true) in Hpx.
    rewrite Hp' in Hpx. discriminate.
Qed.

Lemma Cases_wFlagged_reachable : reachable Cases.wFlagged.
Proof.
  reach_by (CallWebhook 20 "v1" IN_PROGRESS Scenario.highRisk)
           Scenario_w1_reachable.
Qed.

Lemma Cases_wFlagged_rows : rows Cases.wFlagged = [Cases.caseFlagged].
Proof. vm_compute. reflexivity. Qed.

Lemma reviewed_case_leaves_pending_list_witness :
  keysOk Cases.wFlagged
  /\ (exists r,
        getPendingReviews 1 20 Cases.wFlagged = (Normal r, Cases.wFlagged)
        /\ In Cases.caseFlagged (Listing.data r))
  /\ exists k' w',
       manualReview 30 (id Cases.caseFlagged) Cases.approveAfterReview
         Cases.wFlagged = (Normal k', w')
       /\ forall r',
            getPendingReviews 1 20 w' = (Normal r', w') ->
            forall x, In x (Listing.data r') -> id x <> id Cases.caseFlagged.
Proof.
  assert (Hkeys : keysOk Cases.wFlagged)
    by exact (reachable_keysOk Cases.wFlagged Cases_wFlagged_reachable).
  pose (r := {| Listing.data := [Cases.caseFlagged];
                Listing.total := 1;
                Listing.page := 1;
                Listing.limit := 20;
                Listing.totalPages := 1 |}).
  assert (Hlist : getPendingReviews 1 20 Cases.wFlagged
                  = (Normal r, Cases.wFlagged))
    by (vm_compute; reflexivity).
  assert (Hin : In Cases.caseFlagged (Listing.data r)) by (left; reflexivity).
  split; [exact Hkeys|]. split; [exists r; split; [exact Hlist | exact Hin]|].
  destruct (reviewed_case_leaves_pending_list 30 Cases.approveAfterReview 1 20
              Cases.wFlagged r Cases.caseFlagged Hkeys Hlist Hin)
    as (k' & w' & Hrun & Hafter).
  exists k', w'. split; [exact Hrun|].
  intros r' Hr'. exact (proj2 (Hafter 1%Z 20%Z r' Hr')).
Defined.

(** ** Statistics *)

Lemma countStatus_all l :
  Z.of_nat (List.length l)
  = (countStatus PENDING l + countStatus IN_PROGRESS l + countStatus APPROVED l
     + countStatus REJECTED l + countStatus EXPIRED l
     + countStatus REQUIRES_REVIEW l)%Z.
Proof.
  unfold countStatus. induction l as [|r l IH]; [reflexivity|].
  cbn [List.length List.filter].
  destruct (status r);
    repeat match goal with
           | |- context [bool_decide (?a = ?b)] =>
               first [rewrite (bool_decide_eq_true_2 (a = b)) by reflexivity
                     |rewrite (bool_decide_eq_false_2 (a = b)) by discriminate]
           end;
    cbn [List.length]; lia.
Qed.

(** X25. getStatistics returns without changing anything, and its
    [total] is the sum of the four counts it reports and of the cases in
    the two states it does not report, IN_PROGRESS and EXPIRED; so the
    reported counts never sum to more than [total], and they sum to
    [total] exactly when no stored case is IN_PROGRESS or EXPIRED. *)
Theorem getStatistics_counts w :
  exists s,
    getStatistics w = (Normal s, w)
    /\ Statistics.total s
       = (Statistics.pending s + Statistics.approved s + Statistics.rejected s
          + Statistics.requiresReview s
          + countStatus IN_PROGRESS (rows w) + countStatus EXPIRED (rows w))%Z
    /\ (Statistics.pending s + Statistics.approved s + Statistics.rejected s
        + Statistics.requiresReview s <= Statistics.total s)%Z
    /\ ((Statistics.pending s + Statistics.approved s + Statistics.rejected s
         + Statistics.requiresReview s)%Z = Statistics.total s
        <-> forall r, In r (rows w) ->
              status r <> IN_PROGRESS /\ status r <> EXPIRED).
Proof.
  eexists. split; [reflexivity|].
  cbn [Statistics.total Statistics.pending Statistics.approved
       Statistics.rejected Statistics.requiresReview].
  pose proof (countStatus_all (rows w)) as Hall.
  assert (Hpos : forall st, (0 <= countStatus st (rows w))%Z)
    by (intros st; unfold countStatus; lia).
  pose proof (Hpos IN_PROGRESS). pose proof (Hpos EXPIRED).
  split; [lia|]. split; [lia|].
  assert (Hzero : forall st,
             countStatus st (rows w) = 0%Z
             <-> forall r, In r (rows w) -> status r <> st).
  { intros st. unfold countStatus. split.
    - intros Hcount r Hr Hst.
      assert (Hin : In r (List.filter (fun r => bool_decide (status r = st))
                            (rows w))).
      { apply filter_In. split; [assumption | now apply bool_decide_eq_true]. }
      destruct (List.filter _ (rows w)); [contradiction | cbn in Hcount; lia].
    - intros Hno.
      destruct (List.filter _ (rows w)) as [|x l] eqn:E; [reflexivity|].
      assert (Hx : In x (List.filter (fun r => bool_decide (status r = st))
                           (rows w))) by (rewrite E; now left).
      apply filter_In in Hx as [Hx Hst]. apply bool_decide_eq_true in Hst.
      now destruct (Hno x Hx). }
  split.
  - intros Hsum r Hr. split.
    + apply (proj1 (Hzero IN_PROGRESS)); [lia | assumption].
    + apply (proj1 (Hzero EXPIRED)); [lia | assumption].
  - intros Hno.
    assert (countStatus IN_PROGRESS (rows w) = 0%Z)
      by (apply Hzero; intros r Hr; now apply Hno).
    assert (countStatus EXPIRED (rows w) = 0%Z)
      by (apply Hzero; intros r Hr; now apply Hno).
    lia.
Qed.

(** ** The initiated events and the table *)

Lemma NoDup_map_id_eq (l : list KycVerification) a b :
  NoDup (map id l) -> In a l -> In b l -> id a = id b -> a = b.
Proof.
  induction l as [|r l IH]; intros Hnd Ha Hb E; [contradiction|].
  cbn [map] in Hnd. apply NoDup_cons in Hnd as [Hr Hnd].
  assert (Hnot : forall x, In x l -> id x <> id r).
  { intros x Hx Ex. apply Hr. rewrite <- Ex. apply list_elem_of_In, in_map, Hx. }
  destruct Ha as [<- | Ha], Hb as [<- | Hb].
  - reflexivity.
  - now destruct (Hnot b Hb).
  - now destruct (Hnot a Ha).
  - now apply IH.
Qed.

Lemma map_key_user_replaceRow k k' l :
  NoDup (map id l) -> In k l -> id k' = id k -> userId k' = userId k ->
  map (fun r => (id r, userId r)) (replaceRow k k' l)
  = map (fun r => (id r, userId r)) l.
Proof.
  intros Hnd Hin Hid Hu. unfold replaceRow. rewrite map_map.
  apply map_ext_in. intros r Hr. unfold sameId.
  destruct (id r =? id k)%nat eqn:E; [|reflexivity].
  apply Nat.eqb_eq in E.
  rewrite (NoDup_map_id_eq l r k Hnd Hr Hin E). now rewrite Hid, Hu.
Qed.

Lemma initiatedCases_app a b :
  initiatedCases (a ++ b) = (initiatedCases a ++ initiatedCases b)%list.
Proof. apply flat_map_app. Qed.

Lemma initiatedCases_webhookEvents old st vid k :
  initiatedCases (webhookEvents old st vid k) = [].
Proof.
  unfold webhookEvents.
  destruct (bool_decide (st = APPROVED)); [reflexivity|].
  destruct (bool_decide (st = REJECTED)); reflexivity.
Qed.

Lemma initiated_step c w :
  keysOk w ->
  initiatedCases (emitted w) = map (fun r => (id r, userId r)) (rows w) ->
  initiatedCases (emitted (run c w))
  = map (fun r => (id r, userId r)) (rows (run c w)).
Proof.
  intros Hkeys IH. pose proof Hkeys as [Hnd _].
  destruct c as [svc now dto | now i dto | now vid st data | now i dto | svc now i];
    cbn [run].
  - destruct (initiateKyc_cases svc now dto w Hkeys)
      as [[e ->] | (resp & k' & _ & -> & ->)]; [exact IH|].
    cbn [snd rows emitted]. rewrite initiatedCases_app, map_app, IH.
    reflexivity.
  - destruct (updateKyc_ends now i dto w) as [[e ->] | (k & Hfind & _ & ->)];
      [exact IH|].
    cbn [snd rows emitted]. rewrite IH. symmetry.
    apply map_key_user_replaceRow; [assumption | now apply find_some in Hfind | |].
    + apply (Object_assign_fixed k dto).
    + apply (Object_assign_sameSubject k dto).
  - destruct (handleWebhook_ends now vid st data w)
      as [[_ ->] | (k & Hfind & ->)]; [exact IH|].
    cbn [snd rows emitted].
    rewrite initiatedCases_app, initiatedCases_webhookEvents, app_nil_r, IH.
    symmetry.
    apply map_key_user_replaceRow; [assumption | now apply find_some in Hfind | |].
    + apply webhookAssign_id.
    + apply webhookAssign_userId.
  - destruct (manualReview_ends now i dto w)
      as [[e ->] | (k & Hfind & _ & ->)]; [exact IH|].
    cbn [snd rows emitted].
    rewrite initiatedCases_app, IH. cbn [initiatedCases flat_map].
    rewrite app_nil_r. symmetry.
    apply map_key_user_replaceRow;
      [assumption | now apply find_some in Hfind | reflexivity | reflexivity].
  - destruct (retryKyc_ends svc now i w)
      as [[e ->] | (k & resp & Hfind & ->)]; [exact IH|].
    cbn [snd rows emitted]. rewrite IH. symmetry.
    apply map_key_user_replaceRow;
      [assumption | now apply find_some in Hfind | reflexivity | reflexivity].
Qed.

(** X26. In every world reached from the empty one by the service's
    calls, the [kyc.initiated] events mirror the table: reading the key
    and the user off the initiated events, oldest first, gives the key and
    the user of the stored cases in table order.  So every stored case was
    announced by exactly one [kyc.initiated] event, no such event lacks
    its case, and a retry announces nothing. *)
Theorem initiated_events_mirror_table w :
  reachable w ->
  initiatedCases (emitted w) = map (fun r => (id r, userId r)) (rows w).
Proof.
  induction 1 as [|c w Hreach IH]; [reflexivity|].
  apply initiated_step; [now apply reachable_keysOk | exact IH].
Qed.

Lemma initiated_events_mirror_table_witness :
  reachable Scenario.wRejected3
  /\ initiatedCases (emitted Scenario.wRejected3)
     = map (fun r => (id r, userId r)) (rows Scenario.wRejected3).
Proof.
  split; [exact Scenario_wRejected3_reachable|].
  exact (initiated_events_mirror_table Scenario.wRejected3
           Scenario_wRejected3_reachable).
Defined.
